(** * Dashboard controller of the Grafana operator: a shallow embedding

    The development follows [controllers/dashboard_controller.go].  The
    controller talks to three kinds of collaborators that are not part of the
    file: the Kubernetes resource store, the Grafana HTTP API client and a few
    helpers of the operator (plugin reconciliation, instance selection, URL
    fetcher).  They are gathered in one interface, [Env], over an arbitrary
    type of world states; every controller function is written in a small
    state-and-trace monad over that interface and records each call that it
    makes, in order, so that statements such as "no backend write is issued"
    are statements about the recorded trace. *)

From Stdlib Require Import String Ascii List ZArith Bool Lia Arith PeanoNat.
From Stdlib Require Import Permutation DecimalString.
Import ListNotations.

Local Open Scope string_scope.
Local Open Scope list_scope.

Set Implicit Arguments.

(** ** Go values *)

(** [strings.Contains(s, substr)]. *)
Fixpoint Contains (s substr : string) : bool :=
  if String.prefix substr s then true
  else match s with
       | EmptyString => false
       | String _ s' => Contains s' substr
       end.

(** [strconv.FormatInt(i, 10)]. *)
Definition FormatInt (i : Z) : string := NilZero.string_of_int (Z.to_int i).

(** [int64(u)] for an unsigned 64-bit [u]: values from 2^63 on wrap around. *)
Definition int64_of_uint (u : Z) : Z :=
  if (u <? 2 ^ 63)%Z then u else (u - 2 ^ 64)%Z.

(** Go's [error] values as the controller meets them: plain [errors.New]
    strings (also what the Grafana client returns) and the typed status errors
    of [k8s.io/apimachinery/pkg/api/errors]. *)
Inductive StatusReason :=
| StatusReasonNotFound
| StatusReasonBadRequest
| StatusReasonInternalError
| StatusReasonConflict
| StatusReasonUnknown.

Inductive error :=
| errorString (s : string)
| StatusError (reason : StatusReason) (message : string).

(** [err.Error()]. *)
Definition Error (e : error) : string :=
  match e with
  | errorString s => s
  | StatusError _ m => m
  end.

Definition IsNotFound (e : error) : bool :=
  match e with
  | StatusError StatusReasonNotFound _ => true
  | _ => false
  end.

Definition NewInternalError (e : error) : error :=
  StatusError StatusReasonInternalError ("Internal error occurred: " ++ Error e).

Definition NewBadRequest (reason : string) : error :=
  StatusError StatusReasonBadRequest reason.

(** A library call that returns [(T, error)] and whose value is not looked at
    when the error is set. *)
Inductive result (A : Type) :=
| Ok (a : A)
| Err (e : error).
Arguments Ok {A} a.
Arguments Err {A} e.

(** A Go function either returns or panics (nil dereference, write to a nil
    map). *)
Inductive outcome (A : Type) :=
| Returns (a : A)
| Panics (what : string).
Arguments Returns {A} a.
Arguments Panics {A} what.

(** ** Resources of [api/v1beta1] *)

(** Modelled from the spec: an entry of the Tracked Dashboard List, a
    (namespace, name, backend-uid) triple; the type [NamespacedResource] and
    its list operations live in api/v1beta1, which is not part of the sources
    at hand. *)
Record NamespacedResource := {
  nr_namespace : string;
  nr_name : string;
  nr_uid : string
}.

Definition NamespacedResourceList := list NamespacedResource.

Definition Split (r : NamespacedResource) : string * string * string :=
  (nr_namespace r, nr_name r, nr_uid r).

Definition nr_matches (namespace name : string) (r : NamespacedResource) : bool :=
  (nr_namespace r =? namespace) && (nr_name r =? name).

(** Modelled from the spec: lookup of the entry of (namespace, name); the Go
    method returns [(found, *uid)], here [Some uid] stands for [found]. *)
Fixpoint NRL_Find (l : NamespacedResourceList) (namespace name : string)
  : option string :=
  match l with
  | [] => None
  | r :: rest =>
      if nr_matches namespace name r then Some (nr_uid r)
      else NRL_Find rest namespace name
  end.

(** Modelled from the spec: removal of every entry of (namespace, name). *)
Definition NRL_Remove (l : NamespacedResourceList) (namespace name : string)
  : NamespacedResourceList :=
  filter (fun r => negb (nr_matches namespace name r)) l.

(** Modelled from the spec: "append/update" keeping at most one entry per
    (namespace, name). *)
Definition NRL_Add (l : NamespacedResourceList) (namespace name uid : string)
  : NamespacedResourceList :=
  NRL_Remove l namespace name
    ++ [{| nr_namespace := namespace; nr_name := name; nr_uid := uid |}].

Definition OperatorStageComplete : string := "complete".
Definition OperatorStageResultSuccess : string := "success".

Record GrafanaStatus := {
  Stage : string;
  StageStatus : string;
  Status_Dashboards : NamespacedResourceList
}.

Record Grafana := {
  Grafana_Namespace : string;
  Grafana_Name : string;
  Grafana_Status : GrafanaStatus
}.

(** [grafana.Status.Dashboards = l]. *)
Definition set_Status_Dashboards (g : Grafana) (l : NamespacedResourceList)
  : Grafana :=
  {| Grafana_Namespace := Grafana_Namespace g;
     Grafana_Name := Grafana_Name g;
     Grafana_Status :=
       {| Stage := Stage (Grafana_Status g);
          StageStatus := StageStatus (Grafana_Status g);
          Status_Dashboards := l |} |}.

(** The zero value of the struct. *)
Definition zero_Grafana : Grafana :=
  {| Grafana_Namespace := ""; Grafana_Name := "";
     Grafana_Status := {| Stage := ""; StageStatus := ""; Status_Dashboards := [] |} |}.

Definition LabelSelector := list (string * string).

Record GrafanaPlugin := {
  Plugin_Name : string;
  Plugin_Version : string
}.

Inductive DashboardSourceType :=
| DashboardSourceTypeRawJson
| DashboardSourceTypeUrl
| DashboardSourceTypeOther (s : string).

Record GrafanaDashboardSpec := {
  Json : string;
  Url : string;
  FolderTitle : string;
  InstanceSelector : option LabelSelector;
  Plugins : list GrafanaPlugin
}.

Record GrafanaDashboard := {
  Dashboard_Namespace : string;
  Dashboard_Name : string;
  Dashboard_UID : string;
  Dashboard_Spec : GrafanaDashboardSpec;
  Status_Hash : string
}.

(** [cr.Spec.Json = j]. *)
Definition set_Spec_Json (cr : GrafanaDashboard) (j : string) : GrafanaDashboard :=
  {| Dashboard_Namespace := Dashboard_Namespace cr;
     Dashboard_Name := Dashboard_Name cr;
     Dashboard_UID := Dashboard_UID cr;
     Dashboard_Spec :=
       {| Json := j;
          Url := Url (Dashboard_Spec cr);
          FolderTitle := FolderTitle (Dashboard_Spec cr);
          InstanceSelector := InstanceSelector (Dashboard_Spec cr);
          Plugins := Plugins (Dashboard_Spec cr) |};
     Status_Hash := Status_Hash cr |}.

(** [cr.Status.Hash = h]. *)
Definition set_Status_Hash (cr : GrafanaDashboard) (h : string) : GrafanaDashboard :=
  {| Dashboard_Namespace := Dashboard_Namespace cr;
     Dashboard_Name := Dashboard_Name cr;
     Dashboard_UID := Dashboard_UID cr;
     Dashboard_Spec := Dashboard_Spec cr;
     Status_Hash := h |}.

(** [GrafanaDashboardList.Find(namespace, name) != nil]. *)
Definition DashboardList_Find (l : list GrafanaDashboard) (namespace name : string)
  : bool :=
  existsb (fun d => (Dashboard_Namespace d =? namespace) && (Dashboard_Name d =? name)) l.

(** ** Values of the Grafana API client *)

(** A decoded JSON value; arrays and objects below the top level are kept as
    their text, the controller never looks into them. *)
Inductive JsonValue :=
| JNull
| JBool (b : bool)
| JNumber (z : Z)
| JString (s : string)
| JRaw (text : string).

(** [map[string]interface{}]; a nil map is [None] where it matters. *)
Definition JsonMap := list (string * JsonValue).

(** [m[k] = v] on a map that is not nil. *)
Fixpoint map_set (m : JsonMap) (k : string) (v : JsonValue) : JsonMap :=
  match m with
  | [] => [(k, v)]
  | (k', v') :: rest =>
      if k' =? k then (k, v) :: rest else (k', v') :: map_set rest k v
  end.

Record FolderDashboardSearchResponse := {
  Search_UID : string;
  Search_FolderID : Z
}.

Record Folder := {
  Folder_ID : Z;
  Folder_Title : string
}.

Record DashboardMeta := {
  IsStarred : bool;
  Slug : string;
  Meta_Folder : Z
}.

Record Dashboard := {
  Meta : DashboardMeta;
  Model : JsonMap;
  Dashboard_Folder : Z;
  Overwrite : bool;
  Message : string
}.

Record DashboardSaveResponse := {
  Save_Status : string;
  Save_UID : string
}.

(** A [*grapi.Client]: it is bound to the instance it was built for. *)
Record Client := {
  Client_Namespace : string;
  Client_Name : string
}.

(** [http.Response], the two fields the controller sets. *)
Record Response := {
  Response_Status : string;
  StatusCode : Z
}.

(** [ctrl.Result]. *)
Record Result := {
  Requeue : bool;
  RequeueAfter : Z
}.

Definition Result_zero : Result := {| Requeue := false; RequeueAfter := 0 |}.
Definition Result_Requeue (b : bool) : Result := {| Requeue := b; RequeueAfter := 0 |}.
Definition Result_RequeueAfter (d : Z) : Result := {| Requeue := false; RequeueAfter := d |}.

Definition initialSyncDelay : string := "10s".
Definition syncBatchSize : nat := 100.

(** ** The collaborators *)

(** Every call that leaves the controller. *)
Inductive Event :=
| EvListGrafanas
| EvListDashboards
| EvGetDashboard (namespace name : string)
| EvUpdateGrafanaStatus (g : Grafana)
| EvUpdateDashboardStatus (cr : GrafanaDashboard)
| EvGetMatchingInstances (sel : LabelSelector)
| EvReconcilePlugins (g : Grafana) (plugins : list GrafanaPlugin) (tag : string)
| EvNewGrafanaClient (g : Grafana)
| EvFetchDashboardFromUrl (cr : GrafanaDashboard)
| EvDashboards (c : Client)
| EvDashboardByUID (c : Client) (uid : string)
| EvNewDashboard (c : Client) (d : Dashboard)
| EvDeleteDashboardByUID (c : Client) (uid : string)
| EvFolders (c : Client)
| EvNewFolder (c : Client) (title : string)
| EvDeleteFolder (c : Client) (id : string).

(** The resource store, the operator's helpers and the Grafana API, as
    transitions of a world [W]. *)
Record Env (W : Type) := {
  (* r.Client *)
  ListGrafanas : W -> result (list Grafana) * W;
  ListDashboards : W -> result (list GrafanaDashboard) * W;
  GetDashboard : string -> string -> W -> result GrafanaDashboard * W;
  UpdateGrafanaStatus : Grafana -> W -> option error * W;
  UpdateDashboardStatus : GrafanaDashboard -> W -> option error * W;
  (* helpers of the operator *)
  GetMatchingInstances : LabelSelector -> W -> result (list Grafana) * W;
  ReconcilePlugins : Grafana -> list GrafanaPlugin -> string -> W -> option error * W;
  NewGrafanaClient : Grafana -> W -> result Client * W;
  FetchDashboardFromUrl : GrafanaDashboard -> W -> result string * W;
  (* grapi.Client *)
  Dashboards : Client -> W -> result (list FolderDashboardSearchResponse) * W;
  DashboardByUID : Client -> string -> W -> (option Dashboard * option error) * W;
  NewDashboard : Client -> Dashboard -> W -> result DashboardSaveResponse * W;
  DeleteDashboardByUID : Client -> string -> W -> option error * W;
  Folders : Client -> W -> result (list Folder) * W;
  NewFolder : Client -> string -> W -> result Folder * W;
  DeleteFolder : Client -> string -> W -> option error * W
}.

(** Which events are writes to a Grafana backend, and which are deletions of
    a dashboard. *)
Definition is_dashboard_write (e : Event) : bool :=
  match e with EvNewDashboard _ _ => true | _ => false end.

Definition is_backend_write (e : Event) : bool :=
  match e with
  | EvNewDashboard _ _ | EvDeleteDashboardByUID _ _
  | EvNewFolder _ _ | EvDeleteFolder _ _ => true
  | _ => false
  end.

Definition is_folder_call (e : Event) : bool :=
  match e with
  | EvFolders _ | EvNewFolder _ _ | EvDeleteFolder _ _ => true
  | _ => false
  end.

Definition is_dashboard_delete (e : Event) : bool :=
  match e with EvDeleteDashboardByUID _ _ => true | _ => false end.

Definition is_status_write (e : Event) : bool :=
  match e with
  | EvUpdateGrafanaStatus _ | EvUpdateDashboardStatus _ => true
  | _ => false
  end.

Definition is_grafana_status_write (e : Event) : bool :=
  match e with EvUpdateGrafanaStatus _ => true | _ => false end.

Definition count_events (p : Event -> bool) (t : list Event) : nat :=
  length (filter p t).

(** ** The monad: a world and the calls made so far *)

Module Run.
Section Monad.
Variable W : Type.

Definition M (A : Type) : Type := W -> A * W * list Event.

Definition ret {A} (a : A) : M A := fun w => (a, w, []).

Definition bind {A B} (m : M A) (f : A -> M B) : M B :=
  fun w =>
    let '(a, w1, t1) := m w in
    let '(b, w2, t2) := f a w1 in
    (b, w2, t1 ++ t2).

(** One call to a collaborator, recorded. *)
Definition call {A} (ev : Event) (op : W -> A * W) : M A :=
  fun w => let '(a, w') := op w in (a, w', [ev]).
End Monad.
End Run.

Import Run.
Arguments ret {W A} a.
Arguments bind {W A B} m f.
Arguments call {W A} ev op.

Declare Scope go_scope.
Delimit Scope go_scope with go.
Notation "x <- m ;; k" := (bind m (fun x => k))
  (at level 100, m at next level, right associativity) : go_scope.
Notation "' p <- m ;; k" := (bind m (fun x => match x with p => k end))
  (at level 100, p pattern, m at next level, right associativity) : go_scope.
Local Open Scope go_scope.

(** The value, the world and the trace of a run. *)
Definition value_of {W A} (r : A * W * list Event) : A := fst (fst r).
Definition world_of {W A} (r : A * W * list Event) : W := snd (fst r).
Definition trace_of {W A} (r : A * W * list Event) : list Event := snd r.

(** ** The controller *)

(** How [for _, grafana := range items] declares its variable: once for the
    whole loop (the language before Go 1.22) or once per iteration (from Go
    1.22 on).  [syncDashboards] takes the address of that variable, so the
    difference is visible there. *)
Inductive LoopVar :=
| PerLoop
| PerIteration.

(** The address of the loop variable in iteration [i]. *)
Definition loopvar_addr (sem : LoopVar) (i : nat) : nat :=
  match sem with
  | PerLoop => 0
  | PerIteration => i
  end.

(** What a loop body asks for: go on with the next iteration carrying the
    loop's variables, or return from the enclosing function. *)
Inductive flow (S R : Type) :=
| Next (s : S)
| Return (r : R).
Arguments Next {S R} s.
Arguments Return {S R} r.

Section Controller.
Variable W : Type.
Variable env : Env W.

(** Declared in packages that are not part of the sources at hand. *)
Variable RequeueDelayError : Z.
Variable GetResyncPeriod : GrafanaDashboard -> Z.
Variable GetSourceTypes : GrafanaDashboard -> list DashboardSourceType.
(** The digest behind [cr.Hash()]. *)
Variable hash : string -> string.
(** [json.Unmarshal] into a [map[string]interface{}]: an error, or the map,
    which stays nil ([None]) when the document is [null]. *)
Variable json_Unmarshal : string -> result (option JsonMap).
(** The statement [range] over a map visits the entries in an order of its
    own choosing. *)
Variable range_order : list (nat * list NamespacedResource)
                       -> list (nat * list NamespacedResource).
Variable loopvar : LoopVar.

Abbreviation M := (Run.M W).

(** Modelled from the spec: [cr.Hash()] is the digest of the resolved
    dashboard JSON, which the controller keeps in [Spec.Json]; the method is
    declared in api/v1beta1. *)
Definition Hash (cr : GrafanaDashboard) : string :=
  hash (Json (Dashboard_Spec cr)).

(** Modelled from the spec: [cr.Unchanged()], the hash in status equals the
    hash of the content; the method is declared in api/v1beta1. *)
Definition Unchanged (cr : GrafanaDashboard) : bool :=
  Hash cr =? Status_Hash cr.

(** *** Folders *)

Fixpoint GetFolderID_loop (title : string) (folders : list Folder) : Z :=
  match folders with
  | [] => 0%Z
  | folder :: rest =>
      if Folder_Title folder =? title then Folder_ID folder
      else GetFolderID_loop title rest
  end.

Definition GetFolderID (client : Client) (cr : GrafanaDashboard)
  : M (Z * option error) :=
  r <- call (EvFolders client) (Folders env client);;
  match r with
  | Err e => ret (0%Z, Some e)
  | Ok folders =>
      ret (GetFolderID_loop (FolderTitle (Dashboard_Spec cr)) folders, None)
  end.

Definition GetOrCreateFolder (client : Client) (cr : GrafanaDashboard)
  : M (Z * option error) :=
  if FolderTitle (Dashboard_Spec cr) =? "" then ret (0%Z, None)
  else
    '(folderID, err) <- GetFolderID client cr;;
    match err with
    | Some e => ret (0%Z, Some e)
    | None =>
        if negb (folderID =? 0)%Z then ret (folderID, None)
        else
          (* Folder wasn't found, let's create it *)
          r <- call (EvNewFolder client (FolderTitle (Dashboard_Spec cr)))
                    (NewFolder env client (FolderTitle (Dashboard_Spec cr)));;
          match r with
          | Err e => ret (0%Z, Some e)
          | Ok resp => ret (Folder_ID resp, None)
          end
    end.

Definition DeleteFolderIfEmpty (client : Client) (folderID : Z)
  : M (Response * option error) :=
  r <- call (EvDashboards client) (Dashboards env client);;
  match r with
  | Err e =>
      ret ({| Response_Status := "internal grafana client error getting dashboards";
              StatusCode := 500 |}, Some e)
  | Ok dashboards =>
      if existsb (fun dashboard =>
                    (int64_of_uint (Search_FolderID dashboard) =? folderID)%Z)
                 dashboards
      then ret ({| Response_Status := "resource is still in use";
                   StatusCode := 423 |}, None)
      else
        err <- call (EvDeleteFolder client (FormatInt folderID))
                    (DeleteFolder env client (FormatInt folderID));;
        match err with
        | Some e =>
            ret ({| Response_Status := "internal grafana client error deleting grafana folder";
                    StatusCode := 500 |}, Some e)
        | None =>
            ret ({| Response_Status := "grafana folder deleted";
                    StatusCode := 200 |}, None)
        end
  end.

(** *** Creation and update *)

Definition Exists (client : Client) (cr : GrafanaDashboard)
  : M (bool * option error) :=
  r <- call (EvDashboards client) (Dashboards env client);;
  match r with
  | Err e => ret (false, Some e)
  | Ok dashboards =>
      ret (existsb (fun dashboard => Search_UID dashboard =? Dashboard_UID cr)
                   dashboards, None)
  end.

Definition fetchDashboardJson (dashboard : GrafanaDashboard) : M (result string) :=
  let sourceTypes := GetSourceTypes dashboard in
  if (length sourceTypes =? 0)%nat then
    ret (Err (errorString ("no source type provided for dashboard "
                           ++ Dashboard_Name dashboard)))
  else if (1 <? length sourceTypes)%nat then
    ret (Err (errorString ("more than one source types found for dashboard "
                           ++ Dashboard_Name dashboard)))
  else
    match hd (DashboardSourceTypeOther "") sourceTypes with
    | DashboardSourceTypeRawJson => ret (Ok (Json (Dashboard_Spec dashboard)))
    | DashboardSourceTypeUrl =>
        call (EvFetchDashboardFromUrl dashboard) (FetchDashboardFromUrl env dashboard)
    | DashboardSourceTypeOther s =>
        ret (Err (errorString ("unknown source type " ++ s ++ " found in dashboard "
                               ++ Dashboard_Name dashboard)))
    end.

Definition UpdateStatus (cr : GrafanaDashboard)
  : M (option error * GrafanaDashboard) :=
  let cr := set_Status_Hash cr (Hash cr) in
  err <- call (EvUpdateDashboardStatus cr) (UpdateDashboardStatus env cr);;
  ret (err, cr).

(** [grafana] and [cr] are pointers: the function returns, next to its
    error, the two objects as it leaves them. *)
Definition onDashboardCreated (grafana : Grafana) (cr : GrafanaDashboard)
  : M (outcome (option error) * Grafana * GrafanaDashboard) :=
  r <- fetchDashboardJson cr;;
  match r with
  | Err e => ret (Returns (Some e), grafana, cr)
  | Ok dashboardJson =>
      (* Spec.Json is used to calculate hash *)
      let cr := set_Spec_Json cr dashboardJson in
      r <- call (EvNewGrafanaClient grafana) (NewGrafanaClient env grafana);;
      match r with
      | Err e => ret (Returns (Some e), grafana, cr)
      | Ok grafanaClient =>
          '(exists_, err) <- Exists grafanaClient cr;;
          match err with
          | Some e => ret (Returns (Some e), grafana, cr)
          | None =>
              if exists_ && Unchanged cr then ret (Returns None, grafana, cr)
              else
                match json_Unmarshal dashboardJson with
                | Err e => ret (Returns (Some e), grafana, cr)
                | Ok dashboardFromJson =>
                    '(folderID, err) <- GetOrCreateFolder grafanaClient cr;;
                    match err with
                    | Some e => ret (Returns (Some (NewInternalError e)), grafana, cr)
                    | None =>
                        match dashboardFromJson with
                        | None => ret (Panics "assignment to entry in nil map", grafana, cr)
                        | Some model =>
                            let d :=
                              {| Meta := {| IsStarred := false;
                                            Slug := Dashboard_Name cr;
                                            Meta_Folder := folderID |};
                                 Model := map_set model "uid" (JString (Dashboard_UID cr));
                                 Dashboard_Folder := 0;
                                 Overwrite := true;
                                 Message := "" |} in
                            r <- call (EvNewDashboard grafanaClient d)
                                      (NewDashboard env grafanaClient d);;
                            match r with
                            | Err e => ret (Returns (Some e), grafana, cr)
                            | Ok resp =>
                                if negb (Save_Status resp =? "success") then
                                  ret (Returns (Some (NewBadRequest
                                         ("error creating dashboard, status was "
                                          ++ Save_Status resp))), grafana, cr)
                                else
                                  let grafana :=
                                    set_Status_Dashboards grafana
                                      (NRL_Add (Status_Dashboards (Grafana_Status grafana))
                                               (Dashboard_Namespace cr) (Dashboard_Name cr)
                                               (Save_UID resp)) in
                                  err <- call (EvUpdateGrafanaStatus grafana)
                                              (UpdateGrafanaStatus env grafana);;
                                  match err with
                                  | Some e => ret (Returns (Some e), grafana, cr)
                                  | None =>
                                      '(err, cr) <- UpdateStatus cr;;
                                      ret (Returns err, grafana, cr)
                                  end
                            end
                        end
                    end
                end
          end
      end
  end.

(** *** Deletion *)

(** [err != nil && !strings.Contains(err.Error(), "status: 404")]. *)
Definition not_404 (err : option error) : bool :=
  match err with
  | Some e => negb (Contains (Error e) "status: 404")
  | None => false
  end.

Fixpoint onDashboardDeleted_loop (items : list Grafana) (namespace name : string)
  : M (outcome (option error)) :=
  match items with
  | [] => ret (Returns None)
  | grafana :: rest =>
      match NRL_Find (Status_Dashboards (Grafana_Status grafana)) namespace name with
      | None => onDashboardDeleted_loop rest namespace name
      | Some uid =>
          r <- call (EvNewGrafanaClient grafana) (NewGrafanaClient env grafana);;
          match r with
          | Err e => ret (Returns (Some e))
          | Ok grafanaClient =>
              '(dash, err) <- call (EvDashboardByUID grafanaClient uid)
                                   (DashboardByUID env grafanaClient uid);;
              if not_404 err then ret (Returns err)
              else
                match dash with
                | None => ret (Panics "nil pointer dereference")
                | Some dash =>
                    let folderID := Dashboard_Folder dash in
                    err <- call (EvDeleteDashboardByUID grafanaClient uid)
                                (DeleteDashboardByUID env grafanaClient uid);;
                    if not_404 err then ret (Returns err)
                    else
                      '(resp, err) <- DeleteFolderIfEmpty grafanaClient folderID;;
                      match err with
                      | Some e => ret (Returns (Some e))
                      | None =>
                          err <- call (EvReconcilePlugins grafana [] (name ++ "-dashboard"))
                                      (ReconcilePlugins env grafana [] (name ++ "-dashboard"));;
                          match err with
                          | Some e => ret (Returns (Some e))
                          | None =>
                              let grafana :=
                                set_Status_Dashboards grafana
                                  (NRL_Remove (Status_Dashboards (Grafana_Status grafana))
                                              namespace name) in
                              err <- call (EvUpdateGrafanaStatus grafana)
                                          (UpdateGrafanaStatus env grafana);;
                              match err with
                              | Some e => ret (Returns (Some e))
                              | None => onDashboardDeleted_loop rest namespace name
                              end
                          end
                      end
                end
          end
      end
  end.

Definition onDashboardDeleted (namespace name : string)
  : M (outcome (option error)) :=
  r <- call EvListGrafanas (ListGrafanas env);;
  match r with
  | Err e => ret (Returns (Some e))
  | Ok items => onDashboardDeleted_loop items namespace name
  end.

(** *** The orphan sweep *)

(** [dashboardsToDelete[p] = append(dashboardsToDelete[p], d)] on a map
    whose keys are addresses. *)
Fixpoint map_append (m : list (nat * list NamespacedResource)) (p : nat)
         (d : NamespacedResource) : list (nat * list NamespacedResource) :=
  match m with
  | [] => [(p, [d])]
  | (q, ds) :: rest =>
      if (q =? p)%nat then (q, ds ++ [d]) :: rest
      else (q, ds) :: map_append rest p d
  end.

(** [*p = g]. *)
Definition heap_store (heap : nat -> Grafana) (p : nat) (g : Grafana)
  : nat -> Grafana :=
  fun q => if (q =? p)%nat then g else heap q.

(** The loop that fills [dashboardsToDelete]; [i] counts the iterations and
    [heap] holds the loop variables whose address was taken. *)
Fixpoint collect_orphans (allDashboards : list GrafanaDashboard)
         (items : list Grafana) (i : nat) (heap : nat -> Grafana)
         (m : list (nat * list NamespacedResource))
  : (nat -> Grafana) * list (nat * list NamespacedResource) :=
  match items with
  | [] => (heap, m)
  | grafana :: rest =>
      let p := loopvar_addr loopvar i in
      let heap := heap_store heap p grafana in
      let m :=
        fold_left
          (fun m dashboard =>
             if negb (DashboardList_Find allDashboards
                        (nr_namespace dashboard) (nr_name dashboard))
             then map_append m p dashboard
             else m)
          (Status_Dashboards (Grafana_Status grafana)) m in
      collect_orphans allDashboards rest (S i) heap m
  end.

(** The inner loop over the orphans of one instance. *)
Fixpoint sync_delete_loop (grafanaClient : Client)
         (dashboards : list NamespacedResource) (grafana : Grafana)
         (dashboardsSynced : nat)
  : M (flow (Grafana * nat) (Result * option error)) :=
  match dashboards with
  | [] => ret (Next (grafana, dashboardsSynced))
  | dashboard :: rest =>
      if (syncBatchSize <=? dashboardsSynced)%nat then
        ret (Return (Result_Requeue true, None))
      else
        let '(namespace, name, uid) := Split dashboard in
        err <- call (EvDeleteDashboardByUID grafanaClient uid)
                    (DeleteDashboardByUID env grafanaClient uid);;
        match err with
        | Some e => ret (Return (Result_Requeue false, Some e))
        | None =>
            sync_delete_loop grafanaClient rest
              (set_Status_Dashboards grafana
                 (NRL_Remove (Status_Dashboards (Grafana_Status grafana))
                             namespace name))
              (S dashboardsSynced)
        end
  end.

(** The outer loop over the entries of [dashboardsToDelete]. *)
Fixpoint sync_instances (heap : nat -> Grafana)
         (entries : list (nat * list NamespacedResource))
         (dashboardsSynced : nat) : M (Result * option error) :=
  match entries with
  | [] => ret (Result_Requeue false, None)
  | (p, dashboards) :: rest =>
      let grafana := heap p in
      r <- call (EvNewGrafanaClient grafana) (NewGrafanaClient env grafana);;
      match r with
      | Err e => ret (Result_Requeue true, Some e)
      | Ok grafanaClient =>
          f <- sync_delete_loop grafanaClient dashboards grafana dashboardsSynced;;
          match f with
          | Return r => ret r
          | Next (grafana, dashboardsSynced) =>
              (* one update per grafana *)
              err <- call (EvUpdateGrafanaStatus grafana)
                          (UpdateGrafanaStatus env grafana);;
              match err with
              | Some e => ret (Result_Requeue false, Some e)
              | None =>
                  sync_instances (heap_store heap p grafana) rest dashboardsSynced
              end
          end
      end
  end.

Definition dashboardsToDelete (grafanas : list Grafana)
           (allDashboards : list GrafanaDashboard)
  : (nat -> Grafana) * list (nat * list NamespacedResource) :=
  collect_orphans allDashboards grafanas 0 (fun _ => zero_Grafana) [].

Definition syncDashboards : M (Result * option error) :=
  r <- call EvListGrafanas (ListGrafanas env);;
  match r with
  | Err e => ret (Result_Requeue true, Some e)
  | Ok grafanas =>
      (* no instances, no need to sync *)
      if (length grafanas =? 0)%nat then ret (Result_Requeue false, None)
      else
        r <- call EvListDashboards (ListDashboards env);;
        match r with
        | Err e => ret (Result_Requeue true, Some e)
        | Ok allDashboards =>
            let '(heap, todo) := dashboardsToDelete grafanas allDashboards in
            sync_instances heap (range_order todo) 0
        end
  end.

(** *** Reconcile *)

Definition instance_ready (grafana : Grafana) : bool :=
  (Stage (Grafana_Status grafana) =? OperatorStageComplete)
  && (StageStatus (Grafana_Status grafana) =? OperatorStageResultSuccess).

(** The loop over the matching instances; [dashboard] is one object shared
    by all iterations. *)
Fixpoint Reconcile_loop (instances : list Grafana) (dashboard : GrafanaDashboard)
         (success : bool) : M (outcome bool * GrafanaDashboard) :=
  match instances with
  | [] => ret (Returns success, dashboard)
  | grafana :: rest =>
      if negb (instance_ready grafana) then Reconcile_loop rest dashboard false
      else
        (* first reconcile the plugins *)
        err <- call (EvReconcilePlugins grafana (Plugins (Dashboard_Spec dashboard))
                       (Dashboard_Name dashboard ++ "-dashboard"))
                    (ReconcilePlugins env grafana (Plugins (Dashboard_Spec dashboard))
                       (Dashboard_Name dashboard ++ "-dashboard"));;
        let success := match err with Some _ => false | None => success end in
        (* then import the dashboard into the matching grafana instances *)
        '(o, _, dashboard) <- onDashboardCreated grafana dashboard;;
        match o with
        | Panics what => ret (Panics what, dashboard)
        | Returns err =>
            let success := match err with Some _ => false | None => success end in
            Reconcile_loop rest dashboard success
        end
  end.

Record Request := {
  Request_Namespace : string;
  Request_Name : string
}.

Definition Reconcile (req : Request) : M (outcome (Result * option error)) :=
  (* periodic sync reconcile *)
  if (Request_Namespace req =? "") && (Request_Name req =? "") then
    r <- syncDashboards;;
    ret (Returns r)
  else
    r <- call (EvGetDashboard (Request_Namespace req) (Request_Name req))
              (GetDashboard env (Request_Namespace req) (Request_Name req));;
    match r with
    | Err e =>
        if IsNotFound e then
          o <- onDashboardDeleted (Request_Namespace req) (Request_Name req);;
          match o with
          | Panics what => ret (Panics what)
          | Returns (Some e) => ret (Returns (Result_RequeueAfter RequeueDelayError, Some e))
          | Returns None => ret (Returns (Result_zero, None))
          end
        else ret (Returns (Result_RequeueAfter RequeueDelayError, Some e))
    | Ok dashboard =>
        (* skip dashboards without an instance selector *)
        match InstanceSelector (Dashboard_Spec dashboard) with
        | None => ret (Returns (Result_RequeueAfter RequeueDelayError, None))
        | Some selector =>
            r <- call (EvGetMatchingInstances selector)
                      (GetMatchingInstances env selector);;
            match r with
            | Err e => ret (Returns (Result_RequeueAfter RequeueDelayError, Some e))
            | Ok instances =>
                if (length instances =? 0)%nat then ret (Returns (Result_Requeue false, None))
                else
                  '(o, dashboard) <- Reconcile_loop instances dashboard true;;
                  match o with
                  | Panics what => ret (Panics what)
                  | Returns success =>
                      if success
                      then ret (Returns (Result_RequeueAfter (GetResyncPeriod dashboard), None))
                      else ret (Returns (Result_RequeueAfter RequeueDelayError, None))
                  end
            end
        end
    end.

(** *** The log lines after the folder cleanup

    What [onDashboardDeleted] writes to its log once [DeleteFolderIfEmpty]
    has returned without error: one comparison per message. *)
Definition folder_cleanup_log (resp : Response) : list string :=
  (if (StatusCode resp =? 200)%Z then ["unused folder successfully removed"] else [])
    ++ (if (StatusCode resp =? 432)%Z then ["folder still in use by other dashboards"]
        else []).

(** *** The background sweep of [SetupWithManager]

    The goroutine waits in a [select] for the stop channel or for the timer
    of [initialSyncDelay]; a list of signals says which of the two fires at
    each round. *)
Inductive Signal :=
| StopSignal
| TimerSignal.

Inductive TaskState :=
| TaskWaiting
| TaskStopped
| TaskComplete
| TaskPanicked (what : string).

Fixpoint sync_task (signals : list Signal) : M TaskState :=
  match signals with
  | [] => ret TaskWaiting
  | StopSignal :: _ => ret TaskStopped
  | TimerSignal :: rest =>
      o <- Reconcile {| Request_Namespace := ""; Request_Name := "" |};;
      match o with
      | Panics what => ret (TaskPanicked what)
      | Returns (result, Some _) =>
          (* error synchronizing dashboards *)
          sync_task rest
      | Returns (result, None) =>
          if Requeue result
          then (* more dashboards left to synchronize *) sync_task rest
          else (* dashboard sync complete *) ret TaskComplete
      end
  end.

(** [SetupWithManager]: the task is started only when the controller was
    registered without error ([complete] is the error of that
    registration). *)
Definition SetupWithManager (complete : option error) (signals : list Signal)
  : M (option error * option TaskState) :=
  match complete with
  | None => state <- sync_task signals;; ret (None, Some state)
  | Some e => ret (Some e, None)
  end.

End Controller.

(** ** The instrumented round tripper of [controllers/client] *)

Module RoundTripper.

(** [http.Request] and [http.Response], the fields that are read. *)
Record HttpRequest := {
  Method : string;
  URL : string
}.

Record HttpResponse := {
  Http_StatusCode : Z
}.

(** The label values of one counter of the [prometheus.CounterVec]. *)
Definition Labels : Type := string * string * string.

Definition Labels_eqb (a b : Labels) : bool :=
  let '(a1, a2, a3) := a in
  let '(b1, b2, b3) := b in
  (a1 =? b1) && (a2 =? b2) && (a3 =? b3).

(** The counters, by label values. *)
Definition CounterVec : Type := Labels -> nat.

(** [metric.WithLabelValues(l...).Inc()]. *)
Definition Inc (metric : CounterVec) (l : Labels) : CounterVec :=
  fun k => if Labels_eqb k l then S (metric k) else metric k.

(** [strconv.Itoa]. *)
Definition Itoa (i : Z) : string := FormatInt i.

Section Instrumented.
(** The state of the network behind the wrapped transport. *)
Variable N : Type.

Record instrumentedRoundTripper := {
  relatedResource : string;
  wrapped : HttpRequest -> N -> (option HttpResponse * option error) * N
}.

(** [RoundTrip]; the counters are the state of [in.metric]. *)
Definition RoundTrip (in_ : instrumentedRoundTripper) (r : HttpRequest)
           (st : N * CounterVec)
  : (option HttpResponse * option error) * (N * CounterVec) :=
  let '(n, metric) := st in
  let '((resp, err), n') := wrapped in_ r n in
  let metric' :=
    match resp with
    | Some resp' =>
        Inc metric (relatedResource in_, Method r, Itoa (Http_StatusCode resp'))
    | None => metric
    end in
  ((resp, err), (n', metric')).

(** A sequence of round trips, with what each one returned. *)
Fixpoint round_trips (in_ : instrumentedRoundTripper) (rs : list HttpRequest)
         (st : N * CounterVec)
  : list (HttpRequest * (option HttpResponse * option error)) * (N * CounterVec) :=
  match rs with
  | [] => ([], st)
  | r :: rest =>
      let '(out, st') := RoundTrip in_ r st in
      let '(outs, st'') := round_trips in_ rest st' in
      ((r, out) :: outs, st'')
  end.

End Instrumented.
End RoundTripper.

(** ** A reference environment

    A small executable world against which the controller can be run: the
    resource store holds the instances and the dashboard resources, and every
    instance has a backend with its dashboards and folders.  The backend
    answers as the Grafana API client does: a failed request yields the error
    ["status: <code>, body: ..."] and no value. *)

Module Sim.

Record Backend := {
  backend_dashboards : list FolderDashboardSearchResponse;
  backend_folders : list Folder
}.

Record World := {
  grafanas : list Grafana;
  dashboards : list GrafanaDashboard;
  backends : list (string * Backend)
}.

Definition not_found : error := errorString "status: 404, body: not found".

Definition backend_of (w : World) (c : Client) : Backend :=
  match find (fun kb => fst kb =? Client_Name c) (backends w) with
  | Some kb => snd kb
  | None => {| backend_dashboards := []; backend_folders := [] |}
  end.

Definition set_backend (w : World) (c : Client) (b : Backend) : World :=
  {| grafanas := grafanas w;
     dashboards := dashboards w;
     backends :=
       (Client_Name c, b)
         :: filter (fun kb => negb (fst kb =? Client_Name c)) (backends w) |}.

Definition same_grafana (g h : Grafana) : bool :=
  (Grafana_Namespace g =? Grafana_Namespace h) && (Grafana_Name g =? Grafana_Name h).

Definition same_dashboard (c d : GrafanaDashboard) : bool :=
  (Dashboard_Namespace c =? Dashboard_Namespace d)
  && (Dashboard_Name c =? Dashboard_Name d).

Definition update_grafana_status (g : Grafana) (w : World) : option error * World :=
  (None,
   {| grafanas :=
        map (fun h => if same_grafana g h
                      then set_Status_Dashboards h (Status_Dashboards (Grafana_Status g))
                      else h) (grafanas w);
      dashboards := dashboards w;
      backends := backends w |}).

Definition update_dashboard_status (cr : GrafanaDashboard) (w : World)
  : option error * World :=
  (None,
   {| grafanas := grafanas w;
      dashboards :=
        map (fun d => if same_dashboard cr d then set_Status_Hash d (Status_Hash cr) else d)
            (dashboards w);
      backends := backends w |}).

Definition get_dashboard (namespace name : string) (w : World)
  : result GrafanaDashboard * World :=
  match find (fun d => (Dashboard_Namespace d =? namespace) && (Dashboard_Name d =? name))
             (dashboards w) with
  | Some d => (Ok d, w)
  | None => (Err (StatusError StatusReasonNotFound "not found"), w)
  end.

Definition has_uid (uid : string) (d : FolderDashboardSearchResponse) : bool :=
  Search_UID d =? uid.

Definition dashboard_by_uid (c : Client) (uid : string) (w : World)
  : (option Dashboard * option error) * World :=
  match find (has_uid uid) (backend_dashboards (backend_of w c)) with
  | Some d =>
      ((Some {| Meta := {| IsStarred := false; Slug := uid;
                           Meta_Folder := Search_FolderID d |};
                Model := [("uid", JString uid)];
                Dashboard_Folder := Search_FolderID d;
                Overwrite := false;
                Message := "" |}, None), w)
  | None => ((None, Some not_found), w)
  end.

Definition model_uid (m : JsonMap) : string :=
  match find (fun kv => fst kv =? "uid") m with
  | Some (_, JString s) => s
  | _ => ""
  end.

Definition new_dashboard (c : Client) (d : Dashboard) (w : World)
  : result DashboardSaveResponse * World :=
  let b := backend_of w c in
  let uid := model_uid (Model d) in
  (Ok {| Save_Status := "success"; Save_UID := uid |},
   set_backend w c
     {| backend_dashboards :=
          filter (fun x => negb (has_uid uid x)) (backend_dashboards b)
            ++ [{| Search_UID := uid; Search_FolderID := Meta_Folder (Meta d) |}];
        backend_folders := backend_folders b |}).

Definition delete_dashboard_by_uid (c : Client) (uid : string) (w : World)
  : option error * World :=
  let b := backend_of w c in
  if existsb (has_uid uid) (backend_dashboards b) then
    (None,
     set_backend w c
       {| backend_dashboards := filter (fun x => negb (has_uid uid x)) (backend_dashboards b);
          backend_folders := backend_folders b |})
  else (Some not_found, w).

Definition next_folder_id (b : Backend) : Z :=
  (1 + fold_right Z.max 0 (map Folder_ID (backend_folders b)))%Z.

Definition new_folder (c : Client) (title : string) (w : World)
  : result Folder * World :=
  let b := backend_of w c in
  let f := {| Folder_ID := next_folder_id b; Folder_Title := title |} in
  (Ok f,
   set_backend w c
     {| backend_dashboards := backend_dashboards b;
        backend_folders := backend_folders b ++ [f] |}).

Definition delete_folder (c : Client) (id : string) (w : World)
  : option error * World :=
  let b := backend_of w c in
  if existsb (fun f => FormatInt (Folder_ID f) =? id) (backend_folders b) then
    (None,
     set_backend w c
       {| backend_dashboards := backend_dashboards b;
          backend_folders :=
            filter (fun f => negb (FormatInt (Folder_ID f) =? id)) (backend_folders b) |})
  else (Some not_found, w).

(** The environment, given the behaviour of create-or-overwrite. *)
Definition env_with
           (create : Client -> Dashboard -> World -> result DashboardSaveResponse * World)
  : Env World := {|
  ListGrafanas := fun w => (Ok (grafanas w), w);
  ListDashboards := fun w => (Ok (dashboards w), w);
  GetDashboard := get_dashboard;
  UpdateGrafanaStatus := update_grafana_status;
  UpdateDashboardStatus := update_dashboard_status;
  GetMatchingInstances := fun _ w => (Ok (grafanas w), w);
  ReconcilePlugins := fun _ _ _ w => (None, w);
  NewGrafanaClient := fun g w =>
    (Ok {| Client_Namespace := Grafana_Namespace g; Client_Name := Grafana_Name g |}, w);
  FetchDashboardFromUrl := fun cr w => (Ok "{}", w);
  Dashboards := fun c w => (Ok (backend_dashboards (backend_of w c)), w);
  DashboardByUID := dashboard_by_uid;
  NewDashboard := create;
  DeleteDashboardByUID := delete_dashboard_by_uid;
  Folders := fun c w => (Ok (backend_folders (backend_of w c)), w);
  NewFolder := new_folder;
  DeleteFolder := delete_folder
|}.

Definition env : Env World := env_with new_dashboard.


(** The missing pieces of api/v1beta1 and of the Go library, for the runs
    below: a resource has the sources whose field is set, the digest is the
    content itself, every document decodes to an empty object. *)
Definition source_types (cr : GrafanaDashboard) : list DashboardSourceType :=
  (if Json (Dashboard_Spec cr) =? "" then [] else [DashboardSourceTypeRawJson])
    ++ (if Url (Dashboard_Spec cr) =? "" then [] else [DashboardSourceTypeUrl]).

Definition digest (s : string) : string := s.

Definition unmarshal (s : string) : result (option JsonMap) :=
  if s =? "null" then Ok None else Ok (Some []).

Definition error_delay : Z := 10.
Definition resync_period (cr : GrafanaDashboard) : Z := 300.

Definition in_order (l : list (nat * list NamespacedResource)) := l.

(** Builders for the scenarios. *)
Definition tracked (prefix : string) (n : nat) : NamespacedResource :=
  {| nr_namespace := "ns";
     nr_name := prefix ++ String (ascii_of_nat (48 + n)) "";
     nr_uid := prefix ++ String (ascii_of_nat (48 + n)) "" |}.

Definition tracked_list (prefix : string) (n : nat) : NamespacedResourceList :=
  map (tracked prefix) (seq 0 n).

Definition instance (name : string) (l : NamespacedResourceList) : Grafana :=
  {| Grafana_Namespace := "ns"; Grafana_Name := name;
     Grafana_Status := {| Stage := OperatorStageComplete;
                          StageStatus := OperatorStageResultSuccess;
                          Status_Dashboards := l |} |}.

Definition backend_with (l : NamespacedResourceList) : Backend :=
  {| backend_dashboards :=
       map (fun r => {| Search_UID := nr_uid r; Search_FolderID := 0 |}) l;
     backend_folders := [] |}.

Definition resource (name json folder hash_ : string) : GrafanaDashboard :=
  {| Dashboard_Namespace := "ns"; Dashboard_Name := name; Dashboard_UID := name;
     Dashboard_Spec := {| Json := json; Url := ""; FolderTitle := folder;
                          InstanceSelector := Some []; Plugins := [] |};
     Status_Hash := hash_ |}.

End Sim.

(** ** Scenarios on the reference environment *)

Module Scenario.
Import Sim.

Definition client_a : Client := {| Client_Namespace := "ns"; Client_Name := "a" |}.

(** One instance with [n] tracked dashboards, all on its backend, and no
    dashboard resource left: [n] orphans. *)
Definition one_instance (n : nat) : World :=
  {| grafanas := [instance "a" (tracked_list "a" n)];
     dashboards := [];
     backends := [("a", backend_with (tracked_list "a" n))] |}.

(** Three instances with 100, 100 and 50 orphans. *)
Definition three_instances : World :=
  {| grafanas := [instance "a" (tracked_list "a" 100);
                  instance "b" (tracked_list "b" 100);
                  instance "c" (tracked_list "c" 50)];
     dashboards := [];
     backends := [("a", backend_with (tracked_list "a" 100));
                  ("b", backend_with (tracked_list "b" 100));
                  ("c", backend_with (tracked_list "c" 50))] |}.

(** One instance that tracks two orphans, the first of which is already
    gone from its backend. *)
Definition first_gone : World :=
  {| grafanas := [instance "a" (tracked_list "a" 2)];
     dashboards := [];
     backends := [("a", backend_with [tracked "a" 1])] |}.

(** One instance that tracks the deleted resource ns/gone, whose dashboard
    is not on the backend any more. *)
Definition gone : NamespacedResource :=
  {| nr_namespace := "ns"; nr_name := "gone"; nr_uid := "gone" |}.

Definition already_absent : World :=
  {| grafanas := [instance "a" [gone]];
     dashboards := [];
     backends := [("a", backend_with [])] |}.

(** A converged resource: on the backend under its UID, tracked, and its
    status hash is the hash of its content. *)
Definition board : GrafanaDashboard := resource "board" "{}" "" (digest "{}").

Definition converged_instance : Grafana :=
  instance "a" [{| nr_namespace := "ns"; nr_name := "board"; nr_uid := "board" |}].

Definition converged : World :=
  {| grafanas := [converged_instance];
     dashboards := [board];
     backends := [("a", {| backend_dashboards :=
                             [{| Search_UID := "board"; Search_FolderID := 0 |}];
                           backend_folders := [] |})] |}.

(** The same resource before its first reconciliation. *)
Definition fresh_board : World :=
  {| grafanas := [instance "a" []];
     dashboards := [resource "board" "{}" "" ""];
     backends := [("a", backend_with [])] |}.

(** A resource with no content source at all, and one instance. *)
Definition sourceless : GrafanaDashboard := resource "empty" "" "" "".

Definition with_sourceless : World :=
  {| grafanas := [instance "a" []];
     dashboards := [sourceless];
     backends := [("a", backend_with [])] |}.

(** A new resource and two ready instances. *)
Definition fresh : GrafanaDashboard := resource "fresh" "{}" "" "".

Definition two_instances : World :=
  {| grafanas := [instance "a" []; instance "b" []];
     dashboards := [fresh];
     backends := [("a", backend_with []); ("b", backend_with [])] |}.

(** A backend whose only dashboard lies in folder 3. *)
Definition filed : World :=
  {| grafanas := [instance "a" []];
     dashboards := [];
     backends := [("a", {| backend_dashboards :=
                             [{| Search_UID := "x"; Search_FolderID := 3 |}];
                           backend_folders :=
                             [{| Folder_ID := 3; Folder_Title := "team" |}] |})] |}.

(** A backend on which the folder titled "General" has identifier 0. *)
Definition general : GrafanaDashboard := resource "board" "{}" "General" "".

Definition with_general : World :=
  {| grafanas := [instance "a" []];
     dashboards := [general];
     backends := [("a", {| backend_dashboards := [];
                           backend_folders :=
                             [{| Folder_ID := 0; Folder_Title := "General" |}] |})] |}.

(** The controller on the reference environment. *)
Definition sweep (sem : LoopVar) : World -> Result * option error * World * list Event :=
  syncDashboards env in_order sem.

Definition reconcile_in (e : Env World) (namespace name : string)
  : World -> outcome (Result * option error) * World * list Event :=
  Reconcile e error_delay resync_period source_types digest unmarshal in_order
            PerIteration
            {| Request_Namespace := namespace; Request_Name := name |}.

Definition tracked_counts (w : World) : list nat :=
  map (fun g => length (Status_Dashboards (Grafana_Status g))) (grafanas w).

End Scenario.

(** ** The reference environment with faults *)

Module Faulty.
Import Sim.

(** Which collaborators are out of order. *)
Record Faults := {
  store_down : bool;        (* the lookup of a resource fails *)
  selection_down : bool;    (* the selection of instances fails *)
  folders_down : bool;      (* the folder API fails *)
  lookup_down : bool;       (* dashboard by UID fails *)
  deletion_down : bool;     (* deletion by UID fails *)
  save_rejected : bool      (* create-or-overwrite answers a status "failed" *)
}.

Definition none : Faults :=
  {| store_down := false; selection_down := false; folders_down := false;
     lookup_down := false; deletion_down := false; save_rejected := false |}.

Definition unavailable : error := errorString "status: 500, body: unavailable".

Definition env (f : Faults) : Env World := {|
  ListGrafanas := ListGrafanas Sim.env;
  ListDashboards := ListDashboards Sim.env;
  GetDashboard := fun namespace name w =>
    if store_down f then (Err (StatusError StatusReasonUnknown "etcd unavailable"), w)
    else GetDashboard Sim.env namespace name w;
  UpdateGrafanaStatus := UpdateGrafanaStatus Sim.env;
  UpdateDashboardStatus := UpdateDashboardStatus Sim.env;
  GetMatchingInstances := fun sel w =>
    if selection_down f then (Err (StatusError StatusReasonUnknown "etcd unavailable"), w)
    else GetMatchingInstances Sim.env sel w;
  ReconcilePlugins := ReconcilePlugins Sim.env;
  NewGrafanaClient := NewGrafanaClient Sim.env;
  FetchDashboardFromUrl := FetchDashboardFromUrl Sim.env;
  Dashboards := Dashboards Sim.env;
  DashboardByUID := fun c uid w =>
    if lookup_down f then ((None, Some unavailable), w)
    else DashboardByUID Sim.env c uid w;
  NewDashboard := fun c d w =>
    if save_rejected f
    then (Ok {| Save_Status := "failed"; Save_UID := "" |}, w)
    else NewDashboard Sim.env c d w;
  DeleteDashboardByUID := fun c uid w =>
    if deletion_down f then (Some unavailable, w)
    else DeleteDashboardByUID Sim.env c uid w;
  Folders := fun c w =>
    if folders_down f then (Err unavailable, w) else Folders Sim.env c w;
  NewFolder := NewFolder Sim.env;
  DeleteFolder := DeleteFolder Sim.env
|}.

(** A resource filed under the folder "team". *)
Definition team_board : GrafanaDashboard := resource "board" "{}" "team" "".

(** A resource whose document is the JSON [null]. *)
Definition null_board : GrafanaDashboard := resource "board" "null" "team" "".

(** A resource without instance selector. *)
Definition unselected : GrafanaDashboard :=
  {| Dashboard_Namespace := "ns"; Dashboard_Name := "loose"; Dashboard_UID := "loose";
     Dashboard_Spec := {| Json := "{}"; Url := ""; FolderTitle := "";
                          InstanceSelector := None; Plugins := [] |};
     Status_Hash := "" |}.

(** One ready instance with an empty backend, and the resources above. *)
Definition empty_backend : World :=
  {| grafanas := [instance "a" []];
     dashboards := [team_board; unselected];
     backends := [("a", backend_with [])] |}.

(** The same without any instance. *)
Definition no_instance : World :=
  {| grafanas := []; dashboards := [team_board]; backends := [] |}.

(** The resource ns/board was deleted; its dashboard is on the backend of the
    instance that tracks it, alone in folder 3. *)
Definition board_entry : NamespacedResource :=
  {| nr_namespace := "ns"; nr_name := "board"; nr_uid := "board" |}.

Definition tracking : Grafana := instance "a" [board_entry].

Definition after_removal : World :=
  {| grafanas := [tracking];
     dashboards := [];
     backends := [("a", {| backend_dashboards :=
                             [{| Search_UID := "board"; Search_FolderID := 3 |}];
                           backend_folders :=
                             [{| Folder_ID := 3; Folder_Title := "team" |}] |})] |}.

(** Two instances: the first tracks two orphans and the resource ns/kept,
    the second tracks one orphan. *)
Definition kept : GrafanaDashboard := resource "kept" "{}" "" "".

Definition kept_entry : NamespacedResource :=
  {| nr_namespace := "ns"; nr_name := "kept"; nr_uid := "kept" |}.

Definition first_instance : Grafana :=
  instance "a" [tracked "a" 0; kept_entry; tracked "a" 1].

Definition second_instance : Grafana := instance "b" [tracked "b" 0].

Definition some_orphans : World :=
  {| grafanas := [first_instance; second_instance];
     dashboards := [kept];
     backends := [("a", backend_with [tracked "a" 0; kept_entry; tracked "a" 1]);
                  ("b", backend_with [tracked "b" 0])] |}.

(** A transport that answers 200 to every GET, 404 to every DELETE, and fails
    to connect for anything else; the network state counts the requests. *)
Definition toy_transport : RoundTripper.instrumentedRoundTripper nat :=
  {| RoundTripper.relatedResource := "grafana-a";
     RoundTripper.wrapped := fun r n =>
       if RoundTripper.Method r =? "GET"
       then ((Some {| RoundTripper.Http_StatusCode := 200 |}, None), S n)
       else if RoundTripper.Method r =? "DELETE"
       then ((Some {| RoundTripper.Http_StatusCode := 404 |}, None), S n)
       else ((None, Some (errorString "dial tcp: connection refused")), S n) |}.

Definition get (url : string) : RoundTripper.HttpRequest :=
  {| RoundTripper.Method := "GET"; RoundTripper.URL := url |}.

Definition delete (url : string) : RoundTripper.HttpRequest :=
  {| RoundTripper.Method := "DELETE"; RoundTripper.URL := url |}.

Definition post (url : string) : RoundTripper.HttpRequest :=
  {| RoundTripper.Method := "POST"; RoundTripper.URL := url |}.

End Faulty.

(** * Properties *)

(** ** Generalities on runs and traces *)

Lemma count_events_app (p : Event -> bool) (s t : list Event) :
  count_events p (s ++ t) = count_events p s + count_events p t.
Proof. unfold count_events. now rewrite filter_app, length_app. Qed.

Lemma count_events_none (p : Event -> bool) (t : list Event) :
  forallb (fun e => negb (p e)) t = true -> count_events p t = 0.
Proof.
  unfold count_events. induction t as [|e t IH]; simpl; [reflexivity|].
  intros H. apply andb_true_iff in H as [He Ht].
  apply negb_true_iff in He. rewrite He. auto.
Qed.

Lemma count_events_cons (p : Event -> bool) (e : Event) (t : list Event) :
  count_events p (e :: t) = (if p e then 1 else 0) + count_events p t.
Proof. unfold count_events. simpl. now destruct (p e). Qed.

Lemma count_events_nil (p : Event -> bool) : count_events p [] = 0.
Proof. reflexivity. Qed.

(** Splits a count over the pieces of a trace. *)
Ltac count :=
  repeat (rewrite ?count_events_cons, ?count_events_app, ?count_events_nil; simpl).

Lemma Contains_prefix (s substr : string) :
  String.prefix substr s = true -> Contains s substr = true.
Proof. destruct s; simpl; intros ->; reflexivity. Qed.

(** Unfolds one layer of the monad. *)
Ltac run := unfold bind, call, ret, value_of, world_of, trace_of in *; simpl in *.

(** ** Folders *)

Section FolderProperties.
Variable W : Type.
Variable env : Env W.

(** [f] is the folder that [GetFolderID] finds for [title]: the first one
    of the list with that title. *)
Definition first_match (title : string) (folders : list Folder) (f : Folder) : Prop :=
  exists pre post,
    folders = pre ++ f :: post
    /\ forallb (fun g => negb (Folder_Title g =? title)) pre = true
    /\ Folder_Title f = title.

Lemma GetFolderID_loop_no_match (title : string) (folders : list Folder) :
  forallb (fun g => negb (Folder_Title g =? title)) folders = true ->
  GetFolderID_loop title folders = 0%Z.
Proof.
  induction folders as [|g rest IH]; simpl; [reflexivity|].
  intros H. apply andb_true_iff in H as [Hg Hrest].
  apply negb_true_iff in Hg. rewrite Hg. auto.
Qed.

Lemma GetFolderID_loop_first_match (title : string) (folders : list Folder) (f : Folder) :
  first_match title folders f ->
  GetFolderID_loop title folders = Folder_ID f.
Proof.
  intros (pre & post & -> & Hpre & Hf).
  induction pre as [|g pre IH]; simpl in *.
  - rewrite Hf, String.eqb_refl. reflexivity.
  - apply andb_true_iff in Hpre as [Hg Hpre].
    apply negb_true_iff in Hg. rewrite Hg. auto.
Qed.

(** C9: [GetFolderID] answers 0 when no folder has the title and also when
    the folder it finds has identifier 0; in the second case
    [GetOrCreateFolder], for a resource with a folder title, goes on to the
    create-folder call although a folder of that title exists. *)
Theorem GetFolderID_zero_is_ambiguous
        (client : Client) (cr : GrafanaDashboard) (w w1 : W)
        (folders : list Folder) :
  Folders env client w = (Ok folders, w1) ->
  (forallb (fun g => negb (Folder_Title g =? FolderTitle (Dashboard_Spec cr)))
           folders = true ->
   value_of (GetFolderID env client cr w) = (0%Z, None))
  /\ (forall f,
        first_match (FolderTitle (Dashboard_Spec cr)) folders f ->
        Folder_ID f = 0%Z ->
        value_of (GetFolderID env client cr w) = (0%Z, None)
        /\ (FolderTitle (Dashboard_Spec cr) <> "" ->
            trace_of (GetOrCreateFolder env client cr w)
            = [EvFolders client;
               EvNewFolder client (FolderTitle (Dashboard_Spec cr))])).
Proof.
  intros HF. split.
  - intros Hno. unfold GetFolderID. run. rewrite HF. simpl.
    now rewrite GetFolderID_loop_no_match.
  - intros f Hf Hid.
    pose proof (GetFolderID_loop_first_match Hf) as Hloop.
    split.
    + unfold GetFolderID. run. rewrite HF. simpl. now rewrite Hloop, Hid.
    + intros Htitle. apply String.eqb_neq in Htitle.
      unfold GetOrCreateFolder, GetFolderID. rewrite Htitle. run.
      rewrite HF. simpl. rewrite Hloop, Hid. simpl.
      destruct (NewFolder env client (FolderTitle (Dashboard_Spec cr)) w1)
        as [[resp|e] w2]; reflexivity.
Qed.

(** C8: [DeleteFolderIfEmpty] has no case for identifier 0.  When no
    dashboard of the backend lies in folder 0 it asks the backend to delete
    folder ["0"], and hands back what that call answers. *)
Theorem DeleteFolderIfEmpty_zero_calls_delete
        (client : Client) (w w1 : W)
        (dashboards : list FolderDashboardSearchResponse) :
  Dashboards env client w = (Ok dashboards, w1) ->
  existsb (fun d => (int64_of_uint (Search_FolderID d) =? 0)%Z) dashboards = false ->
  trace_of (DeleteFolderIfEmpty env client 0 w)
  = [EvDashboards client; EvDeleteFolder client "0"]
  /\ snd (value_of (DeleteFolderIfEmpty env client 0 w))
     = fst (DeleteFolder env client "0" w1).
Proof.
  intros HD Hnone. unfold DeleteFolderIfEmpty. run.
  rewrite HD. simpl. rewrite Hnone.
  change (FormatInt 0) with "0".
  destruct (DeleteFolder env client "0" w1) as [[e|] w2]; split; reflexivity.
Qed.

End FolderProperties.

(** ** Creation and update *)

Section CreatedProperties.
Variable W : Type.
Variable env : Env W.
Variable RequeueDelayError : Z.
Variable GetResyncPeriod : GrafanaDashboard -> Z.
Variable GetSourceTypes : GrafanaDashboard -> list DashboardSourceType.
Variable hash : string -> string.
Variable json_Unmarshal : string -> result (option JsonMap).

Local Abbreviation fetch := (fetchDashboardJson env GetSourceTypes).
Local Abbreviation created := (onDashboardCreated env GetSourceTypes hash json_Unmarshal).

(** The only call [fetchDashboardJson] can make is the download. *)
Lemma fetchDashboardJson_trace (cr : GrafanaDashboard) (w : W) :
  trace_of (fetch cr w) = [] \/ trace_of (fetch cr w) = [EvFetchDashboardFromUrl cr].
Proof.
  unfold fetchDashboardJson.
  destruct (length (GetSourceTypes cr) =? 0)%nat; [now left|].
  destruct (1 <? length (GetSourceTypes cr))%nat; [now left|].
  destruct (hd _ (GetSourceTypes cr)); try (now left).
  right. run. now destruct (FetchDashboardFromUrl env cr w).
Qed.

(** The skip path, step by step: the content is resolved, the client is
    built, the backend lists the UID and the hash is the one in status. *)
Record skip_path (grafana : Grafana) (cr : GrafanaDashboard) (w : W)
       (dashboardJson : string) (client : Client) (w' : W)
       (fetched : list Event) : Prop := {
  skip_fetch : exists w1 w2 dashboards,
    fetch cr w = (Ok dashboardJson, w1, fetched)
    /\ NewGrafanaClient env grafana w1 = (Ok client, w2)
    /\ Dashboards env client w2 = (Ok dashboards, w')
    /\ existsb (fun d => Search_UID d =? Dashboard_UID cr) dashboards = true;
  skip_hash : hash dashboardJson = Status_Hash cr
}.

Lemma onDashboardCreated_skip (grafana : Grafana) (cr : GrafanaDashboard) (w : W)
      (dashboardJson : string) (client : Client) (w' : W) (fetched : list Event) :
  skip_path grafana cr w dashboardJson client w' fetched ->
  created grafana cr w
  = ((Returns None, grafana, set_Spec_Json cr dashboardJson), w',
     fetched ++ [EvNewGrafanaClient grafana; EvDashboards client]).
Proof.
  intros [(w1 & w2 & dashboards & Hf & Hc & Hd & Hex) Hh].
  unfold onDashboardCreated, Exists, Unchanged, Hash. run.
  rewrite Hf, Hc. simpl. rewrite Hd. simpl. rewrite Hex, Hh, String.eqb_refl.
  reflexivity.
Qed.

Lemma skip_path_fetched (grafana : Grafana) (cr : GrafanaDashboard) (w : W)
      (dashboardJson : string) (client : Client) (w' : W) (fetched : list Event) :
  skip_path grafana cr w dashboardJson client w' fetched ->
  fetched = [] \/ fetched = [EvFetchDashboardFromUrl cr].
Proof.
  intros [(w1 & w2 & dashboards & Hf & _) _].
  pose proof (fetchDashboardJson_trace cr w) as H.
  unfold trace_of in H. now rewrite Hf in H.
Qed.

(** C2: when the hash in status is the hash of the freshly resolved content
    and the backend lists the UID, [onDashboardCreated] issues no write to
    the backend: no create-or-overwrite of a dashboard, nor any other
    change. *)
Theorem onDashboardCreated_converged_no_write
        (grafana : Grafana) (cr : GrafanaDashboard) (w : W)
        (dashboardJson : string) (client : Client) (w' : W) (fetched : list Event) :
  skip_path grafana cr w dashboardJson client w' fetched ->
  count_events is_dashboard_write (trace_of (created grafana cr w)) = 0
  /\ count_events is_backend_write (trace_of (created grafana cr w)) = 0.
Proof.
  intros Hskip. rewrite (onDashboardCreated_skip Hskip). unfold trace_of; simpl.
  destruct (skip_path_fetched Hskip) as [-> | ->]; split; reflexivity.
Qed.

(** C10: on the skip path nothing is written: the function returns nil,
    the instance and its Tracked Dashboard List are as they were, the hash
    in the resource's status is as it was, and the trace holds neither a
    status update nor a folder call. *)
Theorem onDashboardCreated_skip_writes_nothing
        (grafana : Grafana) (cr : GrafanaDashboard) (w : W)
        (dashboardJson : string) (client : Client) (w' : W) (fetched : list Event) :
  skip_path grafana cr w dashboardJson client w' fetched ->
  let r := created grafana cr w in
  fst (fst (value_of r)) = Returns None
  /\ snd (fst (value_of r)) = grafana
  /\ Status_Hash (snd (value_of r)) = Status_Hash cr
  /\ count_events is_status_write (trace_of r) = 0
  /\ count_events is_folder_call (trace_of r) = 0
  /\ world_of r = w'.
Proof.
  intros Hskip r. subst r. rewrite (onDashboardCreated_skip Hskip).
  unfold value_of, world_of, trace_of; simpl.
  destruct (skip_path_fetched Hskip) as [-> | ->]; repeat split; reflexivity.
Qed.

(** *** A resource without exactly one source *)

Definition source_error (cr : GrafanaDashboard) : error :=
  if (length (GetSourceTypes cr) =? 0)%nat
  then errorString ("no source type provided for dashboard " ++ Dashboard_Name cr)
  else errorString ("more than one source types found for dashboard "
                    ++ Dashboard_Name cr).

Lemma fetchDashboardJson_source_error (cr : GrafanaDashboard) (w : W) :
  length (GetSourceTypes cr) <> 1 ->
  fetch cr w = (Err (source_error cr), w, []).
Proof.
  intros H. unfold fetchDashboardJson, source_error.
  destruct (length (GetSourceTypes cr)) as [|[|n]] eqn:E; try reflexivity.
  congruence.
Qed.

Lemma onDashboardCreated_source_error (grafana : Grafana) (cr : GrafanaDashboard) (w : W) :
  length (GetSourceTypes cr) <> 1 ->
  created grafana cr w = ((Returns (Some (source_error cr)), grafana, cr), w, []).
Proof.
  intros H. unfold onDashboardCreated. run.
  now rewrite (@fetchDashboardJson_source_error cr w H).
Qed.

Definition is_plugin_call (e : Event) : bool :=
  match e with EvReconcilePlugins _ _ _ => true | _ => false end.

Local Abbreviation loop := (Reconcile_loop env GetSourceTypes hash json_Unmarshal).

(** With such a resource the loop of [Reconcile] only makes the plugin
    calls, and every instance counts as failed. *)
Lemma Reconcile_loop_source_error (dashboard : GrafanaDashboard) :
  length (GetSourceTypes dashboard) <> 1 ->
  forall (instances : list Grafana) (success : bool) (w : W),
    value_of (loop instances dashboard success w)
    = (Returns (match instances with [] => success | _ => false end), dashboard)
    /\ forallb is_plugin_call (trace_of (loop instances dashboard success w)) = true.
Proof.
  intros Hsrc. induction instances as [|grafana rest IH]; intros success w.
  - split; reflexivity.
  - simpl. destruct (instance_ready grafana); simpl.
    + run.
      destruct (ReconcilePlugins env grafana _ _ w) as [err w1].
      rewrite (@onDashboardCreated_source_error grafana dashboard w1 Hsrc). simpl.
      specialize (IH false w1). run.
      destruct (loop rest dashboard false w1) as [[v w2] t]. simpl in *.
      destruct IH as [IHv IHt]. split.
      * rewrite IHv. destruct err; now destruct rest.
      * destruct err; exact IHt.
    + specialize (IH false w). destruct IH as [IHv IHt]. split.
      * rewrite IHv. now destruct rest.
      * exact IHt.
Qed.

End CreatedProperties.

(** ** Reconcile *)

Section ReconcileProperties.
Variable W : Type.
Variable env : Env W.
Variable RequeueDelayError : Z.
Variable GetResyncPeriod : GrafanaDashboard -> Z.
Variable GetSourceTypes : GrafanaDashboard -> list DashboardSourceType.
Variable hash : string -> string.
Variable json_Unmarshal : string -> result (option JsonMap).
Variable range_order : list (nat * list NamespacedResource)
                       -> list (nat * list NamespacedResource).
Variable loopvar : LoopVar.

Local Abbreviation fetch := (fetchDashboardJson env GetSourceTypes).
Local Abbreviation created := (onDashboardCreated env GetSourceTypes hash json_Unmarshal).
Local Abbreviation loop := (Reconcile_loop env GetSourceTypes hash json_Unmarshal).
Local Abbreviation reconcile :=
  (Reconcile env RequeueDelayError GetResyncPeriod GetSourceTypes hash
             json_Unmarshal range_order loopvar).

(** The request names a resource: it is not the marker of the periodic
    sweep. *)
Definition names_resource (req : Request) : Prop :=
  (Request_Namespace req =? "") && (Request_Name req =? "") = false.

Lemma plugin_calls_write_nothing (t : list Event) :
  forallb is_plugin_call t = true -> count_events is_backend_write t = 0.
Proof.
  intros H. apply count_events_none.
  induction t as [|e t IH]; simpl in *; [reflexivity|].
  apply andb_true_iff in H as [He Ht]. rewrite (IH Ht).
  destruct e; simpl in *; congruence.
Qed.

(** C6: a resource with no content source, or with more than one, gets the
    error of [fetchDashboardJson] before anything else happens in
    [onDashboardCreated] (empty trace: no client, no folder resolution, no
    upsert); a reconciliation of such a resource makes no write to any
    backend, and when it targets at least one instance it ends with the
    error delay. *)
Theorem Reconcile_source_error
        (req : Request) (w w1 : W) (dashboard : GrafanaDashboard) :
  names_resource req ->
  GetDashboard env (Request_Namespace req) (Request_Name req) w = (Ok dashboard, w1) ->
  length (GetSourceTypes dashboard) <> 1 ->
  (forall grafana w0,
      fetch dashboard w0 = (Err (source_error GetSourceTypes dashboard), w0, [])
      /\ created grafana dashboard w0
         = ((Returns (Some (source_error GetSourceTypes dashboard)), grafana, dashboard),
            w0, []))
  /\ count_events is_backend_write (trace_of (reconcile req w)) = 0
  /\ (forall sel instances w2,
         InstanceSelector (Dashboard_Spec dashboard) = Some sel ->
         GetMatchingInstances env sel w1 = (Ok instances, w2) ->
         instances <> [] ->
         value_of (reconcile req w)
         = Returns (Result_RequeueAfter RequeueDelayError, None)).
Proof.
  intros Hreq Hget Hsrc. unfold names_resource in Hreq.
  split; [|split].
  - intros grafana w0. split.
    + now apply fetchDashboardJson_source_error.
    + now apply onDashboardCreated_source_error.
  - unfold Reconcile. rewrite Hreq. run. rewrite Hget. simpl.
    destruct (InstanceSelector (Dashboard_Spec dashboard)) as [sel|]; [|reflexivity].
    run. destruct (GetMatchingInstances env sel w1) as [[instances|e] w2]; [|reflexivity].
    simpl. destruct (length instances =? 0)%nat; [reflexivity|]. simpl.
    destruct (@Reconcile_loop_source_error W env GetSourceTypes hash json_Unmarshal
                dashboard Hsrc instances true w2) as [Hv Ht].
    run. destruct (loop instances dashboard true w2) as [[[o d] w3] t].
    simpl in *. inversion Hv; subst.
    apply plugin_calls_write_nothing in Ht. unfold count_events in *.
    destruct instances; simpl; rewrite app_nil_r; exact Ht.
  - intros sel instances w2 Hsel Hmatch Hne.
    assert (Hlen : (length instances =? 0)%nat = false)
      by (destruct instances; [congruence|reflexivity]).
    unfold Reconcile. rewrite Hreq. run. rewrite Hget. simpl.
    rewrite Hsel. run. rewrite Hmatch. simpl. rewrite Hlen.
    destruct (@Reconcile_loop_source_error W env GetSourceTypes hash json_Unmarshal
                dashboard Hsrc instances true w2) as [Hv _].
    run. destruct (loop instances dashboard true w2) as [[[o d] w3] t].
    simpl in *. inversion Hv; subst.
    destruct instances; [congruence|reflexivity].
Qed.

(** *** Partial failure *)

Lemma NRL_Find_Add (l : NamespacedResourceList) (namespace name uid : string) :
  NRL_Find (NRL_Add l namespace name uid) namespace name = Some uid.
Proof.
  unfold NRL_Add, NRL_Remove. induction l as [|r l IH]; simpl.
  - unfold nr_matches; simpl. now rewrite !String.eqb_refl.
  - destruct (nr_matches namespace name r) eqn:E; simpl; [exact IH|].
    now rewrite E.
Qed.






Definition fails_or_panics (o : outcome bool) : Prop :=
  o = Returns false \/ exists what, o = Panics what.

Lemma Reconcile_loop_false (instances : list Grafana) :
  forall (dashboard : GrafanaDashboard) (w : W),
    fails_or_panics (fst (value_of (loop instances dashboard false w))).
Proof.
  induction instances as [|grafana rest IH]; intros dashboard w; [now left|].
  simpl. destruct (instance_ready grafana); simpl; [|apply IH].
  unfold bind, call, ret, value_of.
  destruct (ReconcilePlugins env grafana _ _ w) as [err w1].
  destruct (created grafana dashboard w1) as [[[[o g'] d'] w2] t].
  destruct o as [err'|what]; simpl.
  - specialize (IH d' w2). unfold value_of in IH.
    replace (match err' with
             | Some _ => false
             | None => match err with Some _ => false | None => false end
             end) with false by (destruct err', err; reflexivity).
    now destruct (loop rest d' false w2) as [[v w3] t'].
  - right. now exists what.
Qed.


(** *** What the loop does for one instance *)








(** The loop over [pre ++ post] is the loop over [pre] followed by the loop
    over [post]. *)
Lemma Reconcile_loop_app (pre post : list Grafana) :
  forall (dashboard : GrafanaDashboard) (success : bool) (w : W)
         (s1 : bool) (d1 : GrafanaDashboard) (w1 : W) (t1 : list Event),
    loop pre dashboard success w = ((Returns s1, d1), w1, t1) ->
    loop (pre ++ post) dashboard success w
    = (let '(r, w2, t2) := loop post d1 s1 w1 in (r, w2, t1 ++ t2)).
Proof.
  induction pre as [|grafana pre IH]; intros dashboard success w s1 d1 w1 t1.
  - simpl. unfold ret. intros H. inversion H; subst.
    now destruct (loop post d1 s1 w1) as [[r w2] t2].
  - simpl. destruct (instance_ready grafana); simpl; [|apply IH].
    unfold bind, call, ret.
    destruct (ReconcilePlugins env grafana _ _ w) as [err w'].
    destruct (created grafana dashboard w') as [[[[o g'] d'] w''] t].
    destruct o as [err'|what]; [|discriminate].
    destruct (loop pre d' _ w'') as [[v w3] t3] eqn:E.
    intros H. inversion H; subst.
    rewrite (@IH _ _ _ _ _ _ _ E).
    destruct (loop post d1 s1 w1) as [[r w4] t4].
    now rewrite !app_assoc.
Qed.


End ReconcileProperties.

(** ** The orphan sweep *)

Section SweepProperties.
Variable W : Type.
Variable env : Env W.
Variable range_order : list (nat * list NamespacedResource)
                       -> list (nat * list NamespacedResource).
Variable loopvar : LoopVar.

Local Opaque syncBatchSize.

(** The number of orphans held by a map of [dashboardsToDelete]. *)
Definition total (m : list (nat * list NamespacedResource)) : nat :=
  list_sum (map (fun entry => length (snd entry)) m).

(** A tracked entry is an orphan when no resource has its namespace and
    name. *)
Definition is_orphan (allDashboards : list GrafanaDashboard)
           (d : NamespacedResource) : bool :=
  negb (DashboardList_Find allDashboards (nr_namespace d) (nr_name d)).

(** The orphans of all instances together. *)
Definition orphan_count (grafanas : list Grafana)
           (allDashboards : list GrafanaDashboard) : nat :=
  list_sum (map (fun g => length (filter (is_orphan allDashboards)
                                         (Status_Dashboards (Grafana_Status g))))
                grafanas).

Lemma total_map_append (m : list (nat * list NamespacedResource)) (p : nat)
      (d : NamespacedResource) :
  total (map_append m p d) = S (total m).
Proof.
  unfold total. induction m as [|[q ds] m IH]; simpl; [reflexivity|].
  destruct (q =? p)%nat; simpl.
  - rewrite length_app. simpl. lia.
  - rewrite IH. lia.
Qed.

Lemma total_Permutation (m m' : list (nat * list NamespacedResource)) :
  Permutation m m' -> total m = total m'.
Proof.
  unfold total. induction 1; simpl; lia.
Qed.

Lemma collect_one_total (allDashboards : list GrafanaDashboard) (p : nat)
      (tracked : NamespacedResourceList) :
  forall m,
    total (fold_left
             (fun m dashboard =>
                if negb (DashboardList_Find allDashboards
                           (nr_namespace dashboard) (nr_name dashboard))
                then map_append m p dashboard
                else m) tracked m)
    = total m + length (filter (is_orphan allDashboards) tracked).
Proof.
  induction tracked as [|d tracked IH]; intros m; simpl; [lia|].
  rewrite IH. unfold is_orphan at 2.
  destruct (negb (DashboardList_Find allDashboards (nr_namespace d) (nr_name d)));
    simpl; [rewrite total_map_append|]; lia.
Qed.

Lemma collect_orphans_total (allDashboards : list GrafanaDashboard)
      (items : list Grafana) :
  forall i heap m,
    total (snd (collect_orphans loopvar allDashboards items i heap m))
    = total m + orphan_count items allDashboards.
Proof.
  unfold orphan_count.
  induction items as [|g items IH]; intros i heap m; simpl; [lia|].
  rewrite IH, collect_one_total. lia.
Qed.

Lemma dashboardsToDelete_total (grafanas : list Grafana)
      (allDashboards : list GrafanaDashboard) :
  total (snd (dashboardsToDelete loopvar grafanas allDashboards))
  = orphan_count grafanas allDashboards.
Proof. unfold dashboardsToDelete. now rewrite collect_orphans_total. Qed.

(** The inner loop issues deletions and nothing else; it leaves by the end
    of the list with every orphan deleted, or by the batch limit with the
    counter at the limit, or by an error. *)
Lemma sync_delete_loop_spec (client : Client) (dashboards : list NamespacedResource) :
  forall (grafana : Grafana) (n : nat) (w : W),
    n <= syncBatchSize ->
    let r := sync_delete_loop env client dashboards grafana n w in
    forallb is_dashboard_delete (trace_of r) = true
    /\ match value_of r with
       | Next (_, n') =>
           n' = n + length dashboards
           /\ length (trace_of r) = length dashboards
           /\ n' <= syncBatchSize
       | Return (res, None) =>
           length (trace_of r) = syncBatchSize - n
           /\ res = Result_Requeue true
           /\ syncBatchSize < n + length dashboards
       | Return (res, Some _) =>
           length (trace_of r) <= syncBatchSize - n
           /\ res = Result_Requeue false
       end.
Proof.
  induction dashboards as [|d rest IH]; intros grafana n w Hn; simpl.
  - split; [reflexivity|]. unfold value_of, trace_of; simpl. lia.
  - destruct (Nat.leb_spec syncBatchSize n) as [Hlim|Hlim].
    + unfold value_of, trace_of; simpl.
      split; [reflexivity|]. repeat split; lia.
    + unfold bind, call, ret, value_of, trace_of.
      destruct (DeleteDashboardByUID env client (nr_uid d) w) as [[e|] w1]; simpl.
      * split; [reflexivity|]. split; [lia|reflexivity].
      * specialize (IH (set_Status_Dashboards grafana
                          (NRL_Remove (Status_Dashboards (Grafana_Status grafana))
                                      (nr_namespace d) (nr_name d)))
                       (S n) w1 ltac:(lia)).
        unfold value_of, trace_of in IH.
        destruct (sync_delete_loop env client rest _ (S n) w1) as [[f w2] t].
        simpl in *. destruct IH as [Ht Hf]. split; [exact Ht|].
        destruct f as [[g' n']|[res [e|]]]; simpl;
          repeat match goal with H : _ /\ _ |- _ => destruct H end;
          repeat split; try assumption; lia.
Qed.

Lemma count_all (p : Event -> bool) (t : list Event) :
  forallb p t = true -> count_events p t = length t.
Proof.
  unfold count_events. induction t as [|e t IH]; simpl; [reflexivity|].
  intros H. apply andb_true_iff in H as [-> Ht]. simpl. auto.
Qed.

(** The outer loop: never more deletions than the limit leaves room for;
    and when it returns without error, it has deleted all the orphans or
    as many as the limit allowed, and asks for a requeue exactly when some
    are left. *)
Lemma sync_instances_spec (entries : list (nat * list NamespacedResource)) :
  forall (heap : nat -> Grafana) (n : nat) (w : W),
    n <= syncBatchSize ->
    let r := sync_instances env heap entries n w in
    count_events is_dashboard_delete (trace_of r) <= syncBatchSize - n
    /\ (snd (value_of r) = None ->
        count_events is_dashboard_delete (trace_of r)
        = Nat.min (total entries) (syncBatchSize - n)
        /\ fst (value_of r) = Result_Requeue (syncBatchSize - n <? total entries)%nat).
Proof.
  induction entries as [|[p dashboards] rest IH]; intros heap n w Hn; simpl.
  - unfold value_of, trace_of, total, count_events; simpl. split; [lia|].
    intros _. split; [lia|reflexivity].
  - unfold bind, call, ret, value_of, trace_of.
    destruct (NewGrafanaClient env (heap p) w) as [[client|e] w1]; simpl.
    2:{ split; [unfold count_events; simpl; lia|discriminate]. }
    pose proof (sync_delete_loop_spec client dashboards (heap p) w1 Hn) as Hin.
    unfold value_of, trace_of in Hin. simpl in Hin.
    destruct (sync_delete_loop env client dashboards (heap p) n w1) as [[f w2] t].
    simpl in Hin. destruct Hin as [Hdel Hf].
    pose proof (count_all _ _ Hdel) as Hcount.
    unfold total; simpl; fold (total rest).
    destruct f as [[g' n']|[res err]]; simpl.
    + destruct Hf as (-> & Hlen & Hn').
      destruct (UpdateGrafanaStatus env g' w2) as [[e|] w3]; simpl.
      * count. rewrite Hcount. split; [lia|discriminate].
      * specialize (IH (heap_store heap p g') (n + length dashboards) w3 Hn').
        unfold value_of, trace_of in IH.
        destruct (sync_instances env (heap_store heap p g') rest
                                 (n + length dashboards) w3) as [[[res err] w4] t'].
        simpl in *. destruct IH as [IHle IHeq].
        count. rewrite Hcount.
        split; [lia|]. intros Herr. destruct (IHeq Herr) as [Hc Hr].
        rewrite Hc, Hr. split; [lia|].
        f_equal.
        destruct (syncBatchSize - (n + length dashboards) <? total rest)%nat eqn:E1;
          destruct (syncBatchSize - n <? length dashboards + total rest)%nat eqn:E2;
          try reflexivity;
          apply Nat.ltb_lt in E1 || apply Nat.ltb_ge in E1;
          apply Nat.ltb_lt in E2 || apply Nat.ltb_ge in E2; lia.
    + count. rewrite Hcount.
      destruct err as [e|].
      * split; [lia|discriminate].
      * destruct Hf as (Hlen & -> & Hlim). split; [lia|]. intros _. split; [lia|].
        f_equal. symmetry. apply Nat.ltb_lt. lia.
Qed.

(** X30: one pass of [syncDashboards] issues at most 100 deletions, counted
    over all instances together, whatever the environment answers.  A pass
    that returns without error has deleted [min n 100] of the [n] orphans
    and asks for a requeue exactly when [n] exceeds 100: with 250 orphans it
    has deleted exactly 100 and requeues; with 100 orphans or fewer it has
    deleted them all and does not requeue. *)
Theorem syncDashboards_batch_bound (w : W) :
  (forall m, Permutation (range_order m) m) ->
  let r := syncDashboards env range_order loopvar w in
  count_events is_dashboard_delete (trace_of r) <= syncBatchSize
  /\ forall grafanas w1 allDashboards w2,
      ListGrafanas env w = (Ok grafanas, w1) ->
      ListDashboards env w1 = (Ok allDashboards, w2) ->
      snd (value_of r) = None ->
      let n := orphan_count grafanas allDashboards in
      count_events is_dashboard_delete (trace_of r) = Nat.min n syncBatchSize
      /\ fst (value_of r) = Result_Requeue (syncBatchSize <? n)%nat
      /\ (n = 250 ->
          count_events is_dashboard_delete (trace_of r) = 100
          /\ fst (value_of r) = Result_Requeue true)
      /\ (n <= syncBatchSize ->
          count_events is_dashboard_delete (trace_of r) = n
          /\ fst (value_of r) = Result_Requeue false).
Proof.
  intros Hperm r.
  assert (Hgen :
    count_events is_dashboard_delete (trace_of r) <= syncBatchSize
    /\ forall grafanas w1 allDashboards w2,
        ListGrafanas env w = (Ok grafanas, w1) ->
        ListDashboards env w1 = (Ok allDashboards, w2) ->
        snd (value_of r) = None ->
        count_events is_dashboard_delete (trace_of r)
        = Nat.min (orphan_count grafanas allDashboards) syncBatchSize
        /\ fst (value_of r)
           = Result_Requeue (syncBatchSize <? orphan_count grafanas allDashboards)%nat).
  { subst r. unfold syncDashboards, bind, call, ret, value_of, trace_of.
    destruct (ListGrafanas env w) as [[grafanas|e] w1] eqn:HG; simpl.
    2:{ split; [count; lia|]. intros; discriminate. }
    destruct grafanas as [|g grafanas]; simpl.
    { split; [count; lia|].
      intros ? ? ? ? H _ _. inversion H; subst. split; reflexivity. }
    destruct (ListDashboards env w1) as [[allDashboards|e] w2] eqn:HD; simpl.
    2:{ split; [count; lia|]. intros; discriminate. }
    pose proof (dashboardsToDelete_total (g :: grafanas) allDashboards) as Htotal.
    destruct (dashboardsToDelete loopvar (g :: grafanas) allDashboards)
      as [heap todo] eqn:Htodo.
    simpl in Htotal.
    pose proof (sync_instances_spec (range_order todo) heap w2 (Nat.le_0_l _)) as Hs.
    unfold value_of, trace_of in Hs. simpl in Hs.
    rewrite (total_Permutation (Hperm todo)), Htotal, Nat.sub_0_r in Hs.
    destruct (sync_instances env heap (range_order todo) 0 w2)
      as [[[res err] w3] t].
    simpl in *. destruct Hs as [Hle Heq].
    count. split; [exact Hle|].
    intros ? ? ? ? H1 H2 Herr. inversion H1; subst.
    rewrite HD in H2. inversion H2; subst.
    exact (Heq eq_refl). }
  destruct Hgen as [Hle Hgen]. split; [exact Hle|].
  intros grafanas w1 allDashboards w2 H1 H2 Herr n.
  destruct (Hgen _ _ _ _ H1 H2 Herr) as [Hc Hr]. fold n in Hc, Hr.
  rewrite Hc, Hr.
  split; [reflexivity|]. split; [reflexivity|]. split.
  - intros Hn. rewrite Hn. split; reflexivity.
  - intros Hn. split; [lia|]. f_equal. now apply Nat.ltb_ge.
Qed.

Local Transparent syncBatchSize.

End SweepProperties.

(** ** Deletion *)

Section DeletionProperties.
Variable W : Type.
Variable env : Env W.

Lemma NRL_Find_Remove (l : NamespacedResourceList) (namespace name : string) :
  NRL_Find (NRL_Remove l namespace name) namespace name = None.
Proof.
  unfold NRL_Remove. induction l as [|r l IH]; simpl; [reflexivity|].
  destruct (nr_matches namespace name r) eqn:E; simpl; [exact IH|].
  now rewrite E.
Qed.

(** What the handler does for one instance when the client hands back a
    dashboard together with the "status: 404" error of the lookup, the
    deletion answers "status: 404" as well and the remaining calls succeed:
    both errors are let pass, the entry is removed, the status is written and
    the handler goes on with the next instance. *)
Lemma onDashboardDeleted_loop_tolerates_404
      (grafana : Grafana) (rest : list Grafana) (namespace name uid : string)
      (client : Client) (dash : Dashboard) (e1 e2 : error) (resp : Response)
      (w w1 w2 w3 w4 w5 w6 : W) (t4 : list Event) :
  let grafana' :=
    set_Status_Dashboards grafana
      (NRL_Remove (Status_Dashboards (Grafana_Status grafana)) namespace name) in
  NRL_Find (Status_Dashboards (Grafana_Status grafana)) namespace name = Some uid ->
  NewGrafanaClient env grafana w = (Ok client, w1) ->
  DashboardByUID env client uid w1 = ((Some dash, Some e1), w2) ->
  Contains (Error e1) "status: 404" = true ->
  DeleteDashboardByUID env client uid w2 = (Some e2, w3) ->
  Contains (Error e2) "status: 404" = true ->
  DeleteFolderIfEmpty env client (Dashboard_Folder dash) w3 = ((resp, None), w4, t4) ->
  ReconcilePlugins env grafana [] (name ++ "-dashboard") w4 = (None, w5) ->
  UpdateGrafanaStatus env grafana' w5 = (None, w6) ->
  NRL_Find (Status_Dashboards (Grafana_Status grafana')) namespace name = None
  /\ onDashboardDeleted_loop env (grafana :: rest) namespace name w
     = (let '(o, w', t') := onDashboardDeleted_loop env rest namespace name w6 in
        (o, w',
         [EvNewGrafanaClient grafana; EvDashboardByUID client uid;
          EvDeleteDashboardByUID client uid]
           ++ t4
           ++ [EvReconcilePlugins grafana [] (name ++ "-dashboard");
               EvUpdateGrafanaStatus grafana']
           ++ t')).
Proof.
  intros grafana' Hfind Hclient Hget H1 Hdel H2 Hfolder Hplugins Hupdate.
  split; [apply NRL_Find_Remove|].
  cbn [onDashboardDeleted_loop]. rewrite Hfind.
  unfold bind, call, ret, not_404.
  rewrite Hclient. cbn beta iota. rewrite Hget. cbn beta iota. rewrite H1.
  cbn [negb]. cbn beta iota. rewrite Hdel. cbn beta iota. rewrite H2.
  cbn [negb]. cbn beta iota. rewrite Hfolder. cbn beta iota.
  rewrite Hplugins. cbn beta iota. fold grafana'. rewrite Hupdate. cbn beta iota.
  destruct (onDashboardDeleted_loop env rest namespace name w6) as [[o w'] t'].
  cbn [app]. rewrite <- ?app_assoc. reflexivity.
Qed.

End DeletionProperties.

(** ** The controller on the scenarios *)

Section Runs.
Import Sim Scenario.

(** C1: 250 orphans on one instance, all of them on its backend, which
    answers every call.  The first pass deletes 100 dashboards and asks for
    a requeue, but it returns at the batch limit before the status update:
    the store still lists all 250 entries.  The next pass starts again at
    the first entry, whose dashboard is gone: the deletion answers
    "status: 404" and the pass returns that error with Requeue false.  It
    has deleted nothing and leaves the world as it found it, so that every
    later pass does the same: the remaining 150 dashboards are never
    deleted and no pass ends with the outcome of finished work.  With the
    250 orphans on three instances and one loop variable for the whole
    loop, the first pass already stops at its first deletion with that
    error. *)
Theorem syncDashboards_second_pass_is_stuck (sem : LoopVar) :
  let first := sweep sem (one_instance 250) in
  let second := sweep sem (world_of first) in
  let shared := sweep PerLoop three_instances in
  orphan_count (grafanas (one_instance 250)) (dashboards (one_instance 250)) = 250
  /\ value_of first = (Result_Requeue true, None)
  /\ count_events is_dashboard_delete (trace_of first) = 100
  /\ count_events is_grafana_status_write (trace_of first) = 0
  /\ tracked_counts (world_of first) = [250]
  /\ length (backend_dashboards (backend_of (world_of first) client_a)) = 150
  /\ value_of second = (Result_Requeue false, Some not_found)
  /\ count_events is_dashboard_delete (trace_of second) = 1
  /\ count_events is_grafana_status_write (trace_of second) = 0
  /\ world_of second = world_of first
  /\ orphan_count (grafanas three_instances) (dashboards three_instances) = 250
  /\ value_of shared = (Result_Requeue false, Some not_found)
  /\ count_events is_dashboard_delete (trace_of shared) = 1
  /\ world_of shared = three_instances.
Proof. destruct sem; vm_compute; repeat split; reflexivity. Qed.

(** C4: the sweep has no tolerance for a dashboard that is already gone.
    The first orphan of the instance is not on the backend, the deletion
    answers "status: 404", and the pass stops there with that error: the
    second orphan is not deleted, no entry is removed from the tracked
    list and no status is written. *)
Theorem syncDashboards_aborts_on_404 (sem : LoopVar) :
  let r := sweep sem first_gone in
  DeleteDashboardByUID env client_a (nr_uid (tracked "a" 0)) first_gone
  = (Some not_found, first_gone)
  /\ Contains (Error not_found) "status: 404" = true
  /\ value_of r = (Result_Requeue false, Some not_found)
  /\ world_of r = first_gone
  /\ count_events is_dashboard_delete (trace_of r) = 1
  /\ count_events is_grafana_status_write (trace_of r) = 0.
Proof. destruct sem; vm_compute; repeat split; reflexivity. Qed.

(** C5: with 101 orphans on one instance the pass deletes 100 dashboards
    on the backend and returns at the batch limit without the status
    update: the store still lists all 101 entries, 100 of which now point
    at dashboards that are gone, and the next pass stops at the first of
    them with the 404 error. *)
Theorem syncDashboards_limit_skips_status_update (sem : LoopVar) :
  let r := sweep sem (one_instance 101) in
  value_of r = (Result_Requeue true, None)
  /\ count_events is_dashboard_delete (trace_of r) = 100
  /\ count_events is_grafana_status_write (trace_of r) = 0
  /\ tracked_counts (world_of r) = [101]
  /\ length (backend_dashboards (backend_of (world_of r) client_a)) = 1
  /\ value_of (sweep sem (world_of r)) = (Result_Requeue false, Some not_found).
Proof. destruct sem; vm_compute; repeat split; reflexivity. Qed.

(** C3: the resource ns/gone is deleted and its dashboard is no longer on
    the backend, so that both the lookup and the deletion by UID answer
    "status: 404".  The handler lets the error of the lookup pass and then
    reads the folder of the dashboard that the client did not return: it
    panics, the tracked entry stays and no status is written. *)
Theorem onDashboardDeleted_absent_dashboard_panics :
  let r := onDashboardDeleted env "ns" "gone" already_absent in
  DashboardByUID env client_a "gone" already_absent
  = ((None, Some not_found), already_absent)
  /\ DeleteDashboardByUID env client_a "gone" already_absent
     = (Some not_found, already_absent)
  /\ not_404 (Some not_found) = false
  /\ value_of r = Panics "nil pointer dereference"
  /\ world_of r = already_absent
  /\ NRL_Find (Status_Dashboards (Grafana_Status (instance "a" [gone]))) "ns" "gone"
     = Some "gone"
  /\ count_events is_status_write (trace_of r) = 0
  /\ value_of (reconcile_in env "ns" "gone" already_absent)
     = Panics "nil pointer dereference".
Proof. vm_compute; repeat split; reflexivity. Qed.

(** *** Instances of the general statements *)

Lemma syncDashboards_batch_bound_witness :
  (let r := sweep PerIteration three_instances in
   orphan_count (grafanas three_instances) (dashboards three_instances) = 250
   /\ count_events is_dashboard_delete (trace_of r) = 100
   /\ fst (value_of r) = Result_Requeue true)
  /\ (let w := world_of (sweep PerIteration (world_of (sweep PerIteration three_instances))) in
      let r := sweep PerIteration w in
      orphan_count (grafanas w) (dashboards w) = 50
      /\ count_events is_dashboard_delete (trace_of r) = 50
      /\ fst (value_of r) = Result_Requeue false).
Proof.
  split.
  - destruct (@syncDashboards_batch_bound World env in_order PerIteration three_instances
                (fun m => Permutation_refl m)) as [_ H].
    specialize (H (grafanas three_instances) three_instances
                  (dashboards three_instances) three_instances eq_refl eq_refl).
    assert (Herr : snd (value_of (syncDashboards env in_order PerIteration three_instances))
                   = None) by (vm_compute; reflexivity).
    destruct (H Herr) as (_ & _ & H250 & _).
    assert (Hn : orphan_count (grafanas three_instances) (dashboards three_instances) = 250)
      by (vm_compute; reflexivity).
    split; [exact Hn|]. exact (H250 Hn).
  - set (w := world_of (sweep PerIteration (world_of (sweep PerIteration three_instances)))).
    destruct (@syncDashboards_batch_bound World env in_order PerIteration w
                (fun m => Permutation_refl m)) as [_ H].
    specialize (H (grafanas w) w (dashboards w) w eq_refl eq_refl).
    assert (Herr : snd (value_of (syncDashboards env in_order PerIteration w)) = None)
      by (vm_compute; reflexivity).
    destruct (H Herr) as (_ & _ & _ & Hle).
    assert (Hn : orphan_count (grafanas w) (dashboards w) = 50)
      by (vm_compute; reflexivity).
    split; [exact Hn|]. apply Hle. rewrite Hn. unfold syncBatchSize. lia.
Defined.

Lemma converged_skip_path :
  skip_path env source_types digest converged_instance board converged
            "{}" client_a converged [].
Proof.
  split; [|reflexivity].
  exists converged, converged, [{| Search_UID := "board"; Search_FolderID := 0 |}].
  repeat split; reflexivity.
Defined.

Lemma onDashboardCreated_converged_no_write_witness :
  let r := onDashboardCreated env source_types digest unmarshal
                              converged_instance board converged in
  count_events is_dashboard_write (trace_of r) = 0
  /\ count_events is_backend_write (trace_of r) = 0.
Proof.
  exact (@onDashboardCreated_converged_no_write World env source_types digest unmarshal
           converged_instance board converged "{}" client_a converged []
           converged_skip_path).
Defined.

Lemma onDashboardCreated_skip_writes_nothing_witness :
  let r := onDashboardCreated env source_types digest unmarshal
                              converged_instance board converged in
  fst (fst (value_of r)) = Returns None
  /\ snd (fst (value_of r)) = converged_instance
  /\ Status_Hash (snd (value_of r)) = Status_Hash board
  /\ count_events is_status_write (trace_of r) = 0
  /\ count_events is_folder_call (trace_of r) = 0
  /\ world_of r = converged.
Proof.
  exact (@onDashboardCreated_skip_writes_nothing World env source_types digest unmarshal
           converged_instance board converged "{}" client_a converged []
           converged_skip_path).
Defined.

Lemma Reconcile_source_error_witness :
  length (source_types sourceless) = 0
  /\ count_events is_backend_write
       (trace_of (reconcile_in env "ns" "empty" with_sourceless)) = 0
  /\ value_of (reconcile_in env "ns" "empty" with_sourceless)
     = Returns (Result_RequeueAfter error_delay, None).
Proof.
  destruct (@Reconcile_source_error World env error_delay resync_period source_types
              digest unmarshal in_order PerIteration
              {| Request_Namespace := "ns"; Request_Name := "empty" |}
              with_sourceless with_sourceless sourceless
              eq_refl eq_refl ltac:(vm_compute; discriminate))
    as (_ & Hwrite & Hdelay).
  split; [reflexivity|]. split; [exact Hwrite|].
  apply (Hdelay [] (grafanas with_sourceless) with_sourceless eq_refl eq_refl).
  discriminate.
Defined.


Lemma DeleteFolderIfEmpty_zero_calls_delete_witness :
  trace_of (DeleteFolderIfEmpty env client_a 0 filed)
  = [EvDashboards client_a; EvDeleteFolder client_a "0"]
  /\ snd (value_of (DeleteFolderIfEmpty env client_a 0 filed))
     = fst (DeleteFolder env client_a "0" filed).
Proof.
  exact (@DeleteFolderIfEmpty_zero_calls_delete World env client_a filed filed
           [{| Search_UID := "x"; Search_FolderID := 3 |}] eq_refl eq_refl).
Defined.

Lemma GetFolderID_zero_is_ambiguous_witness :
  value_of (GetFolderID env client_a general with_general) = (0%Z, None)
  /\ trace_of (GetOrCreateFolder env client_a general with_general)
     = [EvFolders client_a; EvNewFolder client_a "General"].
Proof.
  destruct (@GetFolderID_zero_is_ambiguous World env client_a general
              with_general with_general
              [{| Folder_ID := 0; Folder_Title := "General" |}] eq_refl) as [_ H].
  destruct (H {| Folder_ID := 0; Folder_Title := "General" |}) as [Hid Hcreate].
  - exists [], []. repeat split; reflexivity.
  - reflexivity.
  - split; [exact Hid|]. apply Hcreate. discriminate.
Defined.

(** The first reconciliation of a new resource writes it to the backend of
    the instance; the second one, on the world that the first one left,
    makes no write at all and schedules the resync. *)
Example second_reconcile_is_silent :
  let first := reconcile_in env "ns" "board" fresh_board in
  let second := reconcile_in env "ns" "board" (world_of first) in
  count_events is_dashboard_write (trace_of first) = 1
  /\ count_events is_backend_write (trace_of second) = 0
  /\ count_events is_status_write (trace_of second) = 0
  /\ value_of second = Returns (Result_RequeueAfter (resync_period board), None).
Proof. vm_compute. repeat split; reflexivity. Qed.

End Runs.

(** * Further properties of the controller *)

(** ** Folders *)

Section FolderBehaviour.
Variable W : Type.
Variable env : Env W.

Definition is_new_folder (e : Event) : bool :=
  match e with EvNewFolder _ _ => true | _ => false end.

Definition is_delete_folder (e : Event) : bool :=
  match e with EvDeleteFolder _ _ => true | _ => false end.

(** X1: [GetOrCreateFolder] makes no call for a resource without folder title
    and answers 0; for a title that a folder of the backend carries with a
    non-zero identifier it answers the identifier of the first such folder
    after the one listing call, without creating anything. *)
Theorem GetOrCreateFolder_resolves
        (client : Client) (cr : GrafanaDashboard) (w : W) :
  (FolderTitle (Dashboard_Spec cr) = "" ->
   GetOrCreateFolder env client cr w = ((0%Z, None), w, []))
  /\ (forall folders f w1,
         FolderTitle (Dashboard_Spec cr) <> "" ->
         Folders env client w = (Ok folders, w1) ->
         first_match (FolderTitle (Dashboard_Spec cr)) folders f ->
         Folder_ID f <> 0%Z ->
         GetOrCreateFolder env client cr w
         = ((Folder_ID f, None), w1, [EvFolders client])).
Proof.
  split.
  - intros Htitle. unfold GetOrCreateFolder. now rewrite Htitle.
  - intros folders f w1 Htitle HF Hf Hid.
    apply String.eqb_neq in Htitle. apply Z.eqb_neq in Hid.
    unfold GetOrCreateFolder, GetFolderID, bind, call, ret.
    rewrite Htitle, HF. cbn beta iota.
    rewrite (GetFolderID_loop_first_match Hf), Hid. reflexivity.
Qed.

(** X2: when no folder of the backend carries the title, [GetOrCreateFolder]
    creates the folder and answers the identifier that the backend assigned;
    when the creation fails it answers 0 with the error of the creation. *)
Theorem GetOrCreateFolder_creates_missing
        (client : Client) (cr : GrafanaDashboard) (w w1 : W) (folders : list Folder) :
  FolderTitle (Dashboard_Spec cr) <> "" ->
  Folders env client w = (Ok folders, w1) ->
  forallb (fun g => negb (Folder_Title g =? FolderTitle (Dashboard_Spec cr)))
          folders = true ->
  let created := NewFolder env client (FolderTitle (Dashboard_Spec cr)) w1 in
  GetOrCreateFolder env client cr w
  = ((match fst created with
      | Ok resp => (Folder_ID resp, None)
      | Err e => (0%Z, Some e)
      end),
     snd created,
     [EvFolders client; EvNewFolder client (FolderTitle (Dashboard_Spec cr))]).
Proof.
  intros Htitle HF Hno created. subst created.
  apply String.eqb_neq in Htitle.
  unfold GetOrCreateFolder, GetFolderID, bind, call, ret.
  rewrite Htitle, HF. cbn beta iota.
  rewrite (GetFolderID_loop_no_match _ _ Hno). cbn.
  now destruct (NewFolder env client (FolderTitle (Dashboard_Spec cr)) w1)
    as [[resp|e] w2].
Qed.

(** X3: whatever the backend answers, [GetOrCreateFolder] talks to the folder
    API only, creates at most one folder, deletes none, does not try to create
    a folder when the listing failed, and answers identifier 0 whenever it
    answers an error. *)
Theorem GetOrCreateFolder_discipline
        (client : Client) (cr : GrafanaDashboard) (w : W) :
  let r := GetOrCreateFolder env client cr w in
  forallb is_folder_call (trace_of r) = true
  /\ count_events is_new_folder (trace_of r) <= 1
  /\ count_events is_delete_folder (trace_of r) = 0
  /\ (snd (value_of r) <> None -> fst (value_of r) = 0%Z)
  /\ (FolderTitle (Dashboard_Spec cr) <> "" ->
      forall e w1, Folders env client w = (Err e, w1) ->
                   r = ((0%Z, Some e), w1, [EvFolders client])).
Proof.
  unfold GetOrCreateFolder, GetFolderID, bind, call, ret, value_of, trace_of.
  destruct (FolderTitle (Dashboard_Spec cr) =? "") eqn:Htitle.
  - cbn. apply String.eqb_eq in Htitle.
    repeat split; try lia; congruence.
  - destruct (Folders env client w) as [[folders|e] w1]; cbn beta iota.
    + destruct (negb (GetFolderID_loop (FolderTitle (Dashboard_Spec cr)) folders =? 0)%Z);
        cbn beta iota.
      * cbn. repeat split; try lia; congruence.
      * destruct (NewFolder env client (FolderTitle (Dashboard_Spec cr)) w1)
          as [[resp|e] w2]; cbn; repeat split; try lia; congruence.
    + cbn. repeat split; try lia; congruence.
Qed.

End FolderBehaviour.

Section FolderCleanup.
Variable W : Type.
Variable env : Env W.

(** The dashboard lies in the folder, as [DeleteFolderIfEmpty] compares. *)
Definition in_folder (folderID : Z) (d : FolderDashboardSearchResponse) : bool :=
  (int64_of_uint (Search_FolderID d) =? folderID)%Z.

(** X4: a folder in which the backend lists a dashboard is left alone:
    [DeleteFolderIfEmpty] answers 423 "resource is still in use" with a nil
    error after the listing call and makes no other call. *)
Theorem DeleteFolderIfEmpty_keeps_used_folder
        (client : Client) (folderID : Z) (w w1 : W)
        (dashboards : list FolderDashboardSearchResponse) :
  Dashboards env client w = (Ok dashboards, w1) ->
  existsb (in_folder folderID) dashboards = true ->
  DeleteFolderIfEmpty env client folderID w
  = (({| Response_Status := "resource is still in use"; StatusCode := 423 |}, None),
     w1, [EvDashboards client]).
Proof.
  intros HD Hused. unfold DeleteFolderIfEmpty, bind, call, ret.
  rewrite HD. cbn beta iota. unfold in_folder in Hused. now rewrite Hused.
Qed.

(** X5: [DeleteFolderIfEmpty] answers one of three ways, whatever the
    backend does: 200 with a nil error after exactly one delete-folder call,
    423 with a nil error and no delete-folder call, or 500 together with an
    error; it never issues more than one delete-folder call and touches no
    dashboard. *)
Theorem DeleteFolderIfEmpty_answers (client : Client) (folderID : Z) (w : W) :
  let r := DeleteFolderIfEmpty env client folderID w in
  let resp := fst (value_of r) in
  let err := snd (value_of r) in
  ((StatusCode resp = 200%Z /\ err = None
    /\ count_events is_delete_folder (trace_of r) = 1)
   \/ (StatusCode resp = 423%Z /\ err = None
       /\ count_events is_delete_folder (trace_of r) = 0)
   \/ (StatusCode resp = 500%Z /\ err <> None))
  /\ count_events is_delete_folder (trace_of r) <= 1
  /\ count_events is_dashboard_delete (trace_of r) = 0
  /\ count_events is_dashboard_write (trace_of r) = 0.
Proof.
  unfold DeleteFolderIfEmpty, bind, call, ret, value_of, trace_of.
  destruct (Dashboards env client w) as [[dashboards|e] w1]; cbn beta iota.
  - destruct (existsb _ dashboards); cbn beta iota.
    + cbn. split; [right; left; auto|]. repeat split; lia.
    + destruct (DeleteFolder env client (FormatInt folderID) w1) as [[e|] w2]; cbn.
      * split; [right; right; split; [reflexivity|discriminate]|]. repeat split; lia.
      * split; [left; auto|]. repeat split; lia.
  - cbn. split; [right; right; split; [reflexivity|discriminate]|]. repeat split; lia.
Qed.

(** X6: the log line "folder still in use by other dashboards" is tied to
    status code 432, a code that [DeleteFolderIfEmpty] never answers: the
    line is never written, and for a folder that is in use (code 423) the
    handler logs nothing at all. *)
Theorem folder_in_use_is_never_logged (client : Client) (folderID : Z) (w : W) :
  let resp := fst (value_of (DeleteFolderIfEmpty env client folderID w)) in
  ~ In "folder still in use by other dashboards" (folder_cleanup_log resp)
  /\ (StatusCode resp = 423%Z -> folder_cleanup_log resp = []).
Proof.
  unfold DeleteFolderIfEmpty, bind, call, ret, value_of.
  destruct (Dashboards env client w) as [[dashboards|e] w1]; cbn beta iota.
  - destruct (existsb _ dashboards); cbn beta iota.
    + cbn. split; [tauto|reflexivity].
    + destruct (DeleteFolder env client (FormatInt folderID) w1) as [[e|] w2]; cbn.
      * split; [tauto|reflexivity].
      * split; [intros [H|[]]; discriminate|discriminate].
  - cbn. split; [tauto|reflexivity].
Qed.

End FolderCleanup.

(** ** Creation and update, continued *)

(** Splits on the innermost scrutinee of the goal, again and again. *)
Ltac cases :=
  repeat (simpl;
          match goal with
          | |- context [match ?x with _ => _ end] =>
              lazymatch x with
              | context [match _ with _ => _ end] => fail
              | _ => destruct x eqn:?
              end
          end).

(** [m[k]] on a map that is not nil. *)
Fixpoint map_get (m : JsonMap) (k : string) : option JsonValue :=
  match m with
  | [] => None
  | (k', v) :: rest => if k' =? k then Some v else map_get rest k
  end.

Lemma map_get_set (m : JsonMap) (k : string) (v : JsonValue) :
  map_get (map_set m k v) k = Some v.
Proof.
  induction m as [|[k' v'] m IH]; simpl.
  - now rewrite String.eqb_refl.
  - destruct (k' =? k) eqn:E; simpl; [now rewrite String.eqb_refl|now rewrite E].
Qed.

Section CreatedBehaviour.
Variable W : Type.
Variable env : Env W.
Variable GetSourceTypes : GrafanaDashboard -> list DashboardSourceType.
Variable hash : string -> string.
Variable json_Unmarshal : string -> result (option JsonMap).

Local Abbreviation fetch := (fetchDashboardJson env GetSourceTypes).
Local Abbreviation created := (onDashboardCreated env GetSourceTypes hash json_Unmarshal).

Definition is_grafana_status (e : Event) : bool :=
  match e with EvUpdateGrafanaStatus _ => true | _ => false end.

Definition is_dashboard_status (e : Event) : bool :=
  match e with EvUpdateDashboardStatus _ => true | _ => false end.

Ltac open_created cr w :=
  let H := fresh "Hfetch" in
  pose proof (@fetchDashboardJson_trace W env GetSourceTypes cr w) as H;
  unfold onDashboardCreated, Exists, GetOrCreateFolder, GetFolderID, UpdateStatus;
  unfold bind, call, ret, value_of, trace_of in *;
  let r := fresh "r" in
  let w0 := fresh "w" in
  let t0 := fresh "t" in
  destruct (fetch cr w) as [[r w0] t0]; simpl in H;
  destruct H as [-> | ->].

(** X7: one call of [onDashboardCreated] sends at most one dashboard to the
    backend and creates at most one folder; it deletes nothing; it writes
    the status of the instance at most once and only in a run that sent the
    dashboard, and the status of the resource at most once and only in a run
    that wrote the status of the instance. *)
Theorem onDashboardCreated_write_discipline
        (grafana : Grafana) (cr : GrafanaDashboard) (w : W) :
  let t := trace_of (created grafana cr w) in
  count_events is_dashboard_write t <= 1
  /\ count_events is_new_folder t <= 1
  /\ count_events is_dashboard_delete t = 0
  /\ count_events is_delete_folder t = 0
  /\ count_events is_grafana_status t <= count_events is_dashboard_write t
  /\ count_events is_dashboard_status t <= count_events is_grafana_status t.
Proof.
  open_created cr w; cases; unfold count_events; simpl; repeat split; lia.
Qed.

(** X8: every dashboard that [onDashboardCreated] sends to the backend asks
    for an overwrite, carries the name of the resource as slug and the UID
    of the resource under the key "uid" of its model, and has an empty
    message. *)
Theorem onDashboardCreated_sends_identity
        (grafana : Grafana) (cr : GrafanaDashboard) (w : W)
        (client : Client) (d : Dashboard) :
  In (EvNewDashboard client d) (trace_of (created grafana cr w)) ->
  Overwrite d = true
  /\ Slug (Meta d) = Dashboard_Name cr
  /\ map_get (Model d) "uid" = Some (JString (Dashboard_UID cr))
  /\ IsStarred (Meta d) = false
  /\ Message d = "".
Proof.
  open_created cr w; cases; intros Hin; simpl in Hin;
    repeat match goal with
           | H : _ \/ _ |- _ => destruct H
           | H : False |- _ => destruct H
           | H : _ = EvNewDashboard _ _ |- _ => inversion H; clear H; subst
           end;
    simpl; rewrite ?map_get_set; repeat split; reflexivity.
Qed.

(** X9: when [onDashboardCreated] returns nil, the resource that it leaves
    is unchanged in the sense of the hash: the hash in its status is the
    hash of its content.  Either nothing was sent and the instance is as it
    was, or one dashboard was sent and the instance, whose status was
    written, tracks the resource. *)
Theorem onDashboardCreated_nil_means_converged
        (grafana : Grafana) (cr : GrafanaDashboard) (w : W) :
  let r := created grafana cr w in
  let grafana' := snd (fst (value_of r)) in
  let cr' := snd (value_of r) in
  fst (fst (value_of r)) = Returns None ->
  Unchanged hash cr' = true
  /\ ((count_events is_dashboard_write (trace_of r) = 0 /\ grafana' = grafana)
      \/ (count_events is_dashboard_write (trace_of r) = 1
          /\ NRL_Find (Status_Dashboards (Grafana_Status grafana'))
                      (Dashboard_Namespace cr) (Dashboard_Name cr) <> None
          /\ In (EvUpdateGrafanaStatus grafana') (trace_of r)
          /\ In (EvUpdateDashboardStatus cr') (trace_of r))).
Proof.
  open_created cr w; cases; intros Hnil; try discriminate;
    unfold Unchanged, Hash in *; simpl;
    repeat match goal with
           | H : _ && _ = true |- _ => apply andb_true_iff in H; destruct H
           end;
    (split;
     [ assumption || apply String.eqb_refl
     | first [ left; split; reflexivity
             | right; unfold count_events; simpl; rewrite ?NRL_Find_Add;
               repeat split;
               first [ reflexivity | discriminate
                     | repeat match goal with
                              | |- _ \/ _ => first [left; reflexivity | right]
                              end ] ] ]).
Qed.

(** The run gets as far as the decoding of the document: the content is
    resolved, the client is built, the listing succeeds, and the dashboard is
    missing from the backend or its hash has changed.  [prefix] holds the
    calls made until then and [cr'] is the resource with the content in
    [Spec.Json]. *)
Record reaches_write (grafana : Grafana) (cr : GrafanaDashboard) (w : W)
       (dashboardJson : string) (client : Client) (w' : W)
       (prefix : list Event) : Prop := {
  reaches_calls : exists w1 w2 dashboards fetched,
    fetch cr w = (Ok dashboardJson, w1, fetched)
    /\ NewGrafanaClient env grafana w1 = (Ok client, w2)
    /\ Dashboards env client w2 = (Ok dashboards, w')
    /\ existsb (fun d => Search_UID d =? Dashboard_UID cr) dashboards
       && Unchanged hash (set_Spec_Json cr dashboardJson) = false
    /\ prefix = fetched ++ [EvNewGrafanaClient grafana; EvDashboards client]
}.

(** The dashboard that is sent for [cr], decoded to [model], into
    [folderID]. *)
Definition dashboard_of (cr : GrafanaDashboard) (model : JsonMap) (folderID : Z)
  : Dashboard :=
  {| Meta := {| IsStarred := false; Slug := Dashboard_Name cr; Meta_Folder := folderID |};
     Model := map_set model "uid" (JString (Dashboard_UID cr));
     Dashboard_Folder := 0;
     Overwrite := true;
     Message := "" |}.

(** X10: an error of the folder resolution comes back wrapped as an internal
    error ("Internal error occurred: ..."), which is not a not-found error;
    no dashboard is sent and no status is written. *)
Theorem onDashboardCreated_folder_error_is_internal
        (grafana : Grafana) (cr : GrafanaDashboard) (w : W)
        (dashboardJson : string) (client : Client) (w3 w4 : W)
        (prefix t4 : list Event) (decoded : option JsonMap) (id : Z) (e : error) :
  reaches_write grafana cr w dashboardJson client w3 prefix ->
  json_Unmarshal dashboardJson = Ok decoded ->
  GetOrCreateFolder env client (set_Spec_Json cr dashboardJson) w3
  = ((id, Some e), w4, t4) ->
  created grafana cr w
  = ((Returns (Some (NewInternalError e)), grafana, set_Spec_Json cr dashboardJson),
     w4, prefix ++ t4)
  /\ Error (NewInternalError e) = ("Internal error occurred: " ++ Error e)%string
  /\ IsNotFound (NewInternalError e) = false.
Proof.
  intros [(w1 & w2 & dashboards & fetched & Hf & Hc & Hd & Hskip & ->)] Hjson Hfolder.
  split; [|split; reflexivity].
  unfold onDashboardCreated, Exists, bind, call, ret.
  rewrite Hf, Hc. cbn beta iota. rewrite Hd. cbn beta iota.
  cbn [Dashboard_UID set_Spec_Json] in *. rewrite Hskip, Hjson, Hfolder.
  cbn beta iota. now rewrite !app_nil_r, <- !app_assoc.
Qed.

(** X11: a document that decodes to no map at all (the JSON [null]) makes
    [onDashboardCreated] panic on the write of the "uid" key, and only after
    the folder has been resolved: what the folder resolution did on the
    backend stays, no dashboard is sent. *)
Theorem onDashboardCreated_null_document_panics
        (grafana : Grafana) (cr : GrafanaDashboard) (w : W)
        (dashboardJson : string) (client : Client) (w3 w4 : W)
        (prefix t4 : list Event) (folderID : Z) :
  reaches_write grafana cr w dashboardJson client w3 prefix ->
  json_Unmarshal dashboardJson = Ok None ->
  GetOrCreateFolder env client (set_Spec_Json cr dashboardJson) w3
  = ((folderID, None), w4, t4) ->
  created grafana cr w
  = ((Panics "assignment to entry in nil map", grafana,
      set_Spec_Json cr dashboardJson), w4, prefix ++ t4).
Proof.
  intros [(w1 & w2 & dashboards & fetched & Hf & Hc & Hd & Hskip & ->)] Hjson Hfolder.
  unfold onDashboardCreated, Exists, bind, call, ret.
  rewrite Hf, Hc. cbn beta iota. rewrite Hd. cbn beta iota.
  cbn [Dashboard_UID set_Spec_Json] in *. rewrite Hskip, Hjson, Hfolder.
  cbn beta iota. now rewrite !app_nil_r, <- !app_assoc.
Qed.

(** X12: when the backend takes the dashboard but answers a status other
    than "success", [onDashboardCreated] returns a bad-request error that
    quotes the status; the dashboard has been sent, yet neither the status of
    the instance nor that of the resource is written. *)
Theorem onDashboardCreated_rejected_save
        (grafana : Grafana) (cr : GrafanaDashboard) (w : W)
        (dashboardJson : string) (client : Client) (w3 w4 w5 : W)
        (prefix t4 : list Event) (model : JsonMap) (folderID : Z)
        (resp : DashboardSaveResponse) :
  let cr' := set_Spec_Json cr dashboardJson in
  reaches_write grafana cr w dashboardJson client w3 prefix ->
  json_Unmarshal dashboardJson = Ok (Some model) ->
  GetOrCreateFolder env client cr' w3 = ((folderID, None), w4, t4) ->
  NewDashboard env client (dashboard_of cr' model folderID) w4 = (Ok resp, w5) ->
  Save_Status resp <> "success" ->
  created grafana cr w
  = ((Returns (Some (NewBadRequest ("error creating dashboard, status was "
                                    ++ Save_Status resp)%string)), grafana, cr'),
     w5, prefix ++ t4 ++ [EvNewDashboard client (dashboard_of cr' model folderID)]).
Proof.
  intros cr' [(w1 & w2 & dashboards & fetched & Hf & Hc & Hd & Hskip & ->)]
         Hjson Hfolder Hsave Hstatus.
  apply String.eqb_neq in Hstatus. subst cr'.
  unfold dashboard_of in Hsave.
  unfold onDashboardCreated, Exists, bind, call, ret.
  rewrite Hf, Hc. cbn beta iota. rewrite Hd. cbn beta iota.
  cbn [Dashboard_UID Dashboard_Name set_Spec_Json] in *.
  rewrite Hskip, Hjson, Hfolder. cbn beta iota.
  rewrite Hsave. cbn beta iota. rewrite Hstatus. cbn [negb].
  cbn beta iota. now rewrite !app_nil_r, <- !app_assoc.
Qed.

Lemma set_Spec_Json_same (cr : GrafanaDashboard) :
  set_Spec_Json cr (Json (Dashboard_Spec cr)) = cr.
Proof. destruct cr as [ns nm uid [j u f sel pl] h]. reflexivity. Qed.

Lemma onDashboardCreated_nil_unchanged
      (grafana : Grafana) (cr : GrafanaDashboard) (w : W) :
  fst (fst (value_of (created grafana cr w))) = Returns None ->
  Unchanged hash (snd (value_of (created grafana cr w))) = true.
Proof.
  open_created cr w; cases; intros Hnil; try discriminate;
    unfold Unchanged, Hash in *; simpl;
    repeat match goal with
           | H : _ && _ = true |- _ => apply andb_true_iff in H; destruct H
           end;
    (assumption || apply String.eqb_refl).
Qed.

(** X28: after a call of [onDashboardCreated] that returned nil, a second
    call for the same instance and resource, as the first call left them, is
    silent: when the resource has its inline JSON as only source and the
    backend lists its UID, the second call builds the client, lists the
    dashboards and returns nil, with no folder call, no dashboard write and
    no status write. *)
Theorem onDashboardCreated_twice_is_silent
        (grafana grafana' : Grafana) (cr cr' : GrafanaDashboard) (w w' w2 w3 : W)
        (t : list Event) (client : Client)
        (dashboards : list FolderDashboardSearchResponse) :
  created grafana cr w = ((Returns None, grafana', cr'), w', t) ->
  GetSourceTypes cr' = [DashboardSourceTypeRawJson] ->
  NewGrafanaClient env grafana' w' = (Ok client, w2) ->
  Dashboards env client w2 = (Ok dashboards, w3) ->
  existsb (fun d => Search_UID d =? Dashboard_UID cr') dashboards = true ->
  created grafana' cr' w'
  = ((Returns None, grafana', cr'), w3,
     [EvNewGrafanaClient grafana'; EvDashboards client]).
Proof.
  intros Hfirst Hsrc Hclient Hlist Hlisted.
  pose proof (onDashboardCreated_nil_unchanged grafana cr w) as Hunchanged.
  unfold value_of in Hunchanged. rewrite Hfirst in Hunchanged.
  specialize (Hunchanged eq_refl). cbn [fst snd] in Hunchanged.
  unfold Unchanged, Hash in Hunchanged. apply String.eqb_eq in Hunchanged.
  assert (Hskip : skip_path env GetSourceTypes hash grafana' cr' w'
                            (Json (Dashboard_Spec cr')) client w3 []).
  { constructor; [|exact Hunchanged].
    exists w', w2, dashboards. repeat split; try assumption.
    unfold fetchDashboardJson. now rewrite Hsrc. }
  rewrite (onDashboardCreated_skip json_Unmarshal Hskip).
  now rewrite set_Spec_Json_same.
Qed.

End CreatedBehaviour.

(** ** Deletion, continued *)

Section DeletionBehaviour.
Variable W : Type.
Variable env : Env W.

Local Abbreviation deleted_loop := (onDashboardDeleted_loop env).

(** An event of the deletion of (namespace, name): nothing is created, the
    status of no resource is written, and a status update of an instance
    carries no entry of (namespace, name). *)
Definition drops_tracked (namespace name : string) (e : Event) : bool :=
  match e with
  | EvNewDashboard _ _ | EvNewFolder _ _ | EvUpdateDashboardStatus _ => false
  | EvUpdateGrafanaStatus g =>
      match NRL_Find (Status_Dashboards (Grafana_Status g)) namespace name with
      | Some _ => false
      | None => true
      end
  | _ => true
  end.

Definition tracks (namespace name : string) (g : Grafana) : bool :=
  match NRL_Find (Status_Dashboards (Grafana_Status g)) namespace name with
  | Some _ => true
  | None => false
  end.

Ltac cases_of_iteration :=
  repeat (simpl;
          match goal with
          | |- context [match ?x with _ => _ end] =>
              lazymatch x with
              | context [match _ with _ => _ end] => fail
              | context [onDashboardDeleted_loop] => fail
              | _ => destruct x eqn:?
              end
          end).

(** X13: the deletion handler never creates a dashboard or a folder and never
    writes the status of a resource; every status of an instance that it
    writes has no entry left for the deleted resource; and it writes at most
    one status per instance that tracked the resource. *)
Theorem onDashboardDeleted_only_removes (namespace name : string) (w : W) :
  let t := trace_of (onDashboardDeleted env namespace name w) in
  forallb (drops_tracked namespace name) t = true
  /\ forall items w1,
      ListGrafanas env w = (Ok items, w1) ->
      count_events is_grafana_status_write t
      <= length (filter (tracks namespace name) items).
Proof.
  assert (Hloop : forall items w0,
             forallb (drops_tracked namespace name)
                     (trace_of (deleted_loop items namespace name w0)) = true
             /\ count_events is_grafana_status_write
                  (trace_of (deleted_loop items namespace name w0))
                <= length (filter (tracks namespace name) items)).
  { induction items as [|grafana rest IH]; intros w0; [split; [reflexivity|cbn; lia]|].
    cbn [onDashboardDeleted_loop filter].
    destruct (NRL_Find (Status_Dashboards (Grafana_Status grafana)) namespace name)
      as [uid|] eqn:Hfind.
    2:{ replace (tracks namespace name grafana) with false
          by (unfold tracks; now rewrite Hfind).
        apply IH. }
    replace (tracks namespace name grafana) with true
      by (unfold tracks; now rewrite Hfind).
    cbn [length].
    unfold DeleteFolderIfEmpty, bind, call, ret, trace_of.
    cases_of_iteration;
      try (rewrite NRL_Find_Remove in *; discriminate);
      try (split; [reflexivity|unfold count_events; simpl; lia]).
    all: match goal with
         | |- context [onDashboardDeleted_loop _ _ _ _ ?w'] =>
             destruct (IH w') as [IHt IHc]; unfold trace_of in IHt, IHc;
             destruct (onDashboardDeleted_loop env rest namespace name w')
               as [[o' w''] t']
         end.
    all: cbn [fst snd] in *; rewrite ?app_nil_r, ?forallb_app, ?IHt.
    all: simpl; rewrite ?NRL_Find_Remove; simpl; rewrite ?IHt.
    all: split; [reflexivity|]; count; lia. }
  intros t. subst t. unfold onDashboardDeleted, bind, call, ret, trace_of.
  destruct (ListGrafanas env w) as [[items|e] w1]; cbn beta iota.
  - destruct (Hloop items w1) as [Ht Hc]. unfold trace_of in Ht, Hc.
    destruct (deleted_loop items namespace name w1) as [[o w2] t].
    cbn [fst snd] in *. split; [exact Ht|].
    intros items' w1' H. inversion H; subst. count. exact Hc.
  - split; [reflexivity|]. intros; discriminate.
Qed.

(** X14: when no instance tracks the deleted resource, the handler lists the
    instances and is done: it returns nil without building a client and
    without any call to a backend. *)
Theorem onDashboardDeleted_untracked_is_a_noop
        (namespace name : string) (w w1 : W) (items : list Grafana) :
  ListGrafanas env w = (Ok items, w1) ->
  forallb (fun g => negb (tracks namespace name g)) items = true ->
  onDashboardDeleted env namespace name w = (Returns None, w1, [EvListGrafanas]).
Proof.
  intros HL Hnone. unfold onDashboardDeleted, bind, call, ret.
  rewrite HL. cbn beta iota.
  assert (Hloop : forall l,
             forallb (fun g => negb (tracks namespace name g)) l = true ->
             forall w0, deleted_loop l namespace name w0 = (Returns None, w0, [])).
  { induction l as [|g rest IH]; intros Hl w0; [reflexivity|].
    cbn [forallb] in Hl. apply andb_true_iff in Hl as [Hg Hrest].
    cbn [onDashboardDeleted_loop]. unfold tracks in Hg.
    destruct (NRL_Find (Status_Dashboards (Grafana_Status g)) namespace name);
      [discriminate|]. now apply IH. }
  now rewrite (Hloop items Hnone).
Qed.

(** X15: an error of the lookup or of the deletion by UID that does not
    mention "status: 404" stops the handler at that instance: the error is
    returned, the dashboard is not deleted after a failed lookup, the folder
    cleanup and the status update are not reached, and the instances after it
    are not visited. *)
Theorem onDashboardDeleted_loop_stops_on_error
        (grafana : Grafana) (rest : list Grafana) (namespace name uid : string)
        (client : Client) (w w1 : W) :
  NRL_Find (Status_Dashboards (Grafana_Status grafana)) namespace name = Some uid ->
  NewGrafanaClient env grafana w = (Ok client, w1) ->
  (forall dash e w2,
      DashboardByUID env client uid w1 = ((dash, Some e), w2) ->
      Contains (Error e) "status: 404" = false ->
      deleted_loop (grafana :: rest) namespace name w
      = (Returns (Some e), w2,
         [EvNewGrafanaClient grafana; EvDashboardByUID client uid]))
  /\ (forall dash err e w2 w3,
         DashboardByUID env client uid w1 = ((Some dash, err), w2) ->
         not_404 err = false ->
         DeleteDashboardByUID env client uid w2 = (Some e, w3) ->
         Contains (Error e) "status: 404" = false ->
         deleted_loop (grafana :: rest) namespace name w
         = (Returns (Some e), w3,
            [EvNewGrafanaClient grafana; EvDashboardByUID client uid;
             EvDeleteDashboardByUID client uid])).
Proof.
  intros Hfind Hclient. split.
  - intros dash e w2 Hget H404.
    cbn [onDashboardDeleted_loop]. rewrite Hfind.
    unfold bind, call, ret, not_404. rewrite Hclient. cbn beta iota.
    rewrite Hget. cbn beta iota. now rewrite H404.
  - intros dash err e w2 w3 Hget Herr Hdel H404.
    cbn [onDashboardDeleted_loop]. rewrite Hfind.
    unfold bind, call, ret. rewrite Hclient. cbn beta iota.
    rewrite Hget. cbn beta iota. rewrite Herr. cbn beta iota.
    rewrite Hdel. cbn beta iota. unfold not_404. now rewrite H404.
Qed.

(** X16: for an instance that tracks the deleted resource, when the lookup
    hands back the dashboard (with no error or with one that mentions
    "status: 404"), the deletion raises nothing but such an error, and folder
    cleanup, plugin reconciliation and status update succeed, the handler
    does, in this order: lookup, deletion, cleanup of the folder that the
    dashboard was in, plugin reconciliation with an empty list under the tag
    "<name>-dashboard", one status update of the instance without the entry;
    then it goes on with the next instance. *)
Theorem onDashboardDeleted_loop_removes_entry
        (grafana : Grafana) (rest : list Grafana) (namespace name uid : string)
        (client : Client) (dash : Dashboard) (err1 err2 : option error)
        (resp : Response) (w w1 w2 w3 w4 w5 w6 : W) (t4 : list Event) :
  let grafana' :=
    set_Status_Dashboards grafana
      (NRL_Remove (Status_Dashboards (Grafana_Status grafana)) namespace name) in
  NRL_Find (Status_Dashboards (Grafana_Status grafana)) namespace name = Some uid ->
  NewGrafanaClient env grafana w = (Ok client, w1) ->
  DashboardByUID env client uid w1 = ((Some dash, err1), w2) ->
  not_404 err1 = false ->
  DeleteDashboardByUID env client uid w2 = (err2, w3) ->
  not_404 err2 = false ->
  DeleteFolderIfEmpty env client (Dashboard_Folder dash) w3 = ((resp, None), w4, t4) ->
  ReconcilePlugins env grafana [] (name ++ "-dashboard")%string w4 = (None, w5) ->
  UpdateGrafanaStatus env grafana' w5 = (None, w6) ->
  tracks namespace name grafana' = false
  /\ deleted_loop (grafana :: rest) namespace name w
     = (let '(o, w', t') := deleted_loop rest namespace name w6 in
        (o, w',
         [EvNewGrafanaClient grafana; EvDashboardByUID client uid;
          EvDeleteDashboardByUID client uid]
           ++ t4
           ++ [EvReconcilePlugins grafana [] (name ++ "-dashboard")%string;
               EvUpdateGrafanaStatus grafana']
           ++ t')).
Proof.
  intros grafana' Hfind Hclient Hget H1 Hdel H2 Hfolder Hplugins Hupdate.
  split; [unfold tracks, grafana'; cbn; now rewrite NRL_Find_Remove|].
  cbn [onDashboardDeleted_loop]. rewrite Hfind.
  unfold bind, call, ret.
  rewrite Hclient. cbn beta iota. rewrite Hget. cbn beta iota. rewrite H1.
  cbn beta iota. rewrite Hdel. cbn beta iota. rewrite H2.
  cbn beta iota. rewrite Hfolder. cbn beta iota.
  rewrite Hplugins. cbn beta iota. fold grafana'. rewrite Hupdate. cbn beta iota.
  destruct (deleted_loop rest namespace name w6) as [[o w'] t'].
  cbn [app]. rewrite <- ?app_assoc. reflexivity.
Qed.

End DeletionBehaviour.

(** ** The orphan sweep, continued *)

Section SweepBehaviour.
Variable W : Type.
Variable env : Env W.
Variable range_order : list (nat * list NamespacedResource)
                       -> list (nat * list NamespacedResource).

(** The orphans of one instance, in the order of its tracked list. *)
Definition orphans (allDashboards : list GrafanaDashboard) (g : Grafana)
  : list NamespacedResource :=
  filter (is_orphan allDashboards) (Status_Dashboards (Grafana_Status g)).

(** The instance with its tracked list reduced to the entries whose resource
    exists. *)
Definition pruned (allDashboards : list GrafanaDashboard) (g : Grafana) : Grafana :=
  set_Status_Dashboards g
    (filter (fun r => negb (is_orphan allDashboards r))
            (Status_Dashboards (Grafana_Status g))).

(** One entry per instance that has orphans, keyed by the position of the
    instance in the list, counted from [i]. *)
Fixpoint per_instance (allDashboards : list GrafanaDashboard) (i : nat)
         (items : list Grafana) : list (nat * list NamespacedResource) :=
  match items with
  | [] => []
  | g :: rest =>
      match orphans allDashboards g with
      | [] => per_instance allDashboards (S i) rest
      | ds => (i, ds) :: per_instance allDashboards (S i) rest
      end
  end.

(** The step of the inner loop that fills the map. *)
Local Abbreviation collect_step allDashboards p :=
  (fun m dashboard =>
     if negb (DashboardList_Find allDashboards
                (nr_namespace dashboard) (nr_name dashboard))
     then map_append m p dashboard
     else m).

Definition fresh_key (p : nat) (m : list (nat * list NamespacedResource)) : Prop :=
  forall q ds, In (q, ds) m -> q <> p.

Lemma map_append_fresh (m : list (nat * list NamespacedResource)) (p : nat)
      (d : NamespacedResource) :
  fresh_key p m -> map_append m p d = m ++ [(p, [d])].
Proof.
  induction m as [|[q ds] m IH]; intros Hfresh; simpl; [reflexivity|].
  destruct (Nat.eqb_spec q p) as [->|_].
  - exfalso. apply (Hfresh p ds); [now left|reflexivity].
  - rewrite IH; [reflexivity|]. intros q' ds' Hin. apply (Hfresh q' ds'). now right.
Qed.

Lemma map_append_last (m : list (nat * list NamespacedResource)) (p : nat)
      (acc : list NamespacedResource) (d : NamespacedResource) :
  fresh_key p m -> map_append (m ++ [(p, acc)]) p d = m ++ [(p, acc ++ [d])].
Proof.
  induction m as [|[q ds] m IH]; intros Hfresh; simpl.
  - now rewrite Nat.eqb_refl.
  - destruct (Nat.eqb_spec q p) as [->|_].
    + exfalso. apply (Hfresh p ds); [now left|reflexivity].
    + rewrite IH; [reflexivity|]. intros q' ds' Hin. apply (Hfresh q' ds'). now right.
Qed.

Lemma collect_step_last (allDashboards : list GrafanaDashboard) (p : nat)
      (tracked : NamespacedResourceList) :
  forall m acc,
    fresh_key p m ->
    fold_left (collect_step allDashboards p) tracked (m ++ [(p, acc)])
    = m ++ [(p, acc ++ filter (is_orphan allDashboards) tracked)].
Proof.
  induction tracked as [|d tracked IH]; intros m acc Hfresh; simpl.
  - now rewrite app_nil_r.
  - unfold is_orphan at 1.
    destruct (negb (DashboardList_Find allDashboards (nr_namespace d) (nr_name d))).
    + rewrite map_append_last by exact Hfresh. rewrite IH by exact Hfresh.
      now rewrite <- app_assoc.
    + now apply IH.
Qed.

Lemma collect_step_fresh (allDashboards : list GrafanaDashboard) (p : nat)
      (tracked : NamespacedResourceList) :
  forall m,
    fresh_key p m ->
    fold_left (collect_step allDashboards p) tracked m
    = match filter (is_orphan allDashboards) tracked with
      | [] => m
      | ds => m ++ [(p, ds)]
      end.
Proof.
  induction tracked as [|d tracked IH]; intros m Hfresh; simpl; [reflexivity|].
  unfold is_orphan at 1.
  destruct (negb (DashboardList_Find allDashboards (nr_namespace d) (nr_name d))).
  - rewrite map_append_fresh by exact Hfresh.
    now rewrite collect_step_last by exact Hfresh.
  - now apply IH.
Qed.

(** The first loop with one variable per iteration, from any position [i]
    and any map whose keys lie below [i]. *)
Lemma collect_orphans_per_iteration (allDashboards : list GrafanaDashboard) :
  forall items i heap m,
(forall q ds, In (q, ds) m -> q < i) ->
snd (collect_orphans PerIteration allDashboards items i heap m)
= m ++ per_instance allDashboards i items
/\ forall k,
    fst (collect_orphans PerIteration allDashboards items i heap m) k
    = if ((i <=? k) && (k <? i + length items))%nat
      then nth (k - i) items zero_Grafana
      else heap k.
Proof.
  induction items as [|g items IH]; intros i heap m Hkeys.
- simpl. split; [now rewrite app_nil_r|].
  intros k. destruct (i <=? k)%nat eqn:E1; simpl; [|reflexivity].
  destruct (k <? i + 0)%nat eqn:E2; [|reflexivity].
  apply Nat.leb_le in E1. apply Nat.ltb_lt in E2. lia.
- cbn [collect_orphans loopvar_addr per_instance].
  rewrite collect_step_fresh
    by (intros q ds Hin; specialize (Hkeys q ds Hin); lia).
  fold (orphans allDashboards g).
  set (m' := match orphans allDashboards g with
             | [] => m
             | ds => m ++ [(i, ds)]
             end).
  assert (Hkeys' : forall q ds, In (q, ds) m' -> q < S i).
  { subst m'. intros q ds Hin.
    destruct (orphans allDashboards g).
    - specialize (Hkeys q ds Hin). lia.
    - apply in_app_or in Hin as [Hin|[Hin|[]]].
      + specialize (Hkeys q ds Hin). lia.
      + inversion Hin. lia. }
  destruct (IH (S i) (heap_store heap i g) m' Hkeys') as [IHm IHh].
  split.
  + rewrite IHm. subst m'.
    destruct (orphans allDashboards g); [reflexivity|].
    now rewrite <- app_assoc.
  + intros k. rewrite IHh. unfold heap_store. cbn [length].
    destruct (Nat.eqb_spec k i) as [->|Hne].
    * replace (S i <=? i)%nat with false by (symmetry; apply Nat.leb_gt; lia).
      rewrite Nat.leb_refl.
      replace (i <? i + S (length items))%nat with true
        by (symmetry; apply Nat.ltb_lt; lia).
      rewrite Nat.sub_diag. reflexivity.
    * destruct (Nat.leb_spec (S i) k) as [H1|H1];
        destruct (Nat.leb_spec i k) as [H0|H0]; try lia; cbn [andb];
        [|reflexivity].
      replace (S i + length items) with (i + S (length items)) by lia.
      destruct (k <? i + S (length items))%nat; [|reflexivity].
      replace (k - i) with (S (k - S i)) by lia. reflexivity.
Qed.

(** X17: with the loop variable declared per iteration, the map that the
    first loop of [syncDashboards] builds has one entry for every instance
    that has orphans, in the order of the instances; the entry holds the
    orphans of that instance in the order of its tracked list, and its key
    points at that instance. *)
Theorem dashboardsToDelete_per_iteration
        (grafanas : list Grafana) (allDashboards : list GrafanaDashboard) :
  snd (dashboardsToDelete PerIteration grafanas allDashboards)
  = per_instance allDashboards 0 grafanas
  /\ forall k, k < length grafanas ->
               fst (dashboardsToDelete PerIteration grafanas allDashboards) k
               = nth k grafanas zero_Grafana.
Proof.
  unfold dashboardsToDelete.
  destruct (@collect_orphans_per_iteration allDashboards grafanas 0
              (fun _ => zero_Grafana) []) as [Hm Hh];
    [intros q ds []|].
  split; [exact Hm|].
  intros k Hk. rewrite Hh. cbn [Nat.leb andb Nat.add].
  replace (k <? length grafanas)%nat with true by (symmetry; now apply Nat.ltb_lt).
  now rewrite Nat.sub_0_r.
Qed.

Lemma last_cons (g d : Grafana) (rest : list Grafana) :
  last (g :: rest) d = last rest g.
Proof.
  revert g d. induction rest as [|h rest IH]; intros g d; [reflexivity|].
  change (last (g :: h :: rest) d) with (last (h :: rest) d).
  now rewrite !IH.
Qed.

(** The first loop with one variable for the whole loop: the single address
    ends up holding the last instance, and every list of orphans is appended
    to the one entry under that address. *)
Lemma collect_orphans_per_loop_heap (allDashboards : list GrafanaDashboard)
      (items : list Grafana) :
  forall i heap m,
    fst (collect_orphans PerLoop allDashboards items i heap m) 0
    = last items (heap 0).
Proof.
  induction items as [|g items IH]; intros i heap m; [reflexivity|].
  cbn [collect_orphans loopvar_addr]. rewrite IH, last_cons.
  unfold heap_store. reflexivity.
Qed.

Lemma collect_orphans_per_loop_acc (allDashboards : list GrafanaDashboard)
      (items : list Grafana) :
  forall i heap acc,
    snd (collect_orphans PerLoop allDashboards items i heap [(0, acc)])
    = [(0, acc ++ flat_map (orphans allDashboards) items)].
Proof.
  induction items as [|g items IH]; intros i heap acc.
  - simpl. now rewrite app_nil_r.
  - cbn [collect_orphans loopvar_addr flat_map].
    pose proof (@collect_step_last allDashboards 0
                  (Status_Dashboards (Grafana_Status g)) [] acc
                  ltac:(intros q ds [])) as Hstep.
    cbn [app] in Hstep. rewrite Hstep, IH. unfold orphans. now rewrite app_assoc.
Qed.

Lemma collect_orphans_per_loop_map (allDashboards : list GrafanaDashboard)
      (items : list Grafana) :
  forall i heap,
    snd (collect_orphans PerLoop allDashboards items i heap [])
    = match flat_map (orphans allDashboards) items with
      | [] => []
      | ds => [(0, ds)]
      end.
Proof.
  induction items as [|g items IH]; intros i heap; [reflexivity|].
  cbn [collect_orphans loopvar_addr flat_map].
  pose proof (@collect_step_fresh allDashboards 0
                (Status_Dashboards (Grafana_Status g)) []
                ltac:(intros q ds [])) as Hstep.
  rewrite Hstep. fold (orphans allDashboards g).
  destruct (orphans allDashboards g) as [|d ds]; [apply IH|].
  cbn [app]. now rewrite collect_orphans_per_loop_acc.
Qed.

(** X18: with the loop variable declared once for the loop, every entry goes
    under the one address of that variable: the map has at most one entry,
    which gathers the orphans of all instances, and its key points at the
    last instance of the list. *)
Theorem dashboardsToDelete_per_loop
        (grafanas : list Grafana) (allDashboards : list GrafanaDashboard) :
  snd (dashboardsToDelete PerLoop grafanas allDashboards)
  = match flat_map (orphans allDashboards) grafanas with
    | [] => []
    | ds => [(0, ds)]
    end
  /\ fst (dashboardsToDelete PerLoop grafanas allDashboards) 0
     = last grafanas zero_Grafana.
Proof.
  unfold dashboardsToDelete. split.
  - apply collect_orphans_per_loop_map.
  - now rewrite collect_orphans_per_loop_heap.
Qed.

Lemma collect_orphans_none (sem : LoopVar) (allDashboards : list GrafanaDashboard)
      (items : list Grafana) :
  orphan_count items allDashboards = 0 ->
  forall i heap m,
    snd (collect_orphans sem allDashboards items i heap m) = m.
Proof.
  unfold orphan_count.
  induction items as [|g items IH]; intros Hzero i heap m; [reflexivity|].
  change (length (filter (is_orphan allDashboards) (Status_Dashboards (Grafana_Status g)))
          + list_sum (map (fun g => length (filter (is_orphan allDashboards)
                                              (Status_Dashboards (Grafana_Status g))))
                          items) = 0) in Hzero.
  cbn [collect_orphans]. rewrite IH by lia.
  assert (Hg : filter (is_orphan allDashboards) (Status_Dashboards (Grafana_Status g)) = [])
    by (apply length_zero_iff_nil; lia).
  clear Hzero IH. revert m Hg.
  induction (Status_Dashboards (Grafana_Status g)) as [|d l IHl]; intros m Hg;
    [reflexivity|].
  simpl in *. unfold is_orphan in Hg at 1.
  destruct (negb (DashboardList_Find allDashboards (nr_namespace d) (nr_name d)));
    [discriminate|]. now apply IHl.
Qed.

(** X19: a pass that finds no instance stops after the listing of the
    instances, without listing the resources; a pass that finds instances but
    no orphan lists both and does nothing else: no client is built, no backend
    is called, no status is written, and no requeue is asked for. *)
Theorem syncDashboards_nothing_to_do (sem : LoopVar) (w w1 : W) :
  (forall m, Permutation (range_order m) m) ->
  (ListGrafanas env w = (Ok [], w1) ->
   syncDashboards env range_order sem w
   = ((Result_Requeue false, None), w1, [EvListGrafanas]))
  /\ (forall grafanas allDashboards w2,
         ListGrafanas env w = (Ok grafanas, w1) ->
         grafanas <> [] ->
         ListDashboards env w1 = (Ok allDashboards, w2) ->
         orphan_count grafanas allDashboards = 0 ->
         syncDashboards env range_order sem w
         = ((Result_Requeue false, None), w2, [EvListGrafanas; EvListDashboards])).
Proof.
  intros Hperm. split.
  - intros HG. unfold syncDashboards, bind, call, ret. now rewrite HG.
  - intros grafanas allDashboards w2 HG Hne HD Hzero.
    unfold syncDashboards, bind, call, ret. rewrite HG. cbn beta iota.
    destruct grafanas as [|g grafanas]; [congruence|]. cbn [length Nat.eqb].
    rewrite HD. cbn beta iota.
    pose proof (@collect_orphans_none sem allDashboards (g :: grafanas) Hzero
                  0 (fun _ => zero_Grafana) []) as Hnone.
    unfold dashboardsToDelete.
    destruct (collect_orphans sem allDashboards (g :: grafanas) 0 _ [])
      as [heap todo].
    cbn [snd] in Hnone. subst todo.
    rewrite (Permutation_nil (Permutation_sym (Hperm []))).
    reflexivity.
Qed.

(** The tracked list after the removal of the entries of [ds], one after the
    other. *)
Definition remove_all (ds : list NamespacedResource) (l : NamespacedResourceList)
  : NamespacedResourceList :=
  fold_left (fun l d => NRL_Remove l (nr_namespace d) (nr_name d)) ds l.

Lemma remove_all_filter (ds : list NamespacedResource) :
  forall l,
    remove_all ds l
    = filter (fun r => forallb (fun d => negb (nr_matches (nr_namespace d) (nr_name d) r)) ds)
             l.
Proof.
  unfold remove_all.
  induction ds as [|d ds IH]; intros l; simpl.
  - induction l as [|r l IHl]; simpl; [reflexivity|]. now rewrite <- IHl.
  - rewrite IH. unfold NRL_Remove.
    induction l as [|r l IHl]; simpl; [reflexivity|].
    destruct (negb (nr_matches (nr_namespace d) (nr_name d) r)); simpl;
      now rewrite IHl.
Qed.

Lemma is_orphan_matches (allDashboards : list GrafanaDashboard)
      (d r : NamespacedResource) :
  nr_matches (nr_namespace d) (nr_name d) r = true ->
  is_orphan allDashboards r = is_orphan allDashboards d.
Proof.
  unfold nr_matches, is_orphan. intros H.
  apply andb_true_iff in H as [Hns Hname].
  apply String.eqb_eq in Hns. apply String.eqb_eq in Hname.
  now rewrite Hns, Hname.
Qed.

Lemma remove_all_orphans (allDashboards : list GrafanaDashboard)
      (l : NamespacedResourceList) :
  remove_all (filter (is_orphan allDashboards) l) l
  = filter (fun r => negb (is_orphan allDashboards r)) l.
Proof.
  rewrite remove_all_filter. apply filter_ext_in. intros r Hr.
  destruct (is_orphan allDashboards r) eqn:Hor; simpl.
  - destruct (forallb _ (filter (is_orphan allDashboards) l)) eqn:Hall; [|reflexivity].
    rewrite forallb_forall in Hall.
    specialize (Hall r ltac:(apply filter_In; split; assumption)).
    unfold nr_matches in Hall. now rewrite !String.eqb_refl in Hall.
  - apply forallb_forall. intros d Hd. apply filter_In in Hd as [_ Hd].
    destruct (nr_matches (nr_namespace d) (nr_name d) r) eqn:Hm; [|reflexivity].
    rewrite (is_orphan_matches allDashboards d r Hm) in Hor. congruence.
Qed.

Lemma pruned_remove_all (allDashboards : list GrafanaDashboard) (g : Grafana) :
  set_Status_Dashboards g
    (remove_all (orphans allDashboards g) (Status_Dashboards (Grafana_Status g)))
  = pruned allDashboards g.
Proof. unfold pruned, orphans. now rewrite remove_all_orphans. Qed.

Lemma sync_delete_loop_next (client : Client) (ds : list NamespacedResource) :
  forall (g : Grafana) (n : nat) (w : W) g' n' w' t,
    sync_delete_loop env client ds g n w = (Next (g', n'), w', t) ->
    g' = set_Status_Dashboards g (remove_all ds (Status_Dashboards (Grafana_Status g)))
    /\ t = map (fun d => EvDeleteDashboardByUID client (nr_uid d)) ds
    /\ n' = n + length ds.
Proof.
  induction ds as [|d ds IH]; intros g n w g' n' w' t.
  - cbn. unfold ret. intros H. inversion H; subst.
    destruct g' as [ns nm [st ss dl]]. repeat split; try reflexivity; lia.
  - cbn [sync_delete_loop Split]. destruct (syncBatchSize <=? n)%nat; [discriminate|].
    unfold bind, call, ret.
    destruct (DeleteDashboardByUID env client (nr_uid d) w) as [[e|] w1];
      [discriminate|].
    destruct (sync_delete_loop env client ds _ (S n) w1) as [[f w2] t2] eqn:E.
    intros H. inversion H; subst.
    destruct (IH _ _ _ _ _ _ _ E) as (-> & -> & ->).
    split; [|split; [reflexivity|cbn [length]; lia]].
    destruct g as [ns nm [st ss dl]]. reflexivity.
Qed.

(** X20: when the inner loop of the sweep runs through the orphans of an
    instance without meeting the limit or an error, it has issued one
    deletion per orphan, with the UID of the entry and in the order of the
    tracked list, and the instance is left with exactly the tracked entries
    whose resource exists, in their order; the rest of the instance is
    untouched. *)
Theorem sync_delete_loop_prunes
        (allDashboards : list GrafanaDashboard) (client : Client) (g : Grafana)
        (n : nat) (w : W) (g' : Grafana) (n' : nat) (w' : W) (t : list Event) :
  sync_delete_loop env client (orphans allDashboards g) g n w = (Next (g', n'), w', t) ->
  g' = pruned allDashboards g
  /\ t = map (fun d => EvDeleteDashboardByUID client (nr_uid d)) (orphans allDashboards g)
  /\ n' = n + length (orphans allDashboards g).
Proof.
  intros H. destruct (sync_delete_loop_next _ _ _ _ _ H) as (-> & -> & ->).
  repeat split. unfold pruned, orphans. now rewrite remove_all_orphans.
Qed.

Lemma deletes_are_no_status_writes (t : list Event) :
  forallb is_dashboard_delete t = true ->
  filter is_grafana_status_write t = [].
Proof.
  induction t as [|e t IH]; simpl; [reflexivity|].
  intros H. apply andb_true_iff in H as [He Ht].
  destruct e; simpl in *; try discriminate. now apply IH.
Qed.

(** The statuses that the outer loop writes when it runs through all its
    entries: for every entry, in order, the instance behind its key, pruned. *)
Lemma sync_instances_statuses (allDashboards : list GrafanaDashboard)
      (entries : list (nat * list NamespacedResource)) :
  forall (heap : nat -> Grafana) (n : nat) (w : W),
    n <= syncBatchSize ->
    NoDup (map fst entries) ->
    (forall p ds, In (p, ds) entries -> ds = orphans allDashboards (heap p)) ->
    value_of (sync_instances env heap entries n w) = (Result_Requeue false, None) ->
    filter is_grafana_status_write (trace_of (sync_instances env heap entries n w))
    = map (fun entry => EvUpdateGrafanaStatus (pruned allDashboards (heap (fst entry))))
          entries.
Proof.
  induction entries as [|[p ds] rest IH]; intros heap n w Hn Hdup Hds Hval;
    [reflexivity|].
  cbn [sync_instances] in *. unfold bind, call, ret, value_of, trace_of in *.
  destruct (NewGrafanaClient env (heap p) w) as [[client|e] w1]; [|discriminate].
  pose proof (sync_delete_loop_spec env client ds (heap p) w1 Hn) as Hspec.
  unfold value_of, trace_of in Hspec. cbn zeta in Hspec.
  destruct (sync_delete_loop env client ds (heap p) n w1) as [[f w2] t] eqn:Hloop.
  cbn [fst snd] in *. destruct Hspec as [Hdel Hf].
  destruct f as [[g' n']|[res [e|]]]; cbn beta iota in *.
  2:{ destruct Hf as [_ ->]. discriminate. }
  2:{ destruct Hf as (_ & -> & _). discriminate. }
  destruct Hf as (_ & _ & Hn').
  rewrite (Hds p ds (or_introl eq_refl)) in Hloop.
  destruct (sync_delete_loop_next _ _ _ _ _ Hloop) as (-> & _ & _).
  rewrite pruned_remove_all in *.
  destruct (UpdateGrafanaStatus env (pruned allDashboards (heap p)) w2)
    as [[e|] w3]; [discriminate|].
  inversion Hdup as [|? ? Hnotin Hdup']; subst.
  assert (Hother : forall q ds', In (q, ds') rest -> q <> p).
  { intros q ds' Hin ->. apply Hnotin. apply (in_map fst) in Hin. exact Hin. }
  specialize (IH (heap_store heap p (pruned allDashboards (heap p))) n' w3 Hn' Hdup').
  unfold value_of, trace_of in IH.
  destruct (sync_instances env _ rest n' w3) as [[[res err] w4] t'].
  cbn [fst snd] in *.
  cbn [map fst filter is_grafana_status_write app].
  rewrite !filter_app, (deletes_are_no_status_writes _ Hdel).
  cbn [app filter is_grafana_status_write]. f_equal.
  rewrite IH.
  - apply map_ext_in. intros [q ds'] Hin. cbn [fst]. unfold heap_store.
    destruct (Nat.eqb_spec q p) as [->|_]; [|reflexivity].
    exfalso. now apply (Hother p ds').
  - intros q ds' Hin. unfold heap_store.
    destruct (Nat.eqb_spec q p) as [->|_]; [|now apply Hds; right].
    exfalso. now apply (Hother p ds').
  - exact Hval.
Qed.

Lemma per_instance_entries (allDashboards : list GrafanaDashboard)
      (items : list Grafana) :
  forall i,
    (forall p ds, In (p, ds) (per_instance allDashboards i items) ->
                  i <= p < i + length items
                  /\ ds = orphans allDashboards (nth (p - i) items zero_Grafana))
    /\ NoDup (map fst (per_instance allDashboards i items)).
Proof.
  induction items as [|g items IH]; intros i; [split; [intros ? ? []|constructor]|].
  destruct (IH (S i)) as [IHin IHdup].
  assert (Hrest : forall p ds, In (p, ds) (per_instance allDashboards (S i) items) ->
                  i <= p < i + length (g :: items)
                  /\ ds = orphans allDashboards (nth (p - i) (g :: items) zero_Grafana)).
  { intros p ds Hin. destruct (IHin p ds Hin) as [Hp ->]. cbn [length]. split; [lia|].
    replace (p - i) with (S (p - S i)) by lia. reflexivity. }
  cbn [per_instance]. destruct (orphans allDashboards g) as [|d ds0] eqn:Hg.
  - split; [exact Hrest|exact IHdup].
  - split.
    + intros p ds [Hin|Hin]; [|now apply Hrest].
      inversion Hin; subst. cbn [length]. split; [lia|].
      now rewrite Nat.sub_diag.
    + cbn [map fst]. constructor; [|exact IHdup].
      intros Hin. apply in_map_iff in Hin as [[q ds] [Hq Hin]].
      cbn [fst] in Hq. subst q. destruct (IHin i ds Hin) as [Hp _]. lia.
Qed.

(** X21: a pass that runs to its end (no requeue, no error), with the loop
    variable declared per iteration, writes exactly one status for every
    instance that has orphans, in the order in which the map was visited, and
    the status written for an instance is the instance with its tracked list
    reduced to the entries whose resource exists. *)
Theorem syncDashboards_complete_pass_statuses
        (w w1 w2 : W) (grafanas : list Grafana) (allDashboards : list GrafanaDashboard) :
  (forall m, Permutation (range_order m) m) ->
  ListGrafanas env w = (Ok grafanas, w1) ->
  ListDashboards env w1 = (Ok allDashboards, w2) ->
  value_of (syncDashboards env range_order PerIteration w)
  = (Result_Requeue false, None) ->
  filter is_grafana_status_write
         (trace_of (syncDashboards env range_order PerIteration w))
  = map (fun entry =>
           EvUpdateGrafanaStatus
             (pruned allDashboards (nth (fst entry) grafanas zero_Grafana)))
        (range_order (per_instance allDashboards 0 grafanas)).
Proof.
  intros Hperm HG HD.
  unfold syncDashboards, bind, call, ret, value_of, trace_of.
  rewrite HG. cbn beta iota.
  destruct grafanas as [|g grafanas].
  { cbn. intros _. now rewrite (Permutation_nil (Permutation_sym (Hperm []))). }
  cbn [length Nat.eqb]. rewrite HD. cbn beta iota.
  assert (Hshape :
            snd (dashboardsToDelete PerIteration (g :: grafanas) allDashboards)
            = per_instance allDashboards 0 (g :: grafanas)
            /\ forall k, k < length (g :: grafanas) ->
                         fst (dashboardsToDelete PerIteration (g :: grafanas)
                                                 allDashboards) k
                         = nth k (g :: grafanas) zero_Grafana).
  { unfold dashboardsToDelete.
    destruct (@collect_orphans_per_iteration allDashboards (g :: grafanas) 0
                (fun _ => zero_Grafana) []) as [Hm Hh]; [intros q ds []|].
    split; [exact Hm|]. intros k Hk. rewrite Hh. cbn [Nat.leb andb Nat.add].
    replace (k <? length (g :: grafanas))%nat with true
      by (symmetry; now apply Nat.ltb_lt).
    now rewrite Nat.sub_0_r. }
  destruct Hshape as [Htodo Hheap].
  destruct (dashboardsToDelete PerIteration (g :: grafanas) allDashboards)
    as [heap todo].
  cbn [fst snd] in Htodo, Hheap. subst todo.
  set (todo := per_instance allDashboards 0 (g :: grafanas)) in *.
  destruct (per_instance_entries allDashboards (g :: grafanas) 0) as [Hin Hdup].
  fold todo in Hin, Hdup.
  assert (Hdup' : NoDup (map fst (range_order todo))).
  { eapply Permutation_NoDup; [|exact Hdup].
    apply Permutation_map, Permutation_sym, Hperm. }
  assert (Hin' : forall p ds, In (p, ds) (range_order todo) ->
                              p < length (g :: grafanas)
                              /\ ds = orphans allDashboards (heap p)).
  { intros p ds Hp. apply (Permutation_in _ (Hperm todo)) in Hp.
    destruct (Hin p ds Hp) as [Hlt ->]. split; [lia|].
    rewrite Hheap by lia. now rewrite Nat.sub_0_r. }
  pose proof (@sync_instances_statuses allDashboards (range_order todo) heap 0 w2
                (Nat.le_0_l _) Hdup' (fun p ds H => proj2 (Hin' p ds H))) as Hs.
  unfold value_of, trace_of in Hs.
  destruct (sync_instances env heap (range_order todo) 0 w2) as [[v w3] t].
  cbn [fst snd] in *. intros Hval. cbn [app filter is_grafana_status_write].
  rewrite (Hs Hval). apply map_ext_in. intros [p ds] Hp. cbn [fst].
  destruct (Hin' p ds Hp) as [Hlt _]. now rewrite Hheap.
Qed.

Definition is_new_client (e : Event) : bool :=
  match e with EvNewGrafanaClient _ => true | _ => false end.

(** X22: with the loop variable declared once for the loop, a pass builds at
    most one client, and builds it for the last instance of the list,
    whichever instances the orphans belong to. *)
Theorem syncDashboards_per_loop_last_instance
        (w w1 : W) (grafanas : list Grafana) :
  (forall m, Permutation (range_order m) m) ->
  ListGrafanas env w = (Ok grafanas, w1) ->
  let t := trace_of (syncDashboards env range_order PerLoop w) in
  count_events is_new_client t <= 1
  /\ forall g, In (EvNewGrafanaClient g) t -> g = last grafanas zero_Grafana.
Proof.
  intros Hperm HG.
  unfold syncDashboards, bind, call, ret, trace_of.
  rewrite HG. cbn beta iota.
  destruct grafanas as [|g0 grafanas].
  { cbn. split; [lia|]. intros g [H|[]]. discriminate. }
  cbn [length Nat.eqb].
  destruct (ListDashboards env w1) as [[allDashboards|e] w2]; cbn beta iota.
  2:{ cbn. split; [lia|]. intros g [H|[H|[]]]; discriminate. }
  pose proof (@collect_orphans_per_loop_map allDashboards (g0 :: grafanas) 0
                (fun _ => zero_Grafana)) as Htodo.
  pose proof (@collect_orphans_per_loop_heap allDashboards (g0 :: grafanas) 0
                (fun _ => zero_Grafana) []) as Hheap.
  cbn beta in Hheap.
  fold (dashboardsToDelete PerLoop (g0 :: grafanas) allDashboards) in Htodo, Hheap.
  destruct (dashboardsToDelete PerLoop (g0 :: grafanas) allDashboards)
    as [heap todo].
  cbn [fst snd] in Htodo, Hheap. subst todo.
  destruct (flat_map (orphans allDashboards) (g0 :: grafanas)) as [|d ds].
  - rewrite (Permutation_nil (Permutation_sym (Hperm []))). cbn.
    split; [lia|]. intros g [H|[H|[]]]; discriminate.
  - rewrite (Permutation_length_1_inv (Permutation_sym (Hperm [(0, d :: ds)]))).
    cbn [sync_instances]. unfold bind, call, ret. rewrite Hheap.
    destruct (NewGrafanaClient env (last (g0 :: grafanas) zero_Grafana) w2)
      as [[client|e] w3]; cbn beta iota.
    2:{ cbn. split; [lia|]. intros g [H|[H|[H|[]]]]; try discriminate.
        now inversion H. }
    pose proof (sync_delete_loop_spec env client (d :: ds)
                  (last (g0 :: grafanas) zero_Grafana) w3 (Nat.le_0_l _)) as [Hdel _].
    unfold trace_of in Hdel.
    destruct (sync_delete_loop env client (d :: ds) _ 0 w3) as [[f w4] t].
    cbn [snd] in Hdel.
    assert (Hnone : forall g, ~ In (EvNewGrafanaClient g) t).
    { intros g Hin. rewrite forallb_forall in Hdel.
      specialize (Hdel _ Hin). discriminate. }
    assert (Hcount : count_events is_new_client t = 0).
    { apply count_events_none. clear Hnone.
      induction t as [|e t IHt]; [reflexivity|].
      cbn [forallb] in *. apply andb_true_iff in Hdel as [He Ht].
      rewrite (IHt Ht). destruct e; try discriminate. reflexivity. }
    destruct f as [[g' n']|res]; cbn beta iota.
    + destruct (UpdateGrafanaStatus env g' w4) as [[e|] w5]; cbn beta iota.
      * split; [count; rewrite Hcount; lia|].
        intros g Hin. cbn in Hin.
        destruct Hin as [H|[H|[H|Hin]]]; try discriminate; [now inversion H|].
        apply in_app_or in Hin as [Hin|[H|[]]];
          [now apply Hnone in Hin|discriminate].
      * split; [count; rewrite Hcount; lia|].
        intros g Hin. cbn in Hin.
        destruct Hin as [H|[H|[H|Hin]]]; try discriminate; [now inversion H|].
        apply in_app_or in Hin as [Hin|[H|[]]];
          [now apply Hnone in Hin|discriminate].
    + split; [count; rewrite Hcount; lia|].
      intros g Hin. cbn in Hin.
      destruct Hin as [H|[H|[H|Hin]]]; try discriminate; [now inversion H|].
      rewrite app_nil_r in Hin. now apply Hnone in Hin.
Qed.

End SweepBehaviour.

(** ** The background sweep *)

Section TaskBehaviour.
Variable W : Type.
Variable env : Env W.
Variable RequeueDelayError : Z.
Variable GetResyncPeriod : GrafanaDashboard -> Z.
Variable GetSourceTypes : GrafanaDashboard -> list DashboardSourceType.
Variable hash : string -> string.
Variable json_Unmarshal : string -> result (option JsonMap).
Variable range_order : list (nat * list NamespacedResource)
                       -> list (nat * list NamespacedResource).
Variable loopvar : LoopVar.

Local Abbreviation task :=
  (sync_task env RequeueDelayError GetResyncPeriod GetSourceTypes hash
             json_Unmarshal range_order loopvar).
Local Abbreviation setup :=
  (SetupWithManager env RequeueDelayError GetResyncPeriod GetSourceTypes hash
                    json_Unmarshal range_order loopvar).

Definition is_timer (s : Signal) : bool :=
  match s with TimerSignal => true | StopSignal => false end.

Lemma syncDashboards_deletes_le (w : W) :
  count_events is_dashboard_delete
               (trace_of (syncDashboards env range_order loopvar w))
  <= syncBatchSize.
Proof.
  unfold syncDashboards, bind, call, ret, trace_of.
  destruct (ListGrafanas env w) as [[grafanas|e] w1]; cbn beta iota; [|cbn; lia].
  destruct (length grafanas =? 0)%nat; [cbn; lia|].
  destruct (ListDashboards env w1) as [[allDashboards|e] w2]; cbn beta iota;
    [|cbn; lia].
  destruct (dashboardsToDelete loopvar grafanas allDashboards) as [heap todo].
  pose proof (sync_instances_spec env (range_order todo) heap w2 (Nat.le_0_l _)) as [Hle _].
  unfold trace_of in Hle.
  destruct (sync_instances env heap (range_order todo) 0 w2) as [[v w3] t].
  cbn [snd] in *. count. lia.
Qed.

Lemma Reconcile_periodic (w : W) :
  Reconcile env RequeueDelayError GetResyncPeriod GetSourceTypes hash json_Unmarshal
            range_order loopvar {| Request_Namespace := ""; Request_Name := "" |} w
  = (let '(r, w1, t) := syncDashboards env range_order loopvar w in
     (Returns r, w1, t)).
Proof.
  unfold Reconcile. simpl. unfold bind, ret.
  destruct (syncDashboards env range_order loopvar w) as [[r w1] t].
  now rewrite app_nil_r.
Qed.

(** X23: the background sweep issues at most 100 deletions per timer round,
    whatever the backends answer; it does not pass through either of the
    panics of the controller (the nil dashboard of the deletion handler, the
    nil map of the creation path); a stop signal ends it without a further
    call, and the signals after the stop are not looked at; and when the
    registration of the controller failed, [SetupWithManager] hands back
    that error and runs nothing. *)
Theorem sync_task_is_paced (signals : list Signal) (w : W) :
  count_events is_dashboard_delete (trace_of (task signals w))
  <= syncBatchSize * length (filter is_timer signals)
  /\ (forall what, value_of (task signals w) <> TaskPanicked what)
  /\ (forall rounds later,
         signals = rounds ++ StopSignal :: later ->
         task signals w = task (rounds ++ [StopSignal]) w)
  /\ (forall e, setup (Some e) signals w = ((Some e, None), w, [])).
Proof.
  split; [|split; [|split]].
  - revert w. induction signals as [|s signals IH]; intros w; [cbn; lia|].
    destruct s; [cbn; lia|].
    cbn [sync_task filter is_timer length]. unfold bind. rewrite Reconcile_periodic.
    unfold ret, trace_of.
    pose proof (syncDashboards_deletes_le w) as Hle. unfold trace_of in Hle.
    destruct (syncDashboards env range_order loopvar w) as [[[res err] w1] t].
    cbn [snd] in Hle. cbn beta iota.
    specialize (IH w1). unfold trace_of in IH.
    rewrite Nat.mul_succ_r.
    remember syncBatchSize as limit eqn:Hlimit in *. clear Hlimit.
    remember (limit * length (filter is_timer signals)) as later eqn:Hlater in *.
    clear Hlater.
    destruct err as [e|]; [|destruct (Requeue res)].
    + destruct (task signals w1) as [[st w2] t']. cbn [snd] in *.
      rewrite ?app_nil_r. count. lia.
    + destruct (task signals w1) as [[st w2] t']. cbn [snd] in *.
      rewrite ?app_nil_r. count. lia.
    + cbn [snd]. rewrite ?app_nil_r. count. lia.
  - revert w. induction signals as [|s signals IH]; intros w what; [discriminate|].
    destruct s; [discriminate|].
    cbn [sync_task]. unfold bind. rewrite Reconcile_periodic.
    unfold ret, value_of.
    destruct (syncDashboards env range_order loopvar w) as [[[res err] w1] t].
    cbn beta iota. specialize (IH w1 what). unfold value_of in IH.
    destruct err as [e|]; [|destruct (Requeue res)].
    + now destruct (task signals w1) as [[st w2] t'].
    + now destruct (task signals w1) as [[st w2] t'].
    + discriminate.
  - intros rounds later ->. revert w.
    induction rounds as [|s rounds IH]; intros w; [reflexivity|].
    destruct s; [reflexivity|].
    cbn [sync_task app]. unfold bind.
    destruct (Reconcile _ _ _ _ _ _ _ _ _ w) as [[o w1] t].
    destruct o as [[res [e|]]|what]; try reflexivity.
    + now rewrite IH.
    + destruct (Requeue res); [now rewrite IH|reflexivity].
  - reflexivity.
Qed.

End TaskBehaviour.

(** ** Reconcile, continued *)

Section ReconcileBehaviour.
Variable W : Type.
Variable env : Env W.
Variable RequeueDelayError : Z.
Variable GetResyncPeriod : GrafanaDashboard -> Z.
Variable GetSourceTypes : GrafanaDashboard -> list DashboardSourceType.
Variable hash : string -> string.
Variable json_Unmarshal : string -> result (option JsonMap).
Variable range_order : list (nat * list NamespacedResource)
                       -> list (nat * list NamespacedResource).
Variable loopvar : LoopVar.

Local Abbreviation fetch := (fetchDashboardJson env GetSourceTypes).
Local Abbreviation created := (onDashboardCreated env GetSourceTypes hash json_Unmarshal).
Local Abbreviation loop := (Reconcile_loop env GetSourceTypes hash json_Unmarshal).
Local Abbreviation reconcile :=
  (Reconcile env RequeueDelayError GetResyncPeriod GetSourceTypes hash
             json_Unmarshal range_order loopvar).

(** X24: the ways out of [Reconcile] before any instance is handled.  An
    error of the lookup other than not-found, and an error of the instance
    selection, come back with the error delay; a resource without instance
    selector gets the error delay and a nil error; a selector that matches no
    instance gets no requeue at all.  In each case nothing but the lookup
    and the selection has been called. *)
Theorem Reconcile_leaves_early (req : Request) (w : W) :
  names_resource req ->
  let get := EvGetDashboard (Request_Namespace req) (Request_Name req) in
  (forall e w1,
      GetDashboard env (Request_Namespace req) (Request_Name req) w = (Err e, w1) ->
      IsNotFound e = false ->
      reconcile req w
      = (Returns (Result_RequeueAfter RequeueDelayError, Some e), w1, [get]))
  /\ (forall dashboard w1,
         GetDashboard env (Request_Namespace req) (Request_Name req) w
         = (Ok dashboard, w1) ->
         (InstanceSelector (Dashboard_Spec dashboard) = None ->
          reconcile req w
          = (Returns (Result_RequeueAfter RequeueDelayError, None), w1, [get]))
         /\ (forall sel e w2,
                InstanceSelector (Dashboard_Spec dashboard) = Some sel ->
                GetMatchingInstances env sel w1 = (Err e, w2) ->
                reconcile req w
                = (Returns (Result_RequeueAfter RequeueDelayError, Some e), w2,
                   [get; EvGetMatchingInstances sel]))
         /\ (forall sel w2,
                InstanceSelector (Dashboard_Spec dashboard) = Some sel ->
                GetMatchingInstances env sel w1 = (Ok [], w2) ->
                reconcile req w
                = (Returns (Result_Requeue false, None), w2,
                   [get; EvGetMatchingInstances sel]))).
Proof.
  intros Hreq get. unfold names_resource in Hreq. split.
  - intros e w1 Hget Hnf. unfold Reconcile, bind, call, ret.
    now rewrite Hreq, Hget, Hnf.
  - intros dashboard w1 Hget. split; [|split].
    + intros Hsel. unfold Reconcile, bind, call, ret.
      now rewrite Hreq, Hget, Hsel.
    + intros sel e w2 Hsel Hmatch. unfold Reconcile, bind, call, ret.
      rewrite Hreq, Hget. cbn beta iota. now rewrite Hsel, Hmatch.
    + intros sel w2 Hsel Hmatch. unfold Reconcile, bind, call, ret.
      rewrite Hreq, Hget. cbn beta iota. now rewrite Hsel, Hmatch.
Qed.

Lemma onDashboardCreated_calls (grafana : Grafana) (cr : GrafanaDashboard) (w : W) :
  count_events is_plugin_call (trace_of (created grafana cr w)) = 0
  /\ (fst (fst (value_of (created grafana cr w))) = Returns None ->
      count_events is_new_client (trace_of (created grafana cr w)) = 1).
Proof.
  pose proof (@fetchDashboardJson_trace W env GetSourceTypes cr w) as Hfetch.
  unfold onDashboardCreated, Exists, GetOrCreateFolder, GetFolderID, UpdateStatus.
  unfold bind, call, ret, value_of, trace_of in *.
  destruct (fetch cr w) as [[r w0] t0]. simpl in Hfetch.
  destruct Hfetch as [-> | ->]; cases;
    (split; [reflexivity|intros H; (discriminate H || reflexivity)]).
Qed.

Lemma Reconcile_loop_true (instances : list Grafana) :
  forall (dashboard : GrafanaDashboard) (success : bool) (w : W) d' w' t,
    loop instances dashboard success w = ((Returns true, d'), w', t) ->
    success = true
    /\ forallb instance_ready instances = true
    /\ count_events is_plugin_call t = length instances
    /\ count_events is_new_client t = length instances.
Proof.
  induction instances as [|grafana rest IH]; intros dashboard success w d' w' t.
  - cbn. unfold ret. intros H. inversion H; subst. repeat split.
  - cbn [Reconcile_loop forallb length].
    destruct (instance_ready grafana); cbn [negb andb].
    2:{ intros H.
        pose proof (@Reconcile_loop_false W env GetSourceTypes hash json_Unmarshal
                      rest dashboard w) as Hf.
        unfold value_of in Hf. rewrite H in Hf. cbn in Hf.
        destruct Hf as [Hf|[what Hf]]; discriminate. }
    unfold bind, call, ret.
    destruct (ReconcilePlugins env grafana _ _ w) as [err w1].
    pose proof (onDashboardCreated_calls grafana dashboard w1) as [Hplug Hclient].
    unfold value_of, trace_of in Hplug, Hclient.
    destruct (created grafana dashboard w1) as [[[[o g'] d1] w2] t1].
    cbn [fst snd] in *.
    destruct o as [err'|what]; [|discriminate].
    destruct (loop rest d1 _ w2) as [[[o2 d2] w3] t2] eqn:E.
    intros H. inversion H; subst.
    destruct (IH _ _ _ _ _ _ E) as (Hs & Hready & Hp & Hc).
    destruct err' as [e'|]; [discriminate|]. destruct err as [e|]; [discriminate|].
    split; [exact Hs|]. split; [exact Hready|].
    split; count; rewrite ?Hplug, ?Hp, ?Hc, ?(Hclient eq_refl); lia.
Qed.

(** X25: [Reconcile] schedules the resync period of the resource only at
    the end of a loop in which every matching instance was ready and was
    handled: one plugin reconciliation and one client per instance, none
    skipped; the period is read off the resource as the loop leaves it. *)
Theorem Reconcile_resync_needs_every_instance
        (req : Request) (w w1 w2 w3 : W) (dashboard d' : GrafanaDashboard)
        (sel : LabelSelector) (instances : list Grafana) (t : list Event) :
  names_resource req ->
  GetDashboard env (Request_Namespace req) (Request_Name req) w = (Ok dashboard, w1) ->
  InstanceSelector (Dashboard_Spec dashboard) = Some sel ->
  GetMatchingInstances env sel w1 = (Ok instances, w2) ->
  instances <> [] ->
  loop instances dashboard true w2 = ((Returns true, d'), w3, t) ->
  reconcile req w
  = (Returns (Result_RequeueAfter (GetResyncPeriod d'), None), w3,
     EvGetDashboard (Request_Namespace req) (Request_Name req)
       :: EvGetMatchingInstances sel :: t)
  /\ forallb instance_ready instances = true
  /\ count_events is_plugin_call t = length instances
  /\ count_events is_new_client t = length instances.
Proof.
  intros Hreq Hget Hsel Hmatch Hne Hloop. unfold names_resource in Hreq.
  destruct (Reconcile_loop_true _ _ _ _ Hloop) as (_ & Hready & Hp & Hc).
  split; [|now repeat split].
  assert (Hlen : (length instances =? 0)%nat = false)
    by (destruct instances; [congruence|reflexivity]).
  unfold Reconcile, bind, call, ret.
  rewrite Hreq, Hget. cbn beta iota. rewrite Hsel, Hmatch. cbn beta iota.
  rewrite Hlen, Hloop. cbn beta iota. now rewrite app_nil_r.
Qed.

(** X29: the loop of [Reconcile] hands every instance the resource as the
    instance before it left it, with the resolved content written into
    [Spec.Json].  When the resource so left has no longer exactly one source,
    each remaining instance only gets its plugin reconciliation, no backend
    is written for them, and [Reconcile] answers with the error delay,
    although the instances before were served. *)
Theorem Reconcile_later_instances_see_rewritten_resource
        (req : Request) (w w1 w2 w3 : W) (dashboard d1 : GrafanaDashboard)
        (sel : LabelSelector) (pre post : list Grafana) (s1 : bool)
        (t1 : list Event) :
  names_resource req ->
  GetDashboard env (Request_Namespace req) (Request_Name req) w = (Ok dashboard, w1) ->
  InstanceSelector (Dashboard_Spec dashboard) = Some sel ->
  GetMatchingInstances env sel w1 = (Ok (pre ++ post), w2) ->
  loop pre dashboard true w2 = ((Returns s1, d1), w3, t1) ->
  length (GetSourceTypes d1) <> 1 ->
  post <> [] ->
  value_of (reconcile req w) = Returns (Result_RequeueAfter RequeueDelayError, None)
  /\ exists t2,
      trace_of (reconcile req w)
      = EvGetDashboard (Request_Namespace req) (Request_Name req)
          :: EvGetMatchingInstances sel :: t1 ++ t2
      /\ forallb is_plugin_call t2 = true
      /\ length t2 <= length post.
Proof.
  intros Hreq Hget Hsel Hmatch Hpre Hsrc Hpost. unfold names_resource in Hreq.
  assert (Hlen : (length (pre ++ post) =? 0)%nat = false).
  { destruct pre; [|reflexivity]. destruct post; [congruence|reflexivity]. }
  assert (Hcount : forall instances success w0,
             length (trace_of (loop instances d1 success w0)) <= length instances).
  { induction instances as [|g rest IH]; intros success w0; [cbn; lia|].
    cbn [Reconcile_loop length]. destruct (instance_ready g); cbn [negb].
    - unfold bind, call, ret, trace_of.
      destruct (ReconcilePlugins env g _ _ w0) as [err w0'].
      rewrite (@onDashboardCreated_source_error W env GetSourceTypes hash
                 json_Unmarshal g d1 w0' Hsrc).
      cbn beta iota.
      match goal with
      | |- context [Reconcile_loop _ _ _ _ rest d1 ?s w0'] => specialize (IH s w0')
      end.
      unfold trace_of in IH.
      destruct (loop rest d1 _ w0') as [[v w4] t4]. cbn [snd app length] in *. lia.
    - specialize (IH false w0). lia. }
  destruct (@Reconcile_loop_source_error W env GetSourceTypes hash json_Unmarshal
              d1 Hsrc post s1 w3) as [Hv Ht].
  specialize (Hcount post s1 w3).
  unfold Reconcile, bind, call, ret, value_of, trace_of in *.
  rewrite Hreq, Hget. cbn beta iota. rewrite Hsel, Hmatch. cbn beta iota.
  rewrite Hlen. rewrite (@Reconcile_loop_app W env GetSourceTypes hash json_Unmarshal
                           pre post _ _ _ _ _ _ _ Hpre).
  destruct (loop post d1 s1 w3) as [[[o d2] w4] t2]. cbn [fst snd] in *.
  inversion Hv; subst.
  destruct post as [|g post]; [congruence|]. cbn beta iota.
  split; [reflexivity|]. exists t2. rewrite app_nil_r. now repeat split.
Qed.

End ReconcileBehaviour.

(** ** The instrumented round tripper *)

Section RoundTripperBehaviour.
Import RoundTripper.
Variable N : Type.
Variable in_ : instrumentedRoundTripper N.

(** The labels under which a round trip is counted, if it is. *)
Definition counted_as (r : HttpRequest) (out : option HttpResponse * option error)
  : option Labels :=
  match fst out with
  | Some resp => Some (relatedResource in_, Method r, Itoa (Http_StatusCode resp))
  | None => None
  end.

Definition counted_under (l : Labels)
           (trip : HttpRequest * (option HttpResponse * option error)) : bool :=
  match counted_as (fst trip) (snd trip) with
  | Some l' => Labels_eqb l l'
  | None => false
  end.

Lemma RoundTrip_counter (r : HttpRequest) (n : N) (metric : CounterVec)
      (l : Labels) :
  snd (snd (RoundTrip in_ r (n, metric))) l
  = metric l
    + (if counted_under l (r, fst (RoundTrip in_ r (n, metric))) then 1 else 0).
Proof.
  unfold RoundTrip, counted_under, counted_as.
  destruct (wrapped in_ r n) as [[[resp|] err] n']; cbn [fst snd]; [|lia].
  unfold Inc. destruct (Labels_eqb l _); lia.
Qed.

(** X26: [RoundTrip] hands back the response and the error of the wrapped
    transport as they are and leaves the network as the transport left it;
    when there is a response it adds one to the counter of (related
    resource, method, status code) and leaves every other counter alone;
    when there is none, no counter moves. *)
Theorem RoundTrip_counts_responses (r : HttpRequest) (n : N) (metric : CounterVec) :
  let out := RoundTrip in_ r (n, metric) in
  fst out = fst (wrapped in_ r n)
  /\ fst (snd out) = snd (wrapped in_ r n)
  /\ forall l,
      snd (snd out) l
      = metric l + (if counted_under l (r, fst (wrapped in_ r n)) then 1 else 0).
Proof.
  unfold RoundTrip, counted_under, counted_as.
  destruct (wrapped in_ r n) as [[resp err] n']. cbn [fst snd].
  split; [reflexivity|]. split; [reflexivity|].
  intros l. destruct resp as [resp|]; [|lia].
  unfold Inc. destruct (Labels_eqb l _); lia.
Qed.

(** X27: over any sequence of requests, every request is sent in its turn
    and each counter grows by the number of the round trips of the sequence
    that got a response with its label values; a counter of another related
    resource never moves. *)
Theorem round_trips_count (rs : list HttpRequest) :
  forall (n : N) (metric : CounterVec),
    let run := round_trips in_ rs (n, metric) in
    map fst (fst run) = rs
    /\ (forall l,
           snd (snd run) l = metric l + length (filter (counted_under l) (fst run)))
    /\ (forall resource method code,
           resource <> relatedResource in_ ->
           snd (snd run) (resource, method, code) = metric (resource, method, code)).
Proof.
  induction rs as [|r rs IH]; intros n metric.
  - cbn. repeat split; intros; lia.
  - cbn [round_trips].
    pose proof (RoundTrip_counter r n metric) as Hcount.
    destruct (RoundTrip in_ r (n, metric)) as [out [n' metric']].
    cbn [fst snd] in *.
    specialize (IH n' metric'). cbn zeta in IH.
    destruct (round_trips in_ rs (n', metric')) as [outs [n'' metric'']].
    cbn [fst snd] in *. destruct IH as (Hmap & Hall & Hother).
    split; [cbn; now rewrite Hmap|]. split.
    + intros l. rewrite Hall, Hcount. cbn [filter].
      destruct (counted_under l (r, out)); cbn [length]; lia.
    + intros resource method code Hne. rewrite (Hother _ _ _ Hne), Hcount.
      unfold counted_under, counted_as. cbn [fst snd].
      destruct (fst out) as [resp|]; [|lia].
      unfold Labels_eqb.
      destruct (String.eqb_spec resource (relatedResource in_)); [contradiction|].
      cbn [andb]. lia.
Qed.

End RoundTripperBehaviour.

(** ** Instances of the further properties *)

Section MoreRuns.
Import Sim Scenario Faulty.

Definition team_folder : Folder := {| Folder_ID := 3; Folder_Title := "team" |}.

Lemma GetOrCreateFolder_resolves_witness :
  GetOrCreateFolder Sim.env client_a board converged = ((0%Z, None), converged, [])
  /\ GetOrCreateFolder Sim.env client_a team_board filed
     = ((3%Z, None), filed, [EvFolders client_a]).
Proof.
  destruct (@GetOrCreateFolder_resolves World Sim.env client_a board converged)
    as [Hroot _].
  destruct (@GetOrCreateFolder_resolves World Sim.env client_a team_board filed)
    as [_ Hfound].
  split; [exact (Hroot eq_refl)|].
  apply (Hfound [team_folder] team_folder filed).
  - discriminate.
  - reflexivity.
  - exists [], []. repeat split; reflexivity.
  - discriminate.
Defined.

Lemma GetOrCreateFolder_creates_missing_witness :
  GetOrCreateFolder Sim.env client_a team_board empty_backend
  = ((1%Z, None), snd (NewFolder Sim.env client_a "team" empty_backend),
     [EvFolders client_a; EvNewFolder client_a "team"]).
Proof.
  apply (@GetOrCreateFolder_creates_missing World Sim.env client_a team_board
           empty_backend empty_backend []).
  - discriminate.
  - reflexivity.
  - reflexivity.
Defined.

Lemma GetOrCreateFolder_discipline_witness :
  let r := GetOrCreateFolder (Faulty.env
                                {| store_down := false; selection_down := false;
                                   folders_down := true; lookup_down := false;
                                   deletion_down := false; save_rejected := false |})
                             client_a team_board empty_backend in
  fst (value_of r) = 0%Z
  /\ r = ((0%Z, Some unavailable), empty_backend, [EvFolders client_a]).
Proof.
  intros r.
  destruct (@GetOrCreateFolder_discipline World
              (Faulty.env {| store_down := false; selection_down := false;
                             folders_down := true; lookup_down := false;
                             deletion_down := false; save_rejected := false |})
              client_a team_board empty_backend)
    as (_ & _ & _ & Hzero & Herr).
  split.
  - apply Hzero. discriminate.
  - apply (Herr ltac:(discriminate) unavailable empty_backend). reflexivity.
Defined.

Lemma DeleteFolderIfEmpty_keeps_used_folder_witness :
  DeleteFolderIfEmpty Sim.env client_a 3 filed
  = (({| Response_Status := "resource is still in use"; StatusCode := 423 |}, None),
     filed, [EvDashboards client_a]).
Proof.
  apply (@DeleteFolderIfEmpty_keeps_used_folder World Sim.env client_a 3 filed filed
           [{| Search_UID := "x"; Search_FolderID := 3 |}]); reflexivity.
Defined.

Lemma folder_in_use_is_never_logged_witness :
  StatusCode (fst (value_of (DeleteFolderIfEmpty Sim.env client_a 3 filed))) = 423%Z
  /\ folder_cleanup_log (fst (value_of (DeleteFolderIfEmpty Sim.env client_a 3 filed)))
     = [].
Proof.
  destruct (@folder_in_use_is_never_logged World Sim.env client_a 3 filed) as [_ H].
  split; [reflexivity|]. apply H. reflexivity.
Defined.

Definition created_in (e : Env World) (g : Grafana) (cr : GrafanaDashboard) (w : World) :=
  onDashboardCreated e source_types digest unmarshal g cr w.

Lemma onDashboardCreated_sends_identity_witness :
  let d := dashboard_of team_board [] 1 in
  In (EvNewDashboard client_a d)
     (trace_of (created_in Sim.env (instance "a" []) team_board empty_backend))
  /\ Overwrite d = true
  /\ Slug (Meta d) = "board"
  /\ map_get (Model d) "uid" = Some (JString "board")
  /\ IsStarred (Meta d) = false
  /\ Message d = "".
Proof.
  intros d.
  assert (Hin : In (EvNewDashboard client_a d)
                   (trace_of (created_in Sim.env (instance "a" []) team_board
                                         empty_backend)))
    by (vm_compute; do 4 right; left; reflexivity).
  split; [exact Hin|].
  exact (@onDashboardCreated_sends_identity World Sim.env source_types digest unmarshal
           (instance "a" []) team_board empty_backend client_a d Hin).
Defined.

Lemma onDashboardCreated_nil_means_converged_witness :
  let r := created_in Sim.env (instance "a" []) team_board empty_backend in
  fst (fst (value_of r)) = Returns None
  /\ Unchanged digest (snd (value_of r)) = true
  /\ count_events is_dashboard_write (trace_of r) = 1
  /\ NRL_Find (Status_Dashboards (Grafana_Status (snd (fst (value_of r)))))
              "ns" "board" = Some "board".
Proof.
  intros r.
  assert (Hnil : fst (fst (value_of r)) = Returns None) by reflexivity.
  destruct (@onDashboardCreated_nil_means_converged World Sim.env source_types digest
              unmarshal (instance "a" []) team_board empty_backend Hnil)
    as [Hunchanged _].
  split; [exact Hnil|]. split; [exact Hunchanged|]. split; reflexivity.
Defined.

Definition folders_out : Faults :=
  {| store_down := false; selection_down := false; folders_down := true;
     lookup_down := false; deletion_down := false; save_rejected := false |}.

Definition lookup_out : Faults :=
  {| store_down := false; selection_down := false; folders_down := false;
     lookup_down := true; deletion_down := false; save_rejected := false |}.

Definition deletion_out : Faults :=
  {| store_down := false; selection_down := false; folders_down := false;
     lookup_down := false; deletion_down := true; save_rejected := false |}.

Definition store_out : Faults :=
  {| store_down := true; selection_down := false; folders_down := false;
     lookup_down := false; deletion_down := false; save_rejected := false |}.

Definition selection_out : Faults :=
  {| store_down := false; selection_down := true; folders_down := false;
     lookup_down := false; deletion_down := false; save_rejected := false |}.

Definition saves_rejected : Faults :=
  {| store_down := false; selection_down := false; folders_down := false;
     lookup_down := false; deletion_down := false; save_rejected := true |}.

Definition ready_a : Grafana := instance "a" [].

Definition prefix_a : list Event := [EvNewGrafanaClient ready_a; EvDashboards client_a].

Lemma reaches_write_on_empty_backend (f : Faults) (cr : GrafanaDashboard) :
  source_types cr = [DashboardSourceTypeRawJson] ->
  @reaches_write World (Faulty.env f) source_types digest ready_a cr empty_backend
                 (Json (Dashboard_Spec cr)) client_a empty_backend prefix_a.
Proof.
  intros Hsrc. constructor.
  exists empty_backend, empty_backend, [], [].
  unfold fetchDashboardJson. rewrite Hsrc. repeat split; reflexivity.
Defined.

Lemma onDashboardCreated_folder_error_is_internal_witness :
  created_in (Faulty.env folders_out) ready_a team_board empty_backend
  = ((Returns (Some (NewInternalError unavailable)), ready_a, team_board),
     empty_backend, prefix_a ++ [EvFolders client_a])
  /\ Error (NewInternalError unavailable)
     = "Internal error occurred: status: 500, body: unavailable"
  /\ IsNotFound (NewInternalError unavailable) = false.
Proof.
  exact (@onDashboardCreated_folder_error_is_internal World (Faulty.env folders_out)
           source_types digest unmarshal ready_a team_board empty_backend "{}" client_a
           empty_backend empty_backend prefix_a [EvFolders client_a] (Some []) 0%Z
           unavailable
           (reaches_write_on_empty_backend folders_out team_board eq_refl)
           eq_refl eq_refl).
Defined.

Lemma onDashboardCreated_null_document_panics_witness :
  let created_folder := snd (NewFolder Sim.env client_a "team" empty_backend) in
  created_in (Faulty.env none) ready_a null_board empty_backend
  = ((Panics "assignment to entry in nil map", ready_a, null_board),
     created_folder,
     prefix_a ++ [EvFolders client_a; EvNewFolder client_a "team"])
  /\ backend_folders (backend_of created_folder client_a)
     = [{| Folder_ID := 1; Folder_Title := "team" |}].
Proof.
  intros created_folder. split; [|reflexivity].
  exact (@onDashboardCreated_null_document_panics World (Faulty.env none)
           source_types digest unmarshal ready_a null_board empty_backend "null" client_a
           empty_backend created_folder prefix_a
           [EvFolders client_a; EvNewFolder client_a "team"] 1%Z
           (reaches_write_on_empty_backend none null_board eq_refl)
           eq_refl eq_refl).
Defined.

Lemma onDashboardCreated_rejected_save_witness :
  let created_folder := snd (NewFolder Sim.env client_a "team" empty_backend) in
  let r := created_in (Faulty.env saves_rejected) ready_a team_board empty_backend in
  value_of r
  = (Returns (Some (NewBadRequest "error creating dashboard, status was failed")),
     ready_a, team_board)
  /\ count_events is_dashboard_write (trace_of r) = 1
  /\ count_events is_status_write (trace_of r) = 0.
Proof.
  intros created_folder r.
  pose proof (@onDashboardCreated_rejected_save World (Faulty.env saves_rejected)
                source_types digest unmarshal ready_a team_board empty_backend "{}"
                client_a empty_backend created_folder created_folder prefix_a
                [EvFolders client_a; EvNewFolder client_a "team"] [] 1%Z
                {| Save_Status := "failed"; Save_UID := "" |}
                (reaches_write_on_empty_backend saves_rejected team_board eq_refl)
                eq_refl eq_refl eq_refl ltac:(discriminate)) as H.
  cbv zeta in H. subst r. unfold created_in. rewrite H. repeat split.
Defined.

Lemma onDashboardDeleted_only_removes_witness :
  let t := trace_of (onDashboardDeleted Sim.env "ns" "board" after_removal) in
  forallb (drops_tracked "ns" "board") t = true
  /\ count_events is_grafana_status_write t <= 1.
Proof.
  intros t.
  destruct (@onDashboardDeleted_only_removes World Sim.env "ns" "board" after_removal)
    as [Hdrops Hcount].
  split; [exact Hdrops|].
  exact (Hcount [tracking] after_removal eq_refl).
Defined.

Lemma onDashboardDeleted_untracked_is_a_noop_witness :
  onDashboardDeleted Sim.env "ns" "nobody" after_removal
  = (Returns None, after_removal, [EvListGrafanas]).
Proof.
  exact (@onDashboardDeleted_untracked_is_a_noop World Sim.env "ns" "nobody"
           after_removal after_removal [tracking] eq_refl eq_refl).
Defined.

Lemma onDashboardDeleted_loop_stops_on_error_witness :
  onDashboardDeleted_loop (Faulty.env lookup_out) [tracking; ready_a] "ns" "board"
                          after_removal
  = (Returns (Some unavailable), after_removal,
     [EvNewGrafanaClient tracking; EvDashboardByUID client_a "board"])
  /\ onDashboardDeleted_loop (Faulty.env deletion_out) [tracking; ready_a] "ns" "board"
                             after_removal
     = (Returns (Some unavailable), after_removal,
        [EvNewGrafanaClient tracking; EvDashboardByUID client_a "board";
         EvDeleteDashboardByUID client_a "board"]).
Proof.
  split.
  - destruct (@onDashboardDeleted_loop_stops_on_error World (Faulty.env lookup_out)
                tracking [ready_a] "ns" "board" "board" client_a after_removal
                after_removal eq_refl eq_refl) as [Hlookup _].
    exact (Hlookup None unavailable after_removal eq_refl eq_refl).
  - destruct (@onDashboardDeleted_loop_stops_on_error World (Faulty.env deletion_out)
                tracking [ready_a] "ns" "board" "board" client_a after_removal
                after_removal eq_refl eq_refl) as [_ Hdeletion].
    eapply Hdeletion; reflexivity.
Defined.

Lemma onDashboardDeleted_loop_removes_entry_witness :
  let r := onDashboardDeleted_loop Sim.env [tracking] "ns" "board" after_removal in
  value_of r = Returns None
  /\ trace_of r
     = [EvNewGrafanaClient tracking; EvDashboardByUID client_a "board";
        EvDeleteDashboardByUID client_a "board"; EvDashboards client_a;
        EvDeleteFolder client_a "3";
        EvReconcilePlugins tracking [] "board-dashboard";
        EvUpdateGrafanaStatus ready_a]
  /\ tracked_counts (world_of r) = [0].
Proof.
  intros r.
  set (dash := {| Meta := {| IsStarred := false; Slug := "board"; Meta_Folder := 3 |};
                  Model := [("uid", JString "board")];
                  Dashboard_Folder := 3; Overwrite := false; Message := "" |}).
  set (w3 := snd (DeleteDashboardByUID Sim.env client_a "board" after_removal)).
  set (cleanup := DeleteFolderIfEmpty Sim.env client_a 3 w3).
  set (w6 := snd (UpdateGrafanaStatus Sim.env ready_a (world_of cleanup))).
  destruct (@onDashboardDeleted_loop_removes_entry World Sim.env tracking []
              "ns" "board" "board" client_a dash None None
              (fst (value_of cleanup))
              after_removal after_removal after_removal w3 (world_of cleanup)
              (world_of cleanup) w6 (trace_of cleanup)
              eq_refl eq_refl eq_refl eq_refl eq_refl eq_refl eq_refl eq_refl eq_refl)
    as [_ Hrun].
  subst r. rewrite Hrun. repeat split.
Defined.

Lemma dashboardsToDelete_per_iteration_witness :
  snd (dashboardsToDelete PerIteration (grafanas some_orphans) (dashboards some_orphans))
  = [(0, [tracked "a" 0; tracked "a" 1]); (1, [tracked "b" 0])]
  /\ fst (dashboardsToDelete PerIteration (grafanas some_orphans)
                             (dashboards some_orphans)) 1
     = second_instance.
Proof.
  destruct (@dashboardsToDelete_per_iteration (grafanas some_orphans)
              (dashboards some_orphans)) as [Hmap Hheap].
  split; [exact Hmap|]. apply (Hheap 1). cbn. lia.
Defined.

Lemma syncDashboards_nothing_to_do_witness :
  syncDashboards Sim.env in_order PerIteration no_instance
  = ((Result_Requeue false, None), no_instance, [EvListGrafanas])
  /\ syncDashboards Sim.env in_order PerIteration converged
     = ((Result_Requeue false, None), converged, [EvListGrafanas; EvListDashboards]).
Proof.
  split.
  - destruct (@syncDashboards_nothing_to_do World Sim.env in_order PerIteration
                no_instance no_instance (fun m => Permutation_refl m)) as [Hnone _].
    exact (Hnone eq_refl).
  - destruct (@syncDashboards_nothing_to_do World Sim.env in_order PerIteration
                converged converged (fun m => Permutation_refl m)) as [_ Hclean].
    apply (Hclean (grafanas converged) (dashboards converged) converged).
    + reflexivity.
    + discriminate.
    + reflexivity.
    + reflexivity.
Defined.

Lemma sync_delete_loop_prunes_witness :
  let r := sync_delete_loop Sim.env client_a (orphans (dashboards some_orphans)
                                                      first_instance)
                            first_instance 0 some_orphans in
  value_of r = Next (instance "a" [kept_entry], 2)
  /\ trace_of r = [EvDeleteDashboardByUID client_a "a0";
                   EvDeleteDashboardByUID client_a "a1"].
Proof.
  intros r.
  destruct (@sync_delete_loop_prunes World Sim.env (dashboards some_orphans) client_a
              first_instance 0 some_orphans
              (fst (match value_of r with Next s => s | Return _ => (first_instance, 0) end))
              (snd (match value_of r with Next s => s | Return _ => (first_instance, 0) end))
              (world_of r) (trace_of r) eq_refl)
    as (Hpruned & Htrace & Hcount).
  split; [|exact Htrace].
  reflexivity.
Defined.

Lemma syncDashboards_complete_pass_statuses_witness :
  filter is_grafana_status_write
         (trace_of (syncDashboards Sim.env in_order PerIteration some_orphans))
  = [EvUpdateGrafanaStatus (instance "a" [kept_entry]);
     EvUpdateGrafanaStatus (instance "b" [])].
Proof.
  exact (@syncDashboards_complete_pass_statuses World Sim.env in_order
           some_orphans some_orphans some_orphans
           (grafanas some_orphans) (dashboards some_orphans)
           (fun m => Permutation_refl m) eq_refl eq_refl eq_refl).
Defined.

Lemma syncDashboards_per_loop_last_instance_witness :
  let t := trace_of (syncDashboards Sim.env in_order PerLoop some_orphans) in
  count_events is_new_client t <= 1
  /\ In (EvNewGrafanaClient second_instance) t
  /\ last (grafanas some_orphans) zero_Grafana = second_instance.
Proof.
  intros t.
  destruct (@syncDashboards_per_loop_last_instance World Sim.env in_order
              some_orphans some_orphans (grafanas some_orphans)
              (fun m => Permutation_refl m) eq_refl) as [Hcount Hlast].
  assert (Hin : In (EvNewGrafanaClient second_instance) t)
    by (vm_compute; do 2 right; left; reflexivity).
  split; [exact Hcount|]. split; [exact Hin|].
  symmetry. exact (Hlast second_instance Hin).
Defined.

Definition task_in (signals : list Signal) (w : World) :=
  sync_task Sim.env error_delay resync_period source_types digest unmarshal in_order
            PerIteration signals w.

Lemma sync_task_is_paced_witness :
  task_in [TimerSignal; StopSignal; TimerSignal] (one_instance 101)
  = task_in [TimerSignal; StopSignal] (one_instance 101)
  /\ value_of (task_in [TimerSignal; StopSignal] (one_instance 101)) = TaskStopped
  /\ count_events is_dashboard_delete
                  (trace_of (task_in [TimerSignal; StopSignal] (one_instance 101)))
     <= 100.
Proof.
  destruct (@sync_task_is_paced World Sim.env error_delay resync_period source_types
              digest unmarshal in_order PerIteration
              [TimerSignal; StopSignal; TimerSignal] (one_instance 101))
    as (_ & _ & Hstop & _).
  destruct (@sync_task_is_paced World Sim.env error_delay resync_period source_types
              digest unmarshal in_order PerIteration
              [TimerSignal; StopSignal] (one_instance 101))
    as (Hpace & _ & _ & _).
  split; [exact (Hstop [TimerSignal] [TimerSignal] eq_refl)|].
  split; [vm_compute; reflexivity|exact Hpace].
Defined.

Definition request (name : string) : Request :=
  {| Request_Namespace := "ns"; Request_Name := name |}.

Lemma Reconcile_leaves_early_witness :
  value_of (reconcile_in (Faulty.env store_out) "ns" "board" empty_backend)
  = Returns (Result_RequeueAfter error_delay,
             Some (StatusError StatusReasonUnknown "etcd unavailable"))
  /\ reconcile_in Sim.env "ns" "loose" empty_backend
     = (Returns (Result_RequeueAfter error_delay, None), empty_backend,
        [EvGetDashboard "ns" "loose"])
  /\ value_of (reconcile_in (Faulty.env selection_out) "ns" "board" empty_backend)
     = Returns (Result_RequeueAfter error_delay,
                Some (StatusError StatusReasonUnknown "etcd unavailable"))
  /\ reconcile_in Sim.env "ns" "board" no_instance
     = (Returns (Result_Requeue false, None), no_instance,
        [EvGetDashboard "ns" "board"; EvGetMatchingInstances []]).
Proof.
  split; [|split; [|split]].
  - destruct (@Reconcile_leaves_early World (Faulty.env store_out) error_delay
                resync_period source_types digest unmarshal in_order PerIteration
                (request "board") empty_backend eq_refl) as [Hstore _].
    unfold reconcile_in. fold (request "board").
    now rewrite (Hstore _ empty_backend eq_refl eq_refl).
  - destruct (@Reconcile_leaves_early World Sim.env error_delay
                resync_period source_types digest unmarshal in_order PerIteration
                (request "loose") empty_backend eq_refl) as [_ Hfound].
    destruct (Hfound unselected empty_backend eq_refl) as [Hloose _].
    exact (Hloose eq_refl).
  - destruct (@Reconcile_leaves_early World (Faulty.env selection_out) error_delay
                resync_period source_types digest unmarshal in_order PerIteration
                (request "board") empty_backend eq_refl) as [_ Hfound].
    destruct (Hfound team_board empty_backend eq_refl) as (_ & Hselection & _).
    unfold reconcile_in. fold (request "board").
    now rewrite (Hselection [] _ empty_backend eq_refl eq_refl).
  - destruct (@Reconcile_leaves_early World Sim.env error_delay
                resync_period source_types digest unmarshal in_order PerIteration
                (request "board") no_instance eq_refl) as [_ Hfound].
    destruct (Hfound team_board no_instance eq_refl) as (_ & _ & Hnone).
    exact (Hnone [] no_instance eq_refl eq_refl).
Defined.

Lemma Reconcile_resync_needs_every_instance_witness :
  let r := reconcile_in Sim.env "ns" "fresh" two_instances in
  value_of r = Returns (Result_RequeueAfter 300, None)
  /\ forallb instance_ready (grafanas two_instances) = true
  /\ count_events is_new_client (trace_of r) = 2.
Proof.
  intros r.
  set (run := Reconcile_loop Sim.env source_types digest unmarshal
                             (grafanas two_instances) fresh true two_instances).
  destruct (@Reconcile_resync_needs_every_instance World Sim.env error_delay
              resync_period source_types digest unmarshal in_order PerIteration
              (request "fresh") two_instances two_instances two_instances
              (world_of run) fresh (snd (value_of run)) [] (grafanas two_instances)
              (trace_of run) eq_refl eq_refl eq_refl eq_refl
              ltac:(discriminate) eq_refl)
    as (Hrun & Hready & _ & Hclients).
  subst r. unfold reconcile_in. fold (request "fresh"). rewrite Hrun.
  split; [reflexivity|]. split; [exact Hready|].
  unfold trace_of. cbn [snd]. count. exact Hclients.
Defined.

Lemma round_trips_count_witness :
  let run := RoundTripper.round_trips toy_transport
               [get "/api/search"; post "/api/dashboards/db";
                delete "/api/dashboards/uid/x"; get "/api/folders"]
               (0, fun _ => 0) in
  snd (snd run) ("grafana-a", "GET", "200") = 2
  /\ snd (snd run) ("grafana-a", "DELETE", "404") = 1
  /\ snd (snd run) ("grafana-a", "POST", "200") = 0
  /\ snd (snd run) ("grafana-b", "GET", "200") = 0.
Proof.
  intros run.
  destruct (@round_trips_count nat toy_transport
              [get "/api/search"; post "/api/dashboards/db";
               delete "/api/dashboards/uid/x"; get "/api/folders"]
              0 (fun _ => 0)) as (_ & Hall & Hother).
  fold run in Hall, Hother.
  split; [rewrite Hall; reflexivity|].
  split; [rewrite Hall; reflexivity|].
  split; [rewrite Hall; reflexivity|].
  apply (Hother "grafana-b" "GET" "200"). discriminate.
Defined.

Lemma onDashboardCreated_twice_is_silent_witness :
  let first := created_in Sim.env ready_a team_board empty_backend in
  let grafana' := snd (fst (value_of first)) in
  let cr' := snd (value_of first) in
  count_events is_dashboard_write (trace_of first) = 1
  /\ created_in Sim.env grafana' cr' (world_of first)
     = ((Returns None, grafana', cr'), world_of first,
        [EvNewGrafanaClient grafana'; EvDashboards client_a]).
Proof.
  intros first grafana' cr'. split; [reflexivity|].
  exact (@onDashboardCreated_twice_is_silent World Sim.env source_types digest unmarshal
           ready_a grafana' team_board cr' empty_backend (world_of first)
           (world_of first) (world_of first) (trace_of first) client_a
           (backend_dashboards (backend_of (world_of first) client_a))
           eq_refl eq_refl eq_refl eq_refl eq_refl).
Defined.

(** A resource whose content comes from a URL, and two ready instances. *)
Definition url_board : GrafanaDashboard :=
  {| Dashboard_Namespace := "ns"; Dashboard_Name := "remote"; Dashboard_UID := "remote";
     Dashboard_Spec := {| Json := ""; Url := "https://example.org/remote.json";
                          FolderTitle := ""; InstanceSelector := Some [];
                          Plugins := [] |};
     Status_Hash := "" |}.

Definition two_for_url : World :=
  {| grafanas := [instance "a" []; instance "b" []];
     dashboards := [url_board];
     backends := [("a", backend_with []); ("b", backend_with [])] |}.

Lemma Reconcile_later_instances_see_rewritten_resource_witness :
  let r := reconcile_in Sim.env "ns" "remote" two_for_url in
  length (source_types url_board) = 1
  /\ value_of r = Returns (Result_RequeueAfter error_delay, None)
  /\ count_events is_dashboard_write (trace_of r) = 1
  /\ tracked_counts (world_of r) = [1; 0].
Proof.
  intros r.
  set (run_a := Reconcile_loop Sim.env source_types digest unmarshal
                               [instance "a" []] url_board true two_for_url).
  destruct (@Reconcile_later_instances_see_rewritten_resource World Sim.env error_delay
              resync_period source_types digest unmarshal in_order PerIteration
              (request "remote") two_for_url two_for_url two_for_url (world_of run_a)
              url_board (snd (value_of run_a)) [] [instance "a" []] [instance "b" []]
              true (trace_of run_a)
              eq_refl eq_refl eq_refl eq_refl eq_refl
              ltac:(vm_compute; discriminate) ltac:(discriminate))
    as [Hdelay _].
  split; [reflexivity|]. split; [exact Hdelay|]. split; reflexivity.
Defined.

End MoreRuns.
